(** * A minimal X11 client: wire encoding, handshake, identifiers, events

    Shallow embedding of [src/bin/bob/examples/bin/c-x11/src/x11.c] and of
    the structure layouts of [x11.h].

    Conventions of the embedding:
    - a byte is a [Z] in [0, 256); memory reachable through a C pointer is
      the [list Z] of the bytes stored from that address on;
    - [uintN_t] values are [Z] in [0, 2^N); every implicit narrowing
      conversion of the source is written out as a [mod];
    - [size_t] is 64 bits wide (LP64);
    - structures are written to the socket in their in-memory layout, so
      multi-byte fields follow the byte order of the host, a parameter
      of the development (the source selects it with [__BYTE_ORDER__]). *)

From Stdlib Require Import String Ascii.
From Stdlib Require Import ZArith List Lia Bool.
From Equations Require Import Equations.
Import ListNotations.
Local Open Scope Z_scope.

Set Implicit Arguments.

(** ** Machine integers *)

Definition to_uint8 (v : Z) : Z := v mod 2 ^ 8.
Definition to_uint16 (v : Z) : Z := v mod 2 ^ 16.
Definition to_uint32 (v : Z) : Z := v mod 2 ^ 32.
Definition to_size_t (v : Z) : Z := v mod 2 ^ 64.

(** Two's complement reading of a 16-bit pattern ([int16_t]). *)
Definition to_int16 (v : Z) : Z :=
  let u := to_uint16 v in if u <? 2 ^ 15 then u else u - 2 ^ 16.

Definition is_byte (b : Z) : Prop := 0 <= b < 256.
Definition is_uint16 (v : Z) : Prop := 0 <= v < 2 ^ 16.
Definition is_uint32 (v : Z) : Prop := 0 <= v < 2 ^ 32.
Definition is_int16 (v : Z) : Prop := - 2 ^ 15 <= v < 2 ^ 15.
Definition is_size_t (v : Z) : Prop := 0 <= v < 2 ^ 64.

(** ** Byte order and the in-memory image of integers *)

Inductive byte_order : Type := LittleEndian | BigEndian.

Fixpoint le_bytes (n : nat) (v : Z) : list Z :=
  match n with
  | O => []
  | S n' => v mod 256 :: le_bytes n' (v / 256)
  end.

Fixpoint le_value (bs : list Z) : Z :=
  match bs with
  | [] => 0
  | b :: bs' => b + 256 * le_value bs'
  end.

(** [store o n v]: the [n] bytes an [n]-byte integer object holding [v]
    occupies in memory; [load o bs]: the value of the integer object whose
    bytes are [bs]. *)
Definition store (o : byte_order) (n : nat) (v : Z) : list Z :=
  match o with
  | LittleEndian => le_bytes n v
  | BigEndian => rev (le_bytes n v)
  end.

Definition load (o : byte_order) (bs : list Z) : Z :=
  match o with
  | LittleEndian => le_value bs
  | BigEndian => le_value (rev bs)
  end.

(** The value of a [uint16_t] (resp. [uint32_t], [uint8_t]) object. *)
Definition load_u16 (o : byte_order) (bs : list Z) : Z :=
  to_uint16 (load o (firstn 2 bs)).

Definition load_u32 (o : byte_order) (bs : list Z) : Z :=
  to_uint32 (load o (firstn 4 bs)).

Definition load_u8 (bs : list Z) : Z := to_uint8 (hd 0 bs).

(** [bytes_at off n mem]: the [n] bytes of [mem] from offset [off]. *)
Definition bytes_at (off n : nat) (mem : list Z) : list Z :=
  firstn n (skipn off mem).

(** [store_into buf data]: [data] copied over the beginning of [buf]
    (what a [read] of [length data] bytes does to the buffer). *)
Definition store_into (buf data : list Z) : list Z :=
  data ++ skipn (length data) buf.

(** [ntohs]: network (big-endian) to host conversion of a 16-bit value. *)
Definition bswap16 (v : Z) : Z := (v mod 256) * 256 + (v / 256) mod 256.

Definition ntohs (host : byte_order) (v : Z) : Z :=
  match host with
  | LittleEndian => bswap16 v
  | BigEndian => v
  end.

(** ** The transport

    The socket of a connection: [rx] holds the bytes the server sends
    before it closes the stream, [tx] the bytes written so far, and
    [rx_fail] tells that [read] fails (returns -1, storing nothing).
    A [read] delivers the bytes asked for as long as the stream has them
    and fewer at its end; a [write] sends all its bytes (the source never
    looks at the count either returns, except for the first [read] of
    [x11_wait_for_event]).  Code that uses the socket is written in the
    state monad [IO]. *)

Record world : Type := World {
  rx : list Z;
  tx : list Z;
  rx_fail : bool
}.

Definition IO (A : Type) : Type := world -> A * world.

Definition ret {A} (a : A) : IO A := fun w => (a, w).

Definition bind {A B} (m : IO A) (k : A -> IO B) : IO B :=
  fun w => let (a, w') := m w in k a w'.

Notation "x <- m ;; k" := (bind m (fun x => k))
  (at level 61, m at next level, right associativity).
Notation "m ;;; k" := (bind m (fun _ => k))
  (at level 61, right associativity).

(** [read(fd, buf, n)]: the return value and the bytes stored at [buf]. *)
Definition sys_read (n : nat) : IO (Z * list Z) :=
  fun w =>
    if rx_fail w then ((-1, []), w)
    else
      let data := firstn n (rx w) in
      ((Z.of_nat (length data), data),
       World (skipn n (rx w)) (tx w) (rx_fail w)).

(** [write(fd, buf, n)]: the [n] bytes found at [buf] are sent. *)
Definition sys_write (buf : list Z) (n : Z) : IO unit :=
  fun w => (tt, World (rx w) (tx w ++ firstn (Z.to_nat n) buf) (rx_fail w)).

(** The bytes a computation sends. *)
Definition sent {A} (m : IO A) (w : world) : list Z :=
  skipn (length (tx w)) (tx (snd (m w))).

(** ** Protocol constants ([x11.h]) *)

Definition X11_CREATE_WINDOW : Z := 1.
Definition X11_CONFIGURE_WINDOW : Z := 12.
Definition X11_CHANGE_PROPERTY : Z := 18.
Definition X11_OPEN_FONT : Z := 45.
Definition X11_CREATE_GC : Z := 55.
Definition X11_IMAGE_TEXT_8 : Z := 76.
Definition X11_EXPOSE : Z := 12.

(** ** The connection and the event ([x11.h]) *)

Definition sizeof_x11_screen_t : nat := 40.

Record x11_connection_t : Type := Connection {
  fd : Z;
  id : Z;
  id_inc : Z;
  screen : list Z   (* the raw image of [x11_screen_t], 40 bytes *)
}.

Record x11_event_t : Type := Event { type : Z }.

(** ** Request structures ([x11.h])

    One record per structure, with the image of the structure in memory;
    no structure below has compiler-inserted padding. *)

Record x11_open_font_request_t : Type := OpenFontRequest {
  of_major_opcode : Z;
  of_pad0 : Z;
  of_length : Z;
  of_fid : Z;
  of_name_len : Z;
  of_pad1 : list Z
}.

Record x11_create_gc_request_t : Type := CreateGcRequest {
  gc_major_opcode : Z;
  gc_pad0 : Z;
  gc_length : Z;
  gc_cid : Z;
  gc_drawable : Z;
  gc_value_mask : Z
}.

Record x11_create_window_request_t : Type := CreateWindowRequest {
  cw_major_opcode : Z;
  cw_depth : Z;
  cw_length : Z;
  cw_wid : Z;
  cw_parent : Z;
  cw_x : Z;
  cw_y : Z;
  cw_width : Z;
  cw_height : Z;
  cw_border_width : Z;
  cw__class : Z;
  cw_visual : Z;
  cw_value_mask : Z
}.

Record x11_change_property_request_t : Type := ChangePropertyRequest {
  cp_major_opcode : Z;
  cp_mode : Z;
  cp_length : Z;
  cp_window : Z;
  cp_property : Z;
  cp_type : Z;
  cp_format : Z;
  cp_pad0 : list Z;
  cp_data_len : Z
}.

Record x11_configure_window_request_t : Type := ConfigureWindowRequest {
  cf_major_opcode : Z;
  cf_pad0 : Z;
  cf_length : Z;
  cf_window : Z;
  cf_value_mask : Z;
  cf_pad1 : list Z
}.

Record x11_image_text_8_request_t : Type := ImageText8Request {
  it_major_opcode : Z;
  it_string_len : Z;
  it_length : Z;
  it_drawable : Z;
  it_gc : Z;
  it_x : Z;
  it_y : Z
}.

Definition sizeof_x11_open_font_request_t : Z := 12.
Definition sizeof_x11_create_gc_request_t : Z := 16.
Definition sizeof_x11_create_window_request_t : Z := 32.
Definition sizeof_x11_change_property_request_t : Z := 24.
Definition sizeof_x11_configure_window_request_t : Z := 12.
Definition sizeof_x11_image_text_8_request_t : Z := 16.

Section Requests.

Variable host : byte_order.

Definition image_open_font_request (r : x11_open_font_request_t) : list Z :=
  [to_uint8 (of_major_opcode r)] ++ [to_uint8 (of_pad0 r)]
  ++ store host 2 (of_length r) ++ store host 4 (of_fid r)
  ++ store host 2 (of_name_len r) ++ firstn 2 (of_pad1 r).

Definition image_create_gc_request (r : x11_create_gc_request_t) : list Z :=
  [to_uint8 (gc_major_opcode r)] ++ [to_uint8 (gc_pad0 r)]
  ++ store host 2 (gc_length r) ++ store host 4 (gc_cid r)
  ++ store host 4 (gc_drawable r) ++ store host 4 (gc_value_mask r).

Definition image_create_window_request (r : x11_create_window_request_t)
  : list Z :=
  [to_uint8 (cw_major_opcode r)] ++ [to_uint8 (cw_depth r)]
  ++ store host 2 (cw_length r) ++ store host 4 (cw_wid r)
  ++ store host 4 (cw_parent r)
  ++ store host 2 (cw_x r) ++ store host 2 (cw_y r)
  ++ store host 2 (cw_width r) ++ store host 2 (cw_height r)
  ++ store host 2 (cw_border_width r) ++ store host 2 (cw__class r)
  ++ store host 4 (cw_visual r) ++ store host 4 (cw_value_mask r).

Definition image_change_property_request (r : x11_change_property_request_t)
  : list Z :=
  [to_uint8 (cp_major_opcode r)] ++ [to_uint8 (cp_mode r)]
  ++ store host 2 (cp_length r) ++ store host 4 (cp_window r)
  ++ store host 4 (cp_property r) ++ store host 4 (cp_type r)
  ++ [to_uint8 (cp_format r)] ++ firstn 3 (cp_pad0 r)
  ++ store host 4 (cp_data_len r).

Definition image_configure_window_request
  (r : x11_configure_window_request_t) : list Z :=
  [to_uint8 (cf_major_opcode r)] ++ [to_uint8 (cf_pad0 r)]
  ++ store host 2 (cf_length r) ++ store host 4 (cf_window r)
  ++ store host 2 (cf_value_mask r) ++ firstn 2 (cf_pad1 r).

Definition image_image_text_8_request (r : x11_image_text_8_request_t)
  : list Z :=
  [to_uint8 (it_major_opcode r)] ++ [to_uint8 (it_string_len r)]
  ++ store host 2 (it_length r) ++ store host 4 (it_drawable r)
  ++ store host 4 (it_gc r)
  ++ store host 2 (it_x r) ++ store host 2 (it_y r).

(** Memory behind a [uint32_t*]: the words, each in host byte order. *)
Definition words_image (ws : list Z) : list Z := flat_map (store host 4) ws.

(** ** The request encoders ([x11.c]) *)

(** [(n + 3) & ~3] in [size_t] arithmetic. *)
Definition align4 (n : Z) : Z :=
  Z.land (to_size_t (n + 3)) (to_size_t (Z.lnot 3)).

Definition x11_open_font (conn : x11_connection_t) (fid : Z)
    (name : list Z) (name_size : Z) : IO unit :=
  let aligned_name_size := align4 name_size in
  let open_font_request := {|
    of_major_opcode := X11_OPEN_FONT;
    of_pad0 := 0;
    of_length :=
      to_uint16
        (to_size_t (sizeof_x11_open_font_request_t + aligned_name_size) / 4);
    of_fid := fid;
    of_name_len := to_uint16 name_size;
    of_pad1 := [0; 0] |} in
  sys_write (image_open_font_request open_font_request)
            sizeof_x11_open_font_request_t ;;;
  sys_write name aligned_name_size.

Definition x11_create_gc (conn : x11_connection_t) (cid drawable : Z)
    (value_mask : Z) (value_list : list Z) (value_list_size : Z) : IO unit :=
  let create_gc_request := {|
    gc_major_opcode := X11_CREATE_GC;
    gc_pad0 := 0;
    gc_length :=
      to_uint16
        (to_size_t (sizeof_x11_create_gc_request_t + value_list_size) / 4);
    gc_cid := cid;
    gc_drawable := drawable;
    gc_value_mask := value_mask |} in
  sys_write (image_create_gc_request create_gc_request)
            sizeof_x11_create_gc_request_t ;;;
  sys_write (words_image value_list) value_list_size.

Definition x11_create_window (conn : x11_connection_t) (depth : Z)
    (wid parent : Z) (x y : Z) (width height border_width _class : Z)
    (visual value_mask : Z) (value_list : list Z) (value_list_size : Z)
  : IO unit :=
  let create_window_request := {|
    cw_major_opcode := X11_CREATE_WINDOW;
    cw_depth := depth;
    cw_length :=
      to_uint16
        (to_size_t (sizeof_x11_create_window_request_t + value_list_size)
         / 4);
    cw_wid := wid;
    cw_parent := parent;
    cw_x := x;
    cw_y := y;
    cw_width := width;
    cw_height := height;
    cw_border_width := border_width;
    cw__class := _class;
    cw_visual := visual;
    cw_value_mask := value_mask |} in
  sys_write (image_create_window_request create_window_request)
            sizeof_x11_create_window_request_t ;;;
  sys_write (words_image value_list) value_list_size.

Definition x11_change_property (conn : x11_connection_t) (mode : Z)
    (window property type_ : Z) (format : Z) (data : list Z) (data_size : Z)
  : IO unit :=
  let aligned_data_size := align4 data_size in
  let change_property_request := {|
    cp_major_opcode := X11_CHANGE_PROPERTY;
    cp_mode := mode;
    cp_length :=
      to_uint16
        (to_size_t (sizeof_x11_change_property_request_t + aligned_data_size)
         / 4);
    cp_window := window;
    cp_property := property;
    cp_type := type_;
    cp_format := format;
    cp_pad0 := [0; 0; 0];
    cp_data_len := to_uint32 data_size |} in
  sys_write (image_change_property_request change_property_request)
            sizeof_x11_change_property_request_t ;;;
  sys_write data aligned_data_size.

Definition x11_configure_window (conn : x11_connection_t) (window : Z)
    (value_mask : Z) (value_list : list Z) (value_list_size : Z) : IO unit :=
  let configure_window_request := {|
    cf_major_opcode := X11_CONFIGURE_WINDOW;
    cf_pad0 := 0;
    cf_length :=
      to_uint16
        (to_size_t (sizeof_x11_configure_window_request_t + value_list_size)
         / 4);
    cf_window := window;
    cf_value_mask := to_uint16 value_mask;
    cf_pad1 := [0; 0] |} in
  sys_write (image_configure_window_request configure_window_request)
            sizeof_x11_configure_window_request_t ;;;
  sys_write (words_image value_list) value_list_size.

Definition x11_image_text_8 (conn : x11_connection_t) (drawable gc : Z)
    (x y : Z) (string : list Z) (string_size : Z) : IO unit :=
  let aligned_string_size := align4 string_size in
  let image_text_8_request := {|
    it_major_opcode := X11_IMAGE_TEXT_8;
    it_string_len := to_uint8 string_size;
    it_length :=
      to_uint16
        (to_size_t (sizeof_x11_image_text_8_request_t + aligned_string_size)
         / 4);
    it_drawable := drawable;
    it_gc := gc;
    it_x := x;
    it_y := y |} in
  sys_write (image_image_text_8_request image_text_8_request)
            sizeof_x11_image_text_8_request_t ;;;
  sys_write string aligned_string_size.

End Requests.

(** ** Resource identifiers ([x11_generate_id]) *)

Definition x11_generate_id (conn : x11_connection_t)
  : Z * x11_connection_t :=
  let id_ := id conn in
  (id_, Connection (fd conn) (to_uint32 (id conn + id_inc conn))
                   (id_inc conn) (screen conn)).

(** The connection after [k] calls, and the value the [k]-th call
    (counted from 0) returns. *)
Fixpoint after_calls (k : nat) (conn : x11_connection_t) : x11_connection_t :=
  match k with
  | O => conn
  | S k' => after_calls k' (snd (x11_generate_id conn))
  end.

Definition kth_generated_id (k : nat) (conn : x11_connection_t) : Z :=
  fst (x11_generate_id (after_calls k conn)).

(** ** Events ([x11_wait_for_event]) *)

Definition x11_wait_for_event (conn : x11_connection_t) (event : x11_event_t)
  : IO (bool * x11_event_t) :=
  r <- sys_read 1 ;;
  let event1 := Event (hd (type event) (snd r)) in
  if fst r =? 0 then ret (false, event1)
  else
    let event2 := Event (to_uint8 (Z.land (type event1) (Z.lnot 128))) in
    if type event2 =? X11_EXPOSE then
      sys_read 13 ;;; ret (true, event2)
    else ret (true, event2).

(** ** The credential store ([parse_xauthority])

    A [FILE] opened on a regular file: its contents and the position of
    the stream. *)

Record FILE : Type := File {
  contents : list Z;
  pos : nat
}.

Record x11_cookie_t : Type := Cookie {
  name_len : Z;
  name : list Z;
  data_len : Z;
  data : list Z
}.

(** [fread(buf, size, nmemb, f)]: the number of complete items read, the
    bytes stored at [buf], and the stream afterwards. *)
Definition fread (size nmemb : nat) (f : FILE) : nat * list Z * FILE :=
  let got := firstn (size * nmemb) (skipn (pos f) (contents f)) in
  ((length got / size)%nat, got, File (contents f) (pos f + length got)).

(** [fseek(f, offset, SEEK_CUR)]: on a regular file the position may move
    past the end; only a negative resulting position is refused. *)
Definition fseek_cur (f : FILE) (offset : Z) : Z * FILE :=
  if Z.of_nat (pos f) + offset <? 0 then (-1, f)
  else (0, File (contents f) (Z.to_nat (Z.of_nat (pos f) + offset))).

Definition bytes_of_string (s : string) : list Z :=
  map (fun c => Z.of_N (N_of_ascii c)) (list_ascii_of_string s).

Definition MIT_MAGIC_COOKIE_1 : list Z :=
  Eval cbv in bytes_of_string "MIT-MAGIC-COOKIE-1".

Fixpoint bytes_eqb (a b : list Z) : bool :=
  match a, b with
  | [], [] => true
  | x :: a', y :: b' => (x =? y) && bytes_eqb a' b'
  | _, _ => false
  end.

(** [memcmp(a, b, n) == 0] *)
Definition memcmp_eq0 (a b : list Z) (n : nat) : bool :=
  bytes_eqb (firstn n a) (firstn n b).

(** The locals of one turn of the loop, once all its reads succeeded. *)
Record xauth_locals : Type := XauthLocals {
  family : Z;
  address_len : Z;
  display_len : Z;
  local_name_len : Z;
  local_name : list Z;
  local_data_len : Z;
  local_data : list Z
}.

Notation "'let?' x ':=' m 'in' k" :=
  (match m with Some x => k | None => None end)
  (at level 10, x pattern, m at level 100, k at level 200).

Definition inspect {A} (a : A) : {b : A | a = b} := exist _ a eq_refl.

Section Xauthority.

Variable host : byte_order.

(** [fread(&v, 2, 1, f) != 1] breaks; otherwise [v = ntohs(v)]. *)
Definition fread_ntohs (f : FILE) : option (Z * FILE) :=
  let '(n, bytes, f') := fread 2 1 f in
  if negb (Nat.eqb n 1) then None
  else Some (ntohs host (load_u16 host bytes), f').

(** [fseek(f, len, SEEK_CUR) != 0] breaks. *)
Definition fseek_skip (f : FILE) (len : Z) : option FILE :=
  let (r, f') := fseek_cur f len in
  if negb (r =? 0) then None else Some f'.

(** [fread(buf, 1, len, f) != len] breaks. *)
Definition fread_counted (f : FILE) (len : Z) : option (list Z * FILE) :=
  let '(n, bytes, f') := fread 1 (Z.to_nat len) f in
  if negb (Z.of_nat n =? len) then None else Some (bytes, f').

(** The reads of one turn of the loop; [None] is a [break]. *)
Definition xauth_reads (f : FILE) : option (xauth_locals * FILE) :=
  let? (family, f) := fread_ntohs f in
  let? (address_len, f) := fread_ntohs f in
  let? f := fseek_skip f address_len in
  let? (display_len, f) := fread_ntohs f in
  let? f := fseek_skip f display_len in
  let? (local_name_len, f) := fread_ntohs f in
  let? (local_name, f) := fread_counted f local_name_len in
  let? (local_data_len, f) := fread_ntohs f in
  let? (local_data, f) := fread_counted f local_data_len in
  Some (XauthLocals family address_len display_len local_name_len local_name
                    local_data_len local_data, f).

Definition is_magic_cookie (l : xauth_locals) : bool :=
  (local_name_len l =? 18)
  && memcmp_eq0 (local_name l) MIT_MAGIC_COOKIE_1 18.

Definition remaining (f : FILE) : nat := (length (contents f) - pos f)%nat.

Equations? xauth_loop (f : FILE) : option x11_cookie_t
  by wf (remaining f) lt :=
xauth_loop f with inspect (xauth_reads f) := {
  | exist _ None _ => None
  | exist _ (Some (l, f')) e =>
      if is_magic_cookie l then
        Some (Cookie (local_name_len l) (local_name l)
                     (local_data_len l) (local_data l))
      else xauth_loop f' }.
Proof.
  clear xauth_loop.
  assert (Hread : forall g v g', fread_ntohs g = Some (v, g') ->
            0 <= v /\ contents g' = contents g
            /\ (pos g' = pos g + 2 /\ pos g' <= length (contents g))%nat).
  { intros [c p] v g'. unfold fread_ntohs, fread; cbn [contents pos].
    set (got := firstn (2 * 1) (skipn p c)).
    assert (Hgot : (length got <= 2 /\ length got <= length c - p)%nat).
    { unfold got. rewrite length_firstn, length_skipn. lia. }
    destruct (Nat.eqb (length got / 2) 1) eqn:E; cbn [negb];
      [|discriminate].
    intros [= <- <-]; cbn [contents pos]. apply Nat.eqb_eq in E.
    assert (length got = 2)%nat.
    { destruct (length got) as [|[|[|n]]]; cbn in E; try discriminate; lia. }
    repeat split; try lia.
    unfold ntohs, bswap16, load_u16, to_uint16.
    destruct host; [|apply Z.mod_pos_bound; lia].
    match goal with
    | |- 0 <= ?a mod 256 * 256 + ?b mod 256 =>
        pose proof (Z.mod_pos_bound a 256); pose proof (Z.mod_pos_bound b 256);
        lia
    end. }
  assert (Hseek : forall g n g', 0 <= n -> fseek_skip g n = Some g' ->
            contents g' = contents g /\ (pos g <= pos g')%nat).
  { intros [c p] n g' Hn. unfold fseek_skip, fseek_cur; cbn [contents pos].
    destruct (Z.of_nat p + n <? 0) eqn:E; cbn; [discriminate|].
    intros [= <-]; cbn [contents pos]. split; [reflexivity|lia]. }
  assert (Hcount : forall g n bs g', fread_counted g n = Some (bs, g') ->
            contents g' = contents g /\ (pos g <= pos g')%nat).
  { intros [c p] n bs g'. unfold fread_counted, fread; cbn [contents pos].
    destruct (negb _); [discriminate|].
    intros [= _ <-]; cbn [contents pos]. split; [reflexivity|lia]. }
  revert e. unfold xauth_reads.
  destruct (fread_ntohs f) as [[v1 f1]|] eqn:E1; [|discriminate].
  destruct (fread_ntohs f1) as [[v2 f2]|] eqn:E2; [|discriminate].
  destruct (fseek_skip f2 v2) as [f3|] eqn:E3; [|discriminate].
  destruct (fread_ntohs f3) as [[v4 f4]|] eqn:E4; [|discriminate].
  destruct (fseek_skip f4 v4) as [f5|] eqn:E5; [|discriminate].
  destruct (fread_ntohs f5) as [[v6 f6]|] eqn:E6; [|discriminate].
  destruct (fread_counted f6 v6) as [[b7 f7]|] eqn:E7; [|discriminate].
  destruct (fread_ntohs f7) as [[v8 f8]|] eqn:E8; [|discriminate].
  destruct (fread_counted f8 v8) as [[b9 f9]|] eqn:E9; [|discriminate].
  intros [= _ <-].
  apply Hread in E1, E2, E4, E6, E8. apply Hcount in E7, E9.
  apply Hseek in E3, E5; try tauto.
  unfold remaining.
  destruct E1 as (_ & C1 & ? & ?), E2 as (_ & C2 & ? & _), E3 as (C3 & ?),
    E4 as (_ & C4 & ? & _), E5 as (C5 & ?), E6 as (_ & C6 & ? & _),
    E7 as (C7 & ?), E8 as (_ & C8 & ? & _), E9 as (C9 & ?).
  replace (contents f9) with (contents f) by congruence.
  lia.
Qed.

Definition parse_xauthority (xauth_file : option (list Z))
  : option x11_cookie_t :=
  match xauth_file with
  | Some bytes => xauth_loop (File bytes 0)
  | None => None
  end.

End Xauthority.

(** ** The handshake ([x11_connect]) *)

Record x11_setup_request_t : Type := SetupRequest {
  byte_order_ : Z;
  sr_pad0 : Z;
  protocol_major_version : Z;
  protocol_minor_version : Z;
  authorization_protocol_name_len : Z;
  authorization_protocol_data_len : Z;
  sr_pad1 : list Z
}.

Definition sizeof_x11_setup_request_t : Z := 12.
Definition sizeof_x11_setup_t : nat := 40.
Definition sizeof_x11_format_t : nat := 8.
Definition sizeof_x11_depth_t : nat := 8.
Definition sizeof_x11_visualtype_t : nat := 24.

(** What the process sees of its surroundings: the environment variables,
    the files [fopen] can open, the descriptor [socket] returns, and the
    indeterminate bytes an automatic object of a given size starts with.
    The socket itself is the [world] of the [IO] monad; how [DISPLAY]
    selects its address is not modelled. *)
Record process : Type := Process {
  getenv : string -> option string;
  fopen_rb : string -> option (list Z);
  socket_fd : Z;
  indeterminate : nat -> list Z
}.

Section Handshake.

Variable host : byte_order.

Definition image_setup_request (r : x11_setup_request_t) : list Z :=
  [to_uint8 (byte_order_ r)] ++ [to_uint8 (sr_pad0 r)]
  ++ store host 2 (protocol_major_version r)
  ++ store host 2 (protocol_minor_version r)
  ++ store host 2 (authorization_protocol_name_len r)
  ++ store host 2 (authorization_protocol_data_len r)
  ++ firstn 2 (sr_pad1 r).

(** Fields of [x11_setup_t], [x11_screen_t] and [x11_depth_t], read from
    the image of the structure. *)
Definition setup_status (setup : list Z) : Z :=
  load_u8 (bytes_at 0 1 setup).
Definition setup_resource_id_base (setup : list Z) : Z :=
  load_u32 host (bytes_at 12 4 setup).
Definition setup_resource_id_mask (setup : list Z) : Z :=
  load_u32 host (bytes_at 16 4 setup).
Definition setup_vendor_len (setup : list Z) : Z :=
  load_u16 host (bytes_at 24 2 setup).
Definition setup_roots_len (setup : list Z) : Z :=
  load_u8 (bytes_at 28 1 setup).
Definition setup_pixmap_formats_len (setup : list Z) : Z :=
  load_u8 (bytes_at 29 1 setup).
Definition screen_allowed_depths_len (scr : list Z) : Z :=
  load_u8 (bytes_at 39 1 scr).
Definition depth_visuals_len (depth : list Z) : Z :=
  load_u16 host (bytes_at 2 2 depth).

(** [sprintf(xauth_path, "%s/.Xauthority", getenv("HOME"))], replaced by
    [XAUTHORITY] when it is set (glibc prints a null [HOME] as (null)). *)
Definition xauth_path (p : process) : string :=
  match getenv p "XAUTHORITY" with
  | Some s => s
  | None =>
      (match getenv p "HOME" with Some h => h | None => "(null)" end
       ++ "/.Xauthority")%string
  end.

(** [-(m)] on a [uint32_t]. *)
Definition neg_uint32 (m : Z) : Z := to_uint32 (- m).

Fixpoint read_visuals (k : nat) : IO unit :=
  match k with
  | O => ret tt
  | S k' => sys_read sizeof_x11_visualtype_t ;;; read_visuals k'
  end.

Fixpoint read_depths (p : process) (j : nat) : IO unit :=
  match j with
  | O => ret tt
  | S j' =>
      r <- sys_read sizeof_x11_depth_t ;;
      let unused_depth :=
        store_into (indeterminate p sizeof_x11_depth_t) (snd r) in
      read_visuals (Z.to_nat (depth_visuals_len unused_depth)) ;;;
      read_depths p j'
  end.

(** The loop over the screens: [n] turns are left, [i] is the index. *)
Fixpoint read_screens (p : process) (n : nat) (i : nat)
    (conn : x11_connection_t) (unused_screen : list Z)
  : IO x11_connection_t :=
  match n with
  | O => ret conn
  | S n' =>
      r <- sys_read sizeof_x11_screen_t ;;
      let conn' :=
        if Nat.eqb i 0
        then Connection (fd conn) (id conn) (id_inc conn)
                        (store_into (screen conn) (snd r))
        else conn in
      let unused_screen' :=
        if Nat.eqb i 0 then unused_screen
        else store_into unused_screen (snd r) in
      let scr := if Nat.eqb i 0 then screen conn' else unused_screen' in
      read_depths p (Z.to_nat (screen_allowed_depths_len scr)) ;;;
      read_screens p n' (S i) conn' unused_screen'
  end.

Definition write_cookie (cookie : option x11_cookie_t) : IO unit :=
  match cookie with
  | Some c =>
      let pad := [0; 0; 0; 0] in
      sys_write (name c) (name_len c) ;;;
      (if negb (name_len c mod 4 =? 0)
       then sys_write pad (4 - name_len c mod 4) else ret tt) ;;;
      sys_write (data c) (data_len c) ;;;
      (if negb (data_len c mod 4 =? 0)
       then sys_write pad (4 - data_len c mod 4) else ret tt)
  | None => ret tt
  end.

(** [x11_connect]: the credential lookup, the setup request, the reply.
    The results of [socket] and [connect] are not checked by the source;
    the [world] is the socket they produced. *)
Definition x11_connect (p : process) (conn : x11_connection_t)
  : IO (bool * x11_connection_t) :=
  let cookie := parse_xauthority host (fopen_rb p (xauth_path p)) in
  let conn := Connection (socket_fd p) (id conn) (id_inc conn) (screen conn) in
  let setup_request := {|
    byte_order_ := match host with BigEndian => 66 | LittleEndian => 108 end;
    sr_pad0 := 0;
    protocol_major_version := 11;
    protocol_minor_version := 0;
    authorization_protocol_name_len :=
      match cookie with Some c => name_len c | None => 0 end;
    authorization_protocol_data_len :=
      match cookie with Some c => data_len c | None => 0 end;
    sr_pad1 := [0; 0] |} in
  sys_write (image_setup_request setup_request) sizeof_x11_setup_request_t ;;;
  write_cookie cookie ;;;
  r <- sys_read sizeof_x11_setup_t ;;
  let setup := store_into (indeterminate p sizeof_x11_setup_t) (snd r) in
  if negb (setup_status setup =? 1) then ret (false, conn)
  else
    let conn :=
      Connection (fd conn) (setup_resource_id_base setup)
        (Z.land (setup_resource_id_mask setup)
                (neg_uint32 (setup_resource_id_mask setup)))
        (screen conn) in
    sys_read (Z.to_nat (setup_vendor_len setup)) ;;;
    sys_read (Z.to_nat (setup_pixmap_formats_len setup)
              * sizeof_x11_format_t) ;;;
    conn <- read_screens p (Z.to_nat (setup_roots_len setup)) 0 conn
              (indeterminate p sizeof_x11_screen_t) ;;
    ret (true, conn).

End Handshake.

(** ** Notions of the specification

    The definitions below follow the words of the specification, to be
    compared with the code embedded above. *)

(** The lowest set bit of a mask (0 when no bit is set). *)
Fixpoint lowest_set_bit_pos (p : positive) : Z :=
  match p with
  | xO p' => 2 * lowest_set_bit_pos p'
  | _ => 1
  end.

Definition lowest_set_bit (m : Z) : Z :=
  match m with
  | Zpos p => lowest_set_bit_pos p
  | _ => 0
  end.

(** [(L + 3) & ~3] on unbounded integers. *)
Definition pad4 (L : Z) : Z := Z.land (L + 3) (Z.lnot 3).

(** The 2-byte length field of a request: bytes 2 and 3. *)
Definition length_field (host : byte_order) (msg : list Z) : Z :=
  load_u16 host (bytes_at 2 2 msg).

(** A request that carries [L] payload bytes found at [payload], padded
    with zero bytes ("Request encoding", section 8). *)
Definition zero_padded_request (host : byte_order) (hdr L : Z)
    (payload msg : list Z) : Prop :=
  length_field host msg = (hdr + pad4 L) / 4
  /\ skipn (Z.to_nat hdr) msg
     = firstn (Z.to_nat L) payload ++ repeat 0 (Z.to_nat (pad4 L - L)).

(** A request that carries a value list of [size] bytes, unpadded. *)
Definition unpadded_request (host : byte_order) (hdr size : Z)
    (payload msg : list Z) : Prop :=
  length_field host msg = (hdr + size) / 4
  /\ skipn (Z.to_nat hdr) msg = firstn (Z.to_nat size) payload.

(** What the encoders of byte-counted payloads establish by design: the
    length field is the word count reduced to 16 bits, and the header is
    followed by the [L] payload bytes.  Nothing is said of the bytes
    written after the payload. *)
Definition padded_request (host : byte_order) (hdr L : Z)
    (payload msg : list Z) : Prop :=
  length_field host msg = to_uint16 ((hdr + pad4 L) / 4)
  /\ (hdr + pad4 L < 2 ^ 18 -> length_field host msg = (hdr + pad4 L) / 4)
  /\ firstn (Z.to_nat L) (skipn (Z.to_nat hdr) msg)
     = firstn (Z.to_nat L) payload.

(** What the encoders of value lists establish. *)
Definition word_list_request (host : byte_order) (hdr size : Z)
    (payload msg : list Z) : Prop :=
  length_field host msg = to_uint16 ((hdr + size) / 4)
  /\ (hdr + size < 2 ^ 18 ->
      length_field host msg = (hdr + size) / 4
      /\ 4 * length_field host msg = Z.of_nat (length msg))
  /\ skipn (Z.to_nat hdr) msg = firstn (Z.to_nat size) payload
  /\ Z.of_nat (length (skipn (Z.to_nat hdr) msg)) = size.

(** "The k-th call returns [b + k*inc]" and "each call advances the
    counter by exactly [inc]". *)
Definition id_allocation_claim (conn : x11_connection_t) (k : nat) : Prop :=
  kth_generated_id k conn = id conn + Z.of_nat k * id_inc conn
  /\ id (after_calls (S k) conn)
     = id (after_calls k conn) + id_inc conn.

(** A record of the credential store (section 4.1): a 2-byte family code,
    then address, display qualifier, family name and token, each preceded
    by its length as a 2-byte big-endian count. *)
Record xauth_entry : Type := XauthEntry {
  e_family : Z;
  e_address : list Z;
  e_display : list Z;
  e_name : list Z;
  e_data : list Z
}.

Definition be16 (v : Z) : list Z := [(v / 256) mod 256; v mod 256].

Definition counted (field : list Z) : list Z :=
  be16 (Z.of_nat (length field)) ++ field.

Definition encode_entry (e : xauth_entry) : list Z :=
  be16 (e_family e) ++ counted (e_address e) ++ counted (e_display e)
  ++ counted (e_name e) ++ counted (e_data e).

Definition well_formed_entry (e : xauth_entry) : Prop :=
  is_uint16 (e_family e)
  /\ is_uint16 (Z.of_nat (length (e_address e)))
  /\ is_uint16 (Z.of_nat (length (e_display e)))
  /\ is_uint16 (Z.of_nat (length (e_name e)))
  /\ is_uint16 (Z.of_nat (length (e_data e))).

Definition cookie_of_entry (e : xauth_entry) : x11_cookie_t :=
  Cookie (Z.of_nat (length (e_name e))) (e_name e)
         (Z.of_nat (length (e_data e))) (e_data e).

(** What the loop holds in its locals after reading the record [e]. *)
Definition locals_of_entry (e : xauth_entry) : xauth_locals :=
  XauthLocals (e_family e)
    (Z.of_nat (length (e_address e))) (Z.of_nat (length (e_display e)))
    (Z.of_nat (length (e_name e))) (e_name e)
    (Z.of_nat (length (e_data e))) (e_data e).

(** The unread part of a stream. *)
Definition at_cursor (f : FILE) (bytes : list Z) : Prop :=
  skipn (pos f) (contents f) = bytes.

(** A store with no credential to find: well-formed records of other
    families, then bytes that do not begin with a complete record (nothing
    at all, or a record cut short). *)
Definition store_without_credential (store : list Z) : Prop :=
  exists pre tail,
    store = flat_map encode_entry pre ++ tail
    /\ Forall well_formed_entry pre
    /\ Forall (fun e => e_name e <> MIT_MAGIC_COOKIE_1) pre
    /\ (forall e rest, well_formed_entry e -> tail <> encode_entry e ++ rest).

(** A truncated store: complete records, then a record that ends before
    its last byte (end of file in the middle of a record). *)
Definition truncated (store : list Z) : Prop :=
  exists entries e k,
    Forall well_formed_entry entries /\ well_formed_entry e
    /\ (0 < k < length (encode_entry e))%nat
    /\ store = flat_map encode_entry entries ++ firstn k (encode_entry e).

(** Re-parsing a create-window request against the layout of
    [x11_create_window_request_t]: the header fields, then the value list
    as the 32-bit words that follow the header. *)
Fixpoint decode_words (host : byte_order) (n : nat) (bs : list Z) : list Z :=
  match n with
  | O => []
  | S n' => load_u32 host bs :: decode_words host n' (skipn 4 bs)
  end.

Definition decode_create_window (host : byte_order) (msg : list Z)
  : x11_create_window_request_t * list Z :=
  ({| cw_major_opcode := load_u8 (bytes_at 0 1 msg);
      cw_depth := load_u8 (bytes_at 1 1 msg);
      cw_length := load_u16 host (bytes_at 2 2 msg);
      cw_wid := load_u32 host (bytes_at 4 4 msg);
      cw_parent := load_u32 host (bytes_at 8 4 msg);
      cw_x := to_int16 (load_u16 host (bytes_at 12 2 msg));
      cw_y := to_int16 (load_u16 host (bytes_at 14 2 msg));
      cw_width := load_u16 host (bytes_at 16 2 msg);
      cw_height := load_u16 host (bytes_at 18 2 msg);
      cw_border_width := load_u16 host (bytes_at 20 2 msg);
      cw__class := load_u16 host (bytes_at 22 2 msg);
      cw_visual := load_u32 host (bytes_at 24 4 msg);
      cw_value_mask := load_u32 host (bytes_at 28 4 msg) |},
   decode_words host ((length msg - 32) / 4) (skipn 32 msg)).

(** Reading never sends anything and never repairs or breaks the socket. *)
Definition reads_only {A} (m : IO A) : Prop :=
  forall w, tx (snd (m w)) = tx w /\ rx_fail (snd (m w)) = rx_fail w.

(** The setup request sent when no credential was found. *)
Definition setup_request_without_credential (host : byte_order) : list Z :=
  image_setup_request host
    {| byte_order_ := match host with BigEndian => 66 | LittleEndian => 108 end;
       sr_pad0 := 0;
       protocol_major_version := 11;
       protocol_minor_version := 0;
       authorization_protocol_name_len := 0;
       authorization_protocol_data_len := 0;
       sr_pad1 := [0; 0] |}.

(** "A truncated store yields not found" and "proceed with zero-length
    authentication fields" (sections 8 and 4.2), for a process that finds
    [store] at the location of its credential store. *)
Definition no_credential_claim (host : byte_order) (p : process)
    (conn : x11_connection_t) (w : world) (store : list Z) : Prop :=
  parse_xauthority host (Some store) = None
  /\ (fopen_rb p (xauth_path p) = Some store ->
      load_u16 host (bytes_at 6 2 (sent (x11_connect host p conn) w)) = 0
      /\ load_u16 host (bytes_at 8 2 (sent (x11_connect host p conn) w)) = 0).

(** Two records of a credential store: one of another family, then the
    cookie. *)
Definition sample_other_entry : xauth_entry :=
  XauthEntry 256 [9; 9] [48] [65; 66; 67] [7; 8].

Definition sample_cookie_entry : xauth_entry :=
  XauthEntry 256 [] [] MIT_MAGIC_COOKIE_1 [1; 2; 3; 4].

(** A store cut short in the middle of its second record, and a process
    that finds it at the default location. *)
Definition truncated_store : list Z :=
  encode_entry sample_other_entry
  ++ firstn 20 (encode_entry sample_cookie_entry).

Definition process_with_truncated_store : process :=
  Process (fun _ => None)
          (fun path =>
             if String.eqb path "(null)/.Xauthority" then Some truncated_store
             else None)
          3 (fun n => repeat 170 n).

(** A store cut short after a complete cookie record: the first two bytes
    of a second record follow it. *)
Definition store_cut_after_cookie : list Z :=
  encode_entry sample_cookie_entry
  ++ firstn 2 (encode_entry sample_other_entry).

Definition process_with_store_cut_after_cookie : process :=
  Process (fun _ => None)
          (fun path =>
             if String.eqb path "(null)/.Xauthority"
             then Some store_cut_after_cookie
             else None)
          3 (fun n => repeat 170 n).

(** ** Sample inputs

    A process without environment and without credential store, and the
    setup replies of a mock server on a little-endian host: success with
    resource-id base 0x00400000, mask 0x001FFFFF, no vendor string, no
    formats and no screens; and a refusal. *)

Definition mock_process : process :=
  Process (fun _ => None) (fun _ => None) 3 (fun n => repeat 170 n).

Definition mock_setup_success : list Z :=
  [1; 0; 11; 0; 0; 0; 0; 0] ++ [0; 0; 0; 0] ++ [0; 0; 64; 0]
  ++ [255; 255; 31; 0] ++ [0; 0; 0; 0] ++ [0; 0; 255; 255]
  ++ [0; 0; 0; 0; 8; 32; 8; 255] ++ [0; 0; 0; 0].

Definition mock_setup_failed : list Z := 0 :: tl mock_setup_success.

(** The same success reply with resource-id mask 0xFFFFFFFE. *)
Definition mock_setup_even_mask : list Z :=
  firstn 16 mock_setup_success ++ [254; 255; 255; 255]
  ++ skipn 20 mock_setup_success.

Definition fresh_connection : x11_connection_t := Connection 0 7 9 [].

(** ** The remaining requests ([x11.h], [x11.c]) *)

Definition X11_MAP_WINDOW : Z := 8.
Definition X11_CLOSE_FONT : Z := 46.
Definition X11_POLY_RECTANGLE : Z := 67.

Record x11_close_font_request_t : Type := CloseFontRequest {
  clf_major_opcode : Z;
  clf_pad0 : Z;
  clf_length : Z;
  clf_font : Z
}.

Record x11_map_window_request_t : Type := MapWindowRequest {
  mw_major_opcode : Z;
  mw_pad0 : Z;
  mw_length : Z;
  mw_window : Z
}.

Record x11_poly_rectangle_request_t : Type := PolyRectangleRequest {
  pr_major_opcode : Z;
  pr_pad0 : Z;
  pr_length : Z;
  pr_drawable : Z;
  pr_gc : Z
}.

Record x11_rectangle_t : Type := Rectangle {
  r_x : Z;
  r_y : Z;
  r_width : Z;
  r_height : Z
}.

Definition sizeof_x11_close_font_request_t : Z := 8.
Definition sizeof_x11_map_window_request_t : Z := 8.
Definition sizeof_x11_poly_rectangle_request_t : Z := 12.
Definition sizeof_x11_rectangle_t : Z := 8.

Section MoreRequests.

Variable host : byte_order.

Definition image_close_font_request (r : x11_close_font_request_t)
  : list Z :=
  [to_uint8 (clf_major_opcode r)] ++ [to_uint8 (clf_pad0 r)]
  ++ store host 2 (clf_length r) ++ store host 4 (clf_font r).

Definition image_map_window_request (r : x11_map_window_request_t)
  : list Z :=
  [to_uint8 (mw_major_opcode r)] ++ [to_uint8 (mw_pad0 r)]
  ++ store host 2 (mw_length r) ++ store host 4 (mw_window r).

Definition image_poly_rectangle_request (r : x11_poly_rectangle_request_t)
  : list Z :=
  [to_uint8 (pr_major_opcode r)] ++ [to_uint8 (pr_pad0 r)]
  ++ store host 2 (pr_length r) ++ store host 4 (pr_drawable r)
  ++ store host 4 (pr_gc r).

Definition image_rectangle (r : x11_rectangle_t) : list Z :=
  store host 2 (r_x r) ++ store host 2 (r_y r)
  ++ store host 2 (r_width r) ++ store host 2 (r_height r).

(** Memory behind a [x11_rectangle_t*]. *)
Definition rectangles_image (rs : list x11_rectangle_t) : list Z :=
  flat_map image_rectangle rs.

Definition x11_close_font (conn : x11_connection_t) (font : Z) : IO unit :=
  let close_font_request := {|
    clf_major_opcode := X11_CLOSE_FONT;
    clf_pad0 := 0;
    clf_length := to_uint16 (sizeof_x11_close_font_request_t / 4);
    clf_font := font |} in
  sys_write (image_close_font_request close_font_request)
            sizeof_x11_close_font_request_t.

Definition x11_map_window (conn : x11_connection_t) (window : Z) : IO unit :=
  let map_window_request := {|
    mw_major_opcode := X11_MAP_WINDOW;
    mw_pad0 := 0;
    mw_length := to_uint16 (sizeof_x11_map_window_request_t / 4);
    mw_window := window |} in
  sys_write (image_map_window_request map_window_request)
            sizeof_x11_map_window_request_t.

Definition x11_poly_rectangle (conn : x11_connection_t) (drawable gc : Z)
    (rectangles : list x11_rectangle_t) (rectangles_size : Z) : IO unit :=
  let poly_rectangle_request := {|
    pr_major_opcode := X11_POLY_RECTANGLE;
    pr_pad0 := 0;
    pr_length :=
      to_uint16
        (to_size_t (sizeof_x11_poly_rectangle_request_t + rectangles_size)
         / 4);
    pr_drawable := drawable;
    pr_gc := gc |} in
  sys_write (image_poly_rectangle_request poly_rectangle_request)
            sizeof_x11_poly_rectangle_request_t ;;;
  sys_write (rectangles_image rectangles) rectangles_size.

End MoreRequests.

(** ** Re-parsing requests against the layouts of [x11.h] *)

Definition decode_resource_request (host : byte_order) (msg : list Z)
  : Z * Z * Z :=
  (load_u8 (bytes_at 0 1 msg), load_u16 host (bytes_at 2 2 msg),
   load_u32 host (bytes_at 4 4 msg)).

Definition decode_rectangle (host : byte_order) (bs : list Z)
  : x11_rectangle_t :=
  Rectangle (to_int16 (load_u16 host (bytes_at 0 2 bs)))
            (to_int16 (load_u16 host (bytes_at 2 2 bs)))
            (load_u16 host (bytes_at 4 2 bs))
            (load_u16 host (bytes_at 6 2 bs)).

Fixpoint decode_rectangles (host : byte_order) (n : nat) (bs : list Z)
  : list x11_rectangle_t :=
  match n with
  | O => []
  | S n' => decode_rectangle host bs :: decode_rectangles host n' (skipn 8 bs)
  end.

Definition decode_poly_rectangle (host : byte_order) (msg : list Z)
  : x11_poly_rectangle_request_t * list x11_rectangle_t :=
  ({| pr_major_opcode := load_u8 (bytes_at 0 1 msg);
      pr_pad0 := load_u8 (bytes_at 1 1 msg);
      pr_length := load_u16 host (bytes_at 2 2 msg);
      pr_drawable := load_u32 host (bytes_at 4 4 msg);
      pr_gc := load_u32 host (bytes_at 8 4 msg) |},
   decode_rectangles host ((length msg - 12) / 8) (skipn 12 msg)).

Definition well_formed_rectangle (r : x11_rectangle_t) : Prop :=
  is_int16 (r_x r) /\ is_int16 (r_y r)
  /\ is_uint16 (r_width r) /\ is_uint16 (r_height r).

Definition decode_open_font (host : byte_order) (msg : list Z)
  : x11_open_font_request_t * list Z :=
  let r := {| of_major_opcode := load_u8 (bytes_at 0 1 msg);
              of_pad0 := load_u8 (bytes_at 1 1 msg);
              of_length := load_u16 host (bytes_at 2 2 msg);
              of_fid := load_u32 host (bytes_at 4 4 msg);
              of_name_len := load_u16 host (bytes_at 8 2 msg);
              of_pad1 := bytes_at 10 2 msg |} in
  (r, bytes_at 12 (Z.to_nat (of_name_len r)) msg).

Definition decode_change_property (host : byte_order) (msg : list Z)
  : x11_change_property_request_t * list Z :=
  let r := {| cp_major_opcode := load_u8 (bytes_at 0 1 msg);
              cp_mode := load_u8 (bytes_at 1 1 msg);
              cp_length := load_u16 host (bytes_at 2 2 msg);
              cp_window := load_u32 host (bytes_at 4 4 msg);
              cp_property := load_u32 host (bytes_at 8 4 msg);
              cp_type := load_u32 host (bytes_at 12 4 msg);
              cp_format := load_u8 (bytes_at 16 1 msg);
              cp_pad0 := bytes_at 17 3 msg;
              cp_data_len := load_u32 host (bytes_at 20 4 msg) |} in
  (r, bytes_at 24 (Z.to_nat (cp_data_len r)) msg).

Definition decode_image_text_8 (host : byte_order) (msg : list Z)
  : x11_image_text_8_request_t * list Z :=
  let r := {| it_major_opcode := load_u8 (bytes_at 0 1 msg);
              it_string_len := load_u8 (bytes_at 1 1 msg);
              it_length := load_u16 host (bytes_at 2 2 msg);
              it_drawable := load_u32 host (bytes_at 4 4 msg);
              it_gc := load_u32 host (bytes_at 8 4 msg);
              it_x := to_int16 (load_u16 host (bytes_at 12 2 msg));
              it_y := to_int16 (load_u16 host (bytes_at 14 2 msg)) |} in
  (r, bytes_at 16 (Z.to_nat (it_string_len r)) msg).

Definition decode_create_gc (host : byte_order) (msg : list Z)
  : x11_create_gc_request_t * list Z :=
  ({| gc_major_opcode := load_u8 (bytes_at 0 1 msg);
      gc_pad0 := load_u8 (bytes_at 1 1 msg);
      gc_length := load_u16 host (bytes_at 2 2 msg);
      gc_cid := load_u32 host (bytes_at 4 4 msg);
      gc_drawable := load_u32 host (bytes_at 8 4 msg);
      gc_value_mask := load_u32 host (bytes_at 12 4 msg) |},
   decode_words host ((length msg - 16) / 4) (skipn 16 msg)).

Definition decode_configure_window (host : byte_order) (msg : list Z)
  : x11_configure_window_request_t * list Z :=
  ({| cf_major_opcode := load_u8 (bytes_at 0 1 msg);
      cf_pad0 := load_u8 (bytes_at 1 1 msg);
      cf_length := load_u16 host (bytes_at 2 2 msg);
      cf_window := load_u32 host (bytes_at 4 4 msg);
      cf_value_mask := load_u16 host (bytes_at 8 2 msg);
      cf_pad1 := bytes_at 10 2 msg |},
   decode_words host ((length msg - 12) / 4) (skipn 12 msg)).

(** ** The handshake, continued *)

(** The zero bytes that bring [n] bytes to a multiple of 4. *)
Definition padding_to_4 (n : Z) : list Z :=
  repeat 0 (Z.to_nat ((4 - n mod 4) mod 4)).

(** What [x11_connect] does once the setup reply is in [setup]. *)
Definition connect_after_reply (host : byte_order) (p : process)
    (conn : x11_connection_t) (setup : list Z)
  : IO (bool * x11_connection_t) :=
  let conn1 :=
    Connection (socket_fd p) (id conn) (id_inc conn) (screen conn) in
  if negb (setup_status setup =? 1) then ret (false, conn1)
  else
    let conn2 :=
      Connection (socket_fd p) (setup_resource_id_base host setup)
        (Z.land (setup_resource_id_mask host setup)
                (neg_uint32 (setup_resource_id_mask host setup)))
        (screen conn) in
    sys_read (Z.to_nat (setup_vendor_len host setup)) ;;;
    sys_read (Z.to_nat (setup_pixmap_formats_len setup)
              * sizeof_x11_format_t) ;;;
    c <- read_screens host p (Z.to_nat (setup_roots_len setup)) 0 conn2
           (indeterminate p sizeof_x11_screen_t) ;;
    ret (true, c).

(** The setup request as [x11_connect] fills it in. *)
Definition setup_request_for (host : byte_order)
    (cookie : option x11_cookie_t) : list Z :=
  image_setup_request host
    {| byte_order_ := match host with BigEndian => 66 | LittleEndian => 108 end;
       sr_pad0 := 0;
       protocol_major_version := 11;
       protocol_minor_version := 0;
       authorization_protocol_name_len :=
         match cookie with Some c => name_len c | None => 0 end;
       authorization_protocol_data_len :=
         match cookie with Some c => data_len c | None => 0 end;
       sr_pad1 := [0; 0] |}.

(** The tail of a setup reply as the loops of [x11_connect] walk it: each
    screen record is followed by its depth records, each depth record by
    its visual types; the counts are those stored in the records. *)
Record depth_block : Type := DepthBlock {
  db_depth : list Z;
  db_visuals : list (list Z)
}.

Record screen_block : Type := ScreenBlock {
  sb_screen : list Z;
  sb_depths : list depth_block
}.

Definition encode_depth (d : depth_block) : list Z :=
  db_depth d ++ concat (db_visuals d).

Definition encode_screen (s : screen_block) : list Z :=
  sb_screen s ++ flat_map encode_depth (sb_depths s).

Definition well_formed_depth (host : byte_order) (d : depth_block) : Prop :=
  length (db_depth d) = sizeof_x11_depth_t
  /\ Forall (fun v => length v = sizeof_x11_visualtype_t) (db_visuals d)
  /\ depth_visuals_len host (db_depth d) = Z.of_nat (length (db_visuals d)).

Definition well_formed_screen (host : byte_order) (s : screen_block)
  : Prop :=
  length (sb_screen s) = sizeof_x11_screen_t
  /\ screen_allowed_depths_len (sb_screen s)
     = Z.of_nat (length (sb_depths s))
  /\ Forall (well_formed_depth host) (sb_depths s).

(** A screen of 640 by 480 pixels with one depth of two visual types. *)
Definition sample_screen : screen_block :=
  ScreenBlock
    ([1; 0; 0; 0] ++ [32; 0; 0; 0] ++ [255; 255; 255; 0] ++ [0; 0; 0; 0]
     ++ [0; 0; 0; 0] ++ [128; 2; 224; 1] ++ [169; 0; 127; 0]
     ++ [1; 0; 1; 0] ++ [33; 0; 0; 0] ++ [0; 0; 24; 1])
    [DepthBlock [24; 0; 2; 0; 0; 0; 0; 0] [repeat 7 24; repeat 9 24]].

(** A success reply announcing a vendor string of 3 bytes, one pixmap
    format and one screen. *)
Definition mock_setup_one_screen : list Z :=
  firstn 24 mock_setup_success ++ [3; 0; 255; 255; 1; 1]
  ++ skipn 30 mock_setup_success.

(** ** The demonstration program ([main.c]) *)

Definition EXIT_SUCCESS : Z := 0.
Definition EXIT_FAILURE : Z := 1.

Definition X11_GC_FOREGROUND : Z := 4.
Definition X11_GC_BACKGROUND : Z := 8.
Definition X11_GC_FONT : Z := 16384.
Definition X11_COPY_FROM_PARENT : Z := 0.
Definition X11_WINDOW_CLASS_INPUT_OUTPUT : Z := 1.
Definition X11_CW_BACK_PIXEL : Z := 2.
Definition X11_CW_EVENT_MASK : Z := 2048.
Definition X11_EVENT_MASK_EXPOSURE : Z := 32768.
Definition X11_PROP_MODE_REPLACE : Z := 0.
Definition X11_ATOM_STRING : Z := 31.
Definition X11_ATOM_WM_NAME : Z := 39.
Definition X11_CONFIG_WINDOW_WIDTH : Z := 4.
Definition X11_CONFIG_WINDOW_HEIGHT : Z := 8.

(** Members of [x11_screen_t] that [main] reads. *)
Definition screen_root (host : byte_order) (scr : list Z) : Z :=
  load_u32 host (bytes_at 0 4 scr).
Definition screen_white_pixel (host : byte_order) (scr : list Z) : Z :=
  load_u32 host (bytes_at 8 4 scr).
Definition screen_black_pixel (host : byte_order) (scr : list Z) : Z :=
  load_u32 host (bytes_at 12 4 scr).
Definition screen_width_in_pixels (host : byte_order) (scr : list Z) : Z :=
  load_u16 host (bytes_at 20 2 scr).
Definition screen_height_in_pixels (host : byte_order) (scr : list Z) : Z :=
  load_u16 host (bytes_at 22 2 scr).
Definition screen_root_visual (host : byte_order) (scr : list Z) : Z :=
  load_u32 host (bytes_at 32 4 scr).

(** [strlen]: the bytes before the first zero byte. *)
Fixpoint strlen (mem : list Z) : Z :=
  match mem with
  | [] => 0
  | c :: mem' => if c =? 0 then 0 else 1 + strlen mem'
  end.

(** What the program finds in memory: behind each string literal, after
    its terminating zero, the bytes that happen to follow it; and the
    initial contents of the automatic objects [conn] and [event]. *)
Record program_memory : Type := ProgramMemory {
  after_font_name : list Z;
  after_window_title : list Z;
  after_message : list Z;
  uninitialized_conn : x11_connection_t;
  uninitialized_event : x11_event_t
}.

Definition string_literal (s : string) (after : list Z) : list Z :=
  bytes_of_string s ++ 0 :: after.

Definition newline : string := String (ascii_of_nat 10) EmptyString.

(** The calls of [printf] and [fprintf], by their arguments. *)
Inductive output : Type :=
| fprintf_stderr (message : string)
| printf_screen (width height : Z).

Section Main.

Variable host : byte_order.

Definition draw_rectangles : list x11_rectangle_t :=
  [Rectangle 55 55 50 50; Rectangle 75 75 50 50; Rectangle 95 95 50 50].

(** The event loop of [main]: [None] when the turns allowed by [fuel] are
    spent and the loop is still running, the last event otherwise. *)
Fixpoint event_loop (fuel : nat) (conn : x11_connection_t) (window gc : Z)
    (message : list Z) (event : x11_event_t) : IO (option x11_event_t) :=
  match fuel with
  | O => ret None
  | S fuel' =>
      r <- x11_wait_for_event conn event ;;
      if fst r then
        (if type (snd r) =? X11_EXPOSE then
           x11_poly_rectangle host conn window gc draw_rectangles
             (sizeof_x11_rectangle_t * 3) ;;;
           x11_image_text_8 host conn window gc 16 16 message
             (strlen message)
         else ret tt) ;;;
        event_loop fuel' conn window gc message (snd r)
      else ret (Some (snd r))
  end.

(** Lines 24 to 54 of [main]: the font, the graphics context and the
    window are created.  The result is the connection with its
    identifier counter advanced, the window and the graphics context,
    which the event loop goes on using. *)
Definition create_resources (conn : x11_connection_t) (mem : program_memory)
  : IO (x11_connection_t * Z * Z) :=
  let font := fst (x11_generate_id conn) in
  let conn := snd (x11_generate_id conn) in
  let font_name := string_literal "fixed" (after_font_name mem) in
  x11_open_font host conn font font_name (strlen font_name) ;;;
  let gc := fst (x11_generate_id conn) in
  let conn := snd (x11_generate_id conn) in
  let create_gc_list :=
    [screen_black_pixel host (screen conn);
     screen_white_pixel host (screen conn); font] in
  x11_create_gc host conn gc (screen_root host (screen conn))
    (Z.lor (Z.lor X11_GC_FOREGROUND X11_GC_BACKGROUND) X11_GC_FONT)
    create_gc_list 12 ;;;
  x11_close_font host conn font ;;;
  let window_title := string_literal "Hello X11!" (after_window_title mem) in
  let window_width := 640 in
  let window_height := 480 in
  let window := fst (x11_generate_id conn) in
  let conn := snd (x11_generate_id conn) in
  let create_window_list :=
    [screen_white_pixel host (screen conn); X11_EVENT_MASK_EXPOSURE] in
  x11_create_window host conn X11_COPY_FROM_PARENT window
    (screen_root host (screen conn)) 0 0 window_width window_height 0
    X11_WINDOW_CLASS_INPUT_OUTPUT (screen_root_visual host (screen conn))
    (Z.lor X11_CW_BACK_PIXEL X11_CW_EVENT_MASK) create_window_list 8 ;;;
  x11_change_property host conn X11_PROP_MODE_REPLACE window
    X11_ATOM_WM_NAME X11_ATOM_STRING 8 window_title
    (strlen window_title) ;;;
  let configure_list := [window_width; window_height] in
  x11_configure_window host conn window
    (Z.lor X11_CONFIG_WINDOW_WIDTH X11_CONFIG_WINDOW_HEIGHT)
    configure_list 8 ;;;
  x11_map_window host conn window ;;;
  ret (conn, window, gc).

(** [main]: the exit status and what was printed, or [None] when the
    event loop is still running after [fuel] turns.  The final
    [x11_disconnect] only closes the descriptor. *)
Definition main (fuel : nat) (p : process) (mem : program_memory)
  : IO (option (Z * list output)) :=
  r <- x11_connect host p (uninitialized_conn mem) ;;
  let conn := snd r in
  if negb (fst r) then
    ret (Some (EXIT_FAILURE,
               [fprintf_stderr ("Can't connect to X11 display" ++ newline)]))
  else
    let printed :=
      [printf_screen (screen_width_in_pixels host (screen conn))
                     (screen_height_in_pixels host (screen conn))] in
    s <- create_resources conn mem ;;
    let conn := fst (fst s) in
    let window := snd (fst s) in
    let gc := snd s in
    let message :=
      string_literal "Hello World from an X11 window!" (after_message mem) in
    e <- event_loop fuel conn window gc message (uninitialized_event mem) ;;
    match e with
    | None => ret None
    | Some _ => ret (Some (EXIT_SUCCESS, printed))
    end.

End Main.

(** ** The stream of requests as the server cuts it

    Every request begins with its opcode and carries at bytes 2 and 3 its
    own length in 4-byte units; [request_frames] cuts a stream into the
    requests these lengths delimit ([None] when a length is 0 or runs
    past the end). *)
Fixpoint request_frames (host : byte_order) (fuel : nat) (stream : list Z)
  : option (list (list Z)) :=
  match stream with
  | [] => Some []
  | _ :: _ =>
      match fuel with
      | O => None
      | S fuel' =>
          let n := Z.to_nat (4 * length_field host stream) in
          if (Nat.eqb n 0 || Nat.ltb (length stream) n)%bool then None
          else
            match request_frames host fuel' (skipn n stream) with
            | Some frames => Some (firstn n stream :: frames)
            | None => None
            end
      end
  end.

(** What an exposure makes the event loop send. *)
Definition drawing_batch (host : byte_order) (window gc : Z) : list Z :=
  sent (x11_poly_rectangle host fresh_connection window gc draw_rectangles 24
        ;;; x11_image_text_8 host fresh_connection window gc 16 16
              (string_literal "Hello World from an X11 window!" []) 31)
       (World [] [] false).

(** A computation that only sends: its result and the bytes it sends do
    not depend on the state of the socket. *)
Definition bytes_written {A} (m : IO A) : list Z :=
  sent m (World [] [] false).

Definition writes_only {A} (m : IO A) : Prop :=
  forall w,
    m w = (fst (m (World [] [] false)),
           World (rx w) (tx w ++ bytes_written m) (rx_fail w)).

(** A computation that takes bytes off the front of the incoming stream
    and does nothing else to it. *)
Definition consumes {A} (m : IO A) : Prop :=
  forall w, exists k, rx (snd (m w)) = skipn k (rx w).

(** The beginning of a request as the server reads it: the opcode, the
    length in 4-byte units and the resource identifier at offset 4, the
    request being as long as its length field says. *)
Definition request_for (host : byte_order) (op len res : Z) (msg : list Z)
  : Prop :=
  Z.of_nat (length msg) = 4 * len
  /\ decode_resource_request host msg = (op, len, res).

(** The number of events with code 12 in a stream, cut the way
    [x11_wait_for_event] cuts it: 14 bytes for such an event, 1 byte for
    any other. *)
Fixpoint count_exposures (fuel : nat) (stream : list Z) : nat :=
  match fuel, stream with
  | S fuel', tag :: rest =>
      if tag mod 128 =? X11_EXPOSE
      then S (count_exposures fuel' (skipn 13 rest))
      else count_exposures fuel' rest
  | _, _ => O
  end.

(** * Properties *)

Ltac Zify.zify_post_hook ::= Z.to_euclidean_division_equations.

(** ** Integers and their images *)

Lemma length_le_bytes (n : nat) (v : Z) : length (le_bytes n v) = n.
Proof. revert v; induction n; intros; cbn; [reflexivity | now rewrite IHn]. Qed.

Lemma length_store (o : byte_order) (n : nat) (v : Z) :
  length (store o n v) = n.
Proof.
  destruct o; cbn; [| rewrite length_rev]; apply length_le_bytes.
Qed.

Lemma le_value_le_bytes (n : nat) (v : Z) :
  le_value (le_bytes n v) = v mod 256 ^ Z.of_nat n.
Proof.
  revert v; induction n; intros v.
  - cbn. now rewrite Z.mod_1_r.
  - cbn [le_bytes le_value]. rewrite IHn, Nat2Z.inj_succ, Z.pow_succ_r by lia.
    rewrite Z.rem_mul_r by lia. reflexivity.
Qed.

Lemma load_store (o : byte_order) (n : nat) (v : Z) :
  load o (store o n v) = v mod 256 ^ Z.of_nat n.
Proof.
  destruct o; cbn; [| rewrite rev_involutive]; apply le_value_le_bytes.
Qed.

Lemma firstn_exact {A} (l r : list A) : firstn (length l) (l ++ r) = l.
Proof.
  rewrite firstn_app, Nat.sub_diag, firstn_all. cbn. apply app_nil_r.
Qed.

Lemma skipn_exact {A} (l r : list A) : skipn (length l) (l ++ r) = r.
Proof.
  rewrite skipn_app, Nat.sub_diag, skipn_all. reflexivity.
Qed.

Lemma load_u16_store (o : byte_order) (v : Z) (rest : list Z) :
  load_u16 o (store o 2 v ++ rest) = v mod 2 ^ 16.
Proof.
  unfold load_u16, to_uint16.
  replace (firstn 2 (store o 2 v ++ rest)) with (store o 2 v).
  - rewrite load_store. change (256 ^ Z.of_nat 2) with (2 ^ 16).
    apply Z.mod_mod. lia.
  - rewrite <- (length_store o 2 v) at 2. now rewrite firstn_exact.
Qed.

Lemma load_u32_store (o : byte_order) (v : Z) (rest : list Z) :
  load_u32 o (store o 4 v ++ rest) = v mod 2 ^ 32.
Proof.
  unfold load_u32, to_uint32.
  replace (firstn 4 (store o 4 v ++ rest)) with (store o 4 v).
  - rewrite load_store. change (256 ^ Z.of_nat 4) with (2 ^ 32).
    apply Z.mod_mod. lia.
  - rewrite <- (length_store o 4 v) at 2. now rewrite firstn_exact.
Qed.

Lemma to_int16_of_int16 (v : Z) : is_int16 v -> to_int16 (v mod 2 ^ 16) = v.
Proof.
  unfold is_int16, to_int16, to_uint16. intros H.
  rewrite Z.mod_mod by lia.
  destruct (v mod 2 ^ 16 <? 2 ^ 15) eqn:E;
    [apply Z.ltb_lt in E | apply Z.ltb_ge in E]; lia.
Qed.

Lemma testbit_above (x n i : Z) :
  0 <= x < 2 ^ n -> n <= i -> Z.testbit x i = false.
Proof.
  intros Hx Hi. destruct (Z.eq_dec x 0) as [-> | Hnz]; [apply Z.bits_0|].
  assert (0 <= n) by (destruct (Z.le_gt_cases 0 n); [assumption|];
                      rewrite Z.pow_neg_r in Hx; lia).
  apply Z.bits_above_log2; [lia|].
  apply Z.lt_le_trans with n; [|exact Hi].
  apply Z.log2_lt_pow2; lia.
Qed.

(** ** The transport *)

Lemma sent_two_writes (a b : list Z) (n m : Z) (w : world) :
  sent (sys_write a n ;;; sys_write b m) w
  = firstn (Z.to_nat n) a ++ firstn (Z.to_nat m) b.
Proof.
  unfold sent, bind, sys_write; cbn. rewrite <- app_assoc. apply skipn_exact.
Qed.

(** ** Resource identifiers *)

Lemma after_calls_fields (k : nat) (conn : x11_connection_t) :
  id_inc (after_calls k conn) = id_inc conn
  /\ (is_uint32 (id conn) ->
      id (after_calls k conn)
      = (id conn + Z.of_nat k * id_inc conn) mod 2 ^ 32).
Proof.
  revert conn; induction k; intros conn.
  - cbn [after_calls]. split; [reflexivity|]. unfold is_uint32. intros H.
    rewrite Z.add_0_r. symmetry. apply Z.mod_small. exact H.
  - cbn [after_calls]. destruct (IHk (snd (x11_generate_id conn))) as [Hi Hd].
    split; [exact Hi|]. intros H. rewrite Hd.
    + cbn [x11_generate_id snd id id_inc]. unfold to_uint32.
      rewrite Nat2Z.inj_succ, Z.add_mod_idemp_l by lia. f_equal. lia.
    + cbn. unfold is_uint32, to_uint32. apply Z.mod_pos_bound. lia.
Qed.

(** C2 (as amended): [uint32_t] arithmetic wraps, so the k-th call returns
    [b + k*inc] reduced modulo 2^32, which is [b + k*inc] itself as long as
    that value is below 2^32; each call advances the counter by [inc],
    again modulo 2^32. *)
Theorem generate_id_kth_call (conn : x11_connection_t) (k : nat) :
  is_uint32 (id conn) ->
  kth_generated_id k conn = (id conn + Z.of_nat k * id_inc conn) mod 2 ^ 32
  /\ id (after_calls (S k) conn)
     = (id (after_calls k conn) + id_inc conn) mod 2 ^ 32
  /\ (0 <= id conn + Z.of_nat k * id_inc conn < 2 ^ 32 ->
      kth_generated_id k conn = id conn + Z.of_nat k * id_inc conn).
Proof.
  intros Hb. destruct (after_calls_fields k conn) as [Hinc Hid].
  specialize (Hid Hb).
  assert (Hk : kth_generated_id k conn
               = (id conn + Z.of_nat k * id_inc conn) mod 2 ^ 32).
  { unfold kth_generated_id. cbn [x11_generate_id fst]. exact Hid. }
  split; [exact Hk|]. split.
  - destruct (after_calls_fields (S k) conn) as [_ Hs].
    rewrite (Hs Hb), Hid, Z.add_mod_idemp_l by lia.
    f_equal. lia.
  - intros Hr. rewrite Hk. apply Z.mod_small. exact Hr.
Qed.

Lemma generate_id_kth_call_witness :
  let conn := Connection 3 4194304 1 [] in
  kth_generated_id 1 conn = 4194305
  /\ id (after_calls 2 conn) = 4194306.
Proof.
  destruct (generate_id_kth_call (Connection 3 4194304 1 []) 1)
    as (H1 & H2 & _); [cbv; split; [discriminate | reflexivity] |].
  split; [exact H1 | exact H2].
Defined.

(** C2 (as stated) fails once the counter wraps: with base 2^32 - 1 and
    increment 1 the second call returns 0, not 2^32. *)
Lemma generate_id_wraps :
  ~ id_allocation_claim (Connection 3 4294967295 1 []) 1.
Proof. unfold id_allocation_claim. cbv. intros [H _]. discriminate H. Qed.

(** ** Events *)

Lemma clear_top_bit (tag : Z) :
  is_byte tag -> to_uint8 (Z.land tag (Z.lnot 128)) = tag mod 128.
Proof.
  unfold is_byte, to_uint8. intros H.
  assert (E : Z.land tag (Z.lnot 128) = tag mod 2 ^ 7).
  { apply Z.bits_inj'. intros i Hi.
    rewrite Z.land_spec, Z.lnot_spec by lia.
    change 128 with (2 ^ 7). rewrite Z.pow2_bits_eqb by lia.
    destruct (Z.ltb_spec i 7) as [Hlt | Hge].
    - rewrite Z.mod_pow2_bits_low by lia.
      replace (7 =? i) with false by (symmetry; apply Z.eqb_neq; lia).
      apply andb_true_r.
    - rewrite Z.mod_pow2_bits_high by lia.
      destruct (Z.eqb_spec 7 i) as [<- | Hne]; [apply andb_false_r|].
      rewrite (@testbit_above tag 8 i) by lia. reflexivity. }
  rewrite E. change (2 ^ 7) with 128. apply Z.mod_small. lia.
Qed.

(** C5: [x11_wait_for_event] asks for one byte; it returns false exactly
    when that [read] returns 0; it sends nothing; when a tag byte arrives
    the event type is the tag with its top bit cleared and the result is
    true, 13 further bytes being requested and dropped for the exposure
    tag and nothing more being consumed for any other tag. *)
Theorem wait_for_event_behaviour (conn : x11_connection_t)
    (event : x11_event_t) (w : world) :
  let res := x11_wait_for_event conn event w in
  (fst (fst res) = false <-> fst (fst (sys_read 1 w)) = 0)
  /\ tx (snd res) = tx w
  /\ forall tag rest,
       rx_fail w = false -> rx w = tag :: rest -> is_byte tag ->
       fst res = (true, Event (tag mod 128))
       /\ (tag mod 128 = X11_EXPOSE -> rx (snd res) = skipn 13 rest)
       /\ (tag mod 128 <> X11_EXPOSE -> rx (snd res) = rest).
Proof.
  destruct w as [i o f]. unfold x11_wait_for_event, bind, sys_read, ret.
  cbn [rx tx rx_fail]. destruct f.
  - cbn [fst snd hd type]. change (-1 =? 0) with false. cbv iota.
    destruct (_ =? X11_EXPOSE); cbn;
      repeat split; try discriminate; reflexivity.
  - destruct i as [|tag rest]; cbn [firstn length Z.of_nat fst snd hd].
    + cbn. repeat split; discriminate.
    + change (Z.of_nat 1 =? 0) with false. cbn [type skipn].
      split; [|split].
      * destruct (_ =? X11_EXPOSE); cbn; split; discriminate.
      * destruct (_ =? X11_EXPOSE); cbn; reflexivity.
      * intros tag' rest' _ [= <- <-] Hb. rewrite (clear_top_bit Hb).
        destruct (Z.eqb_spec (tag mod 128) X11_EXPOSE) as [E | E]; cbn;
          repeat split; intros; try reflexivity; congruence.
Qed.

(** At the end of the stream the event and the socket are left as they
    were. *)
Lemma wait_for_event_end_of_stream (conn : x11_connection_t)
    (event : x11_event_t) (w : world) :
  rx w = [] -> rx_fail w = false ->
  x11_wait_for_event conn event w = ((false, event), w).
Proof.
  destruct w as [i o f], event as [t]. cbn [rx rx_fail]. intros -> ->.
  reflexivity.
Qed.

Lemma wait_for_event_behaviour_witness :
  fst (x11_wait_for_event (Connection 3 0 1 []) (Event 0)
         (World [140; 1; 2; 3; 4; 5; 6; 7; 8; 9; 10; 11; 12; 13; 14; 15]
                [] false))
  = (true, Event 12).
Proof.
  pose proof (wait_for_event_behaviour (Connection 3 0 1 []) (Event 0)
    (World [140; 1; 2; 3; 4; 5; 6; 7; 8; 9; 10; 11; 12; 13; 14; 15]
           [] false)) as (_ & _ & H).
  destruct (H 140 [1; 2; 3; 4; 5; 6; 7; 8; 9; 10; 11; 12; 13; 14; 15]
              eq_refl eq_refl) as (E & _); [unfold is_byte; lia|].
  exact E.
Defined.

(** ** Request encoders *)

(** C10: the string-length field of a draw-text request is the single
    byte at offset 1, and it holds the requested size modulo 256. *)
Theorem image_text_8_string_len (host : byte_order)
    (conn : x11_connection_t) (drawable gc x y : Z) (string : list Z)
    (string_size : Z) (w : world) :
  bytes_at 1 1 (sent (x11_image_text_8 host conn drawable gc x y
                        string string_size) w)
  = [string_size mod 256].
Proof.
  unfold x11_image_text_8. rewrite sent_two_writes.
  unfold image_image_text_8_request, sizeof_x11_image_text_8_request_t.
  cbn [it_major_opcode it_string_len]. unfold to_uint8 at 2 3.
  rewrite Z.mod_mod by lia. reflexivity.
Qed.

Lemma pad4_spec (n : Z) : pad4 n = 4 * ((n + 3) / 4).
Proof.
  unfold pad4. change 3 with (Z.ones 2) at 2.
  rewrite <- Z.ldiff_land, Z.ldiff_ones_r by lia.
  rewrite Z.shiftr_div_pow2, Z.shiftl_mul_pow2 by lia.
  change (2 ^ 2) with 4. lia.
Qed.

Lemma land_low_bits (x m : Z) :
  0 <= x < 2 ^ 64 -> Z.land x (m mod 2 ^ 64) = Z.land x m.
Proof.
  intros Hx. apply Z.bits_inj'. intros i Hi. rewrite !Z.land_spec.
  destruct (Z.ltb_spec i 64) as [Hlt | Hge].
  - now rewrite Z.mod_pow2_bits_low by lia.
  - now rewrite (testbit_above Hx Hge).
Qed.

Lemma align4_pad4 (n : Z) : 0 <= n -> n + 3 < 2 ^ 64 -> align4 n = pad4 n.
Proof.
  intros H0 H1. unfold align4, pad4, to_size_t.
  rewrite (Z.mod_small (n + 3)) by lia. apply land_low_bits. lia.
Qed.

Lemma firstn_add_split {A} (a b : nat) (l : list A) :
  firstn (a + b) l = firstn a l ++ firstn b (skipn a l).
Proof.
  revert l; induction a; intros l; [reflexivity|].
  destruct l; cbn; [now rewrite firstn_nil | now rewrite IHa].
Qed.

Lemma length_field_image (host : byte_order) (a b l : Z) (rest : list Z) :
  length_field host (a :: b :: store host 2 l ++ rest) = l mod 2 ^ 16.
Proof.
  unfold length_field, bytes_at. cbn [skipn].
  rewrite <- (length_store host 2 l) at 1. rewrite firstn_exact.
  rewrite <- (app_nil_r (store host 2 l)). apply load_u16_store.
Qed.

Lemma padded_encoder (host : byte_order) (hdr L a b : Z)
    (rest payload : list Z) :
  0 <= L -> 0 <= hdr -> hdr + L + 3 < 2 ^ 64 ->
  length (a :: b :: store host 2 0 ++ rest) = Z.to_nat hdr ->
  padded_request host hdr L payload
    ((a :: b
        :: store host 2 (to_uint16 (to_size_t (hdr + align4 L) / 4)) ++ rest)
     ++ firstn (Z.to_nat (align4 L)) payload).
Proof.
  intros HL Hh Hs Hlen.
  rewrite align4_pad4 by lia. pose proof (pad4_spec L) as Hpad.
  unfold to_size_t. rewrite (Z.mod_small (hdr + pad4 L)) by lia.
  assert (Hfield : length_field host
            ((a :: b :: store host 2 (to_uint16 ((hdr + pad4 L) / 4)) ++ rest)
             ++ firstn (Z.to_nat (pad4 L)) payload)
          = to_uint16 ((hdr + pad4 L) / 4)).
  { cbn [app]. rewrite <- app_assoc, length_field_image.
    unfold to_uint16. apply Z.mod_mod. lia. }
  split; [exact Hfield|]. split.
  - intros Hsmall. rewrite Hfield. unfold to_uint16. apply Z.mod_small. lia.
  - rewrite <- Hlen.
    replace (length (a :: b :: store host 2 0 ++ rest))
      with (length (a :: b
              :: store host 2 (to_uint16 ((hdr + pad4 L) / 4)) ++ rest))
      by (cbn [length]; now rewrite !length_app, !length_store).
    rewrite skipn_exact, firstn_firstn. f_equal. lia.
Qed.

Ltac image_length :=
  repeat (progress cbn [length firstn app]
          || rewrite length_app || rewrite length_store);
  reflexivity.

Ltac image_is_whole :=
  rewrite firstn_all2
    by (repeat rewrite ?length_app, ?length_store; cbn; lia).

(** C1 (as amended): for open-font, change-property and draw-text with a
    payload of [L] bytes, the 2-byte length field is
    [(header size + ((L+3) & ~3)) / 4] reduced modulo 2^16 (the quotient
    itself while [header size + ((L+3) & ~3)] is below 2^18), and the
    header is followed by the [L] payload bytes.  The bytes written after
    the payload are left out of the statement. *)
Theorem padded_payload_requests (host : byte_order)
    (conn : x11_connection_t) (fid mode window property type_ format : Z)
    (drawable gc x y : Z) (payload : list Z) (L : Z) (w : world) :
  0 <= L -> L + 32 < 2 ^ 64 ->
  padded_request host sizeof_x11_open_font_request_t L payload
    (sent (x11_open_font host conn fid payload L) w)
  /\ padded_request host sizeof_x11_change_property_request_t L payload
       (sent (x11_change_property host conn mode window property type_
                format payload L) w)
  /\ padded_request host sizeof_x11_image_text_8_request_t L payload
       (sent (x11_image_text_8 host conn drawable gc x y payload L) w).
Proof.
  intros HL Hs. split; [|split].
  - unfold x11_open_font. rewrite sent_two_writes.
    unfold image_open_font_request, sizeof_x11_open_font_request_t.
    cbn [of_major_opcode of_pad0 of_length of_fid of_name_len of_pad1].
    image_is_whole. cbn [app].
    apply padded_encoder; try lia.
    image_length.
  - unfold x11_change_property. rewrite sent_two_writes.
    unfold image_change_property_request,
      sizeof_x11_change_property_request_t.
    cbn [cp_major_opcode cp_mode cp_length cp_window cp_property cp_type
         cp_format cp_pad0 cp_data_len].
    image_is_whole. cbn [app].
    apply padded_encoder; try lia.
    image_length.
  - unfold x11_image_text_8. rewrite sent_two_writes.
    unfold image_image_text_8_request, sizeof_x11_image_text_8_request_t.
    cbn [it_major_opcode it_string_len it_length it_drawable it_gc it_x it_y].
    image_is_whole. cbn [app].
    apply padded_encoder; try lia.
    image_length.
Qed.

Lemma padded_payload_requests_witness :
  let conn := Connection 3 4194305 1 [] in
  let mem := [102; 105; 120; 101; 100; 0; 72; 101] in
  let w := World [] [] false in
  padded_request LittleEndian 12 5 mem
    (sent (x11_open_font LittleEndian conn 4194304 mem 5) w)
  /\ padded_request LittleEndian 24 5 mem
       (sent (x11_change_property LittleEndian conn 0 4194306 39 31 8 mem 5)
             w)
  /\ padded_request LittleEndian 16 5 mem
       (sent (x11_image_text_8 LittleEndian conn 4194306 4194305 16 16 mem 5)
             w).
Proof.
  apply (padded_payload_requests LittleEndian (Connection 3 4194305 1 [])
           4194304 0 4194306 39 31 8 4194306 4194305 16 16
           [102; 105; 120; 101; 100; 0; 72; 101] (L := 5)
           (World [] [] false)).
  - lia.
  - lia.
Defined.

(** The bytes after the payload are not produced by the encoder: they are
    read from the caller's memory behind the payload. *)
Lemma open_font_padding_source (host : byte_order) (conn : x11_connection_t)
    (fid : Z) (name : list Z) (L : Z) (w : world) :
  0 <= L -> L + 32 < 2 ^ 64 ->
  skipn 12 (sent (x11_open_font host conn fid name L) w)
  = firstn (Z.to_nat L) name
    ++ bytes_at (Z.to_nat L) (Z.to_nat (pad4 L - L)) name.
Proof.
  intros HL Hs. unfold x11_open_font. rewrite sent_two_writes.
  unfold image_open_font_request, sizeof_x11_open_font_request_t.
  cbn [of_major_opcode of_pad0 of_length of_fid of_name_len of_pad1].
  image_is_whole.
  match goal with
  | |- skipn 12 (?img ++ _) = _ =>
      replace 12%nat with (length img) by image_length
  end.
  rewrite skipn_exact, align4_pad4 by lia.
  pose proof (pad4_spec L).
  replace (Z.to_nat (pad4 L))
    with (Z.to_nat L + Z.to_nat (pad4 L - L))%nat by lia.
  apply firstn_add_split.
Qed.

(** C1 (as stated) fails on the width of the length field: a payload of
    262141 bytes, here followed in memory by zero bytes, gets the length
    field 3, not (12 + 262144) / 4 = 65539. *)
Lemma open_font_length_wraps :
  ~ zero_padded_request LittleEndian 12 262141 (repeat 0 (Z.to_nat 262144))
      (sent (x11_open_font LittleEndian (Connection 3 4194305 1 [])
               4194304 (repeat 0 (Z.to_nat 262144)) 262141)
            (World [] [] false)).
Proof.
  intros [H _]. vm_compute in H. discriminate H.
Qed.

(** The padding itself is not zero either, by the over-read shown in
    [open_font_padding_source]: the name "fixed" followed in memory by the
    bytes 0, 72, 101 is sent with exactly those three bytes behind it,
    where [write_cookie] pads from a zeroed buffer. *)
Lemma open_font_not_zero_padded :
  skipn 12 (sent (x11_open_font LittleEndian (Connection 3 4194305 1 [])
                    4194304 [102; 105; 120; 101; 100; 0; 72; 101] 5)
              (World [] [] false))
  = [102; 105; 120; 101; 100] ++ [0; 72; 101]
  /\ ~ zero_padded_request LittleEndian 12 5
        [102; 105; 120; 101; 100; 0; 72; 101]
        (sent (x11_open_font LittleEndian (Connection 3 4194305 1 [])
                 4194304 [102; 105; 120; 101; 100; 0; 72; 101] 5)
              (World [] [] false)).
Proof.
  split; [reflexivity |].
  intros [_ H]. vm_compute in H. discriminate H.
Qed.

Lemma length_words_image (host : byte_order) (ws : list Z) :
  length (words_image host ws) = (4 * length ws)%nat.
Proof.
  unfold words_image. induction ws as [|v ws IH]; [reflexivity|].
  cbn [flat_map]. rewrite length_app, length_store, IH. cbn [length]. lia.
Qed.

Lemma word_list_encoder (host : byte_order) (hdr size a b : Z)
    (rest payload : list Z) :
  0 <= size -> 0 <= hdr -> hdr mod 4 = 0 -> size mod 4 = 0 ->
  hdr + size < 2 ^ 64 ->
  size <= Z.of_nat (length payload) ->
  length (a :: b :: store host 2 0 ++ rest) = Z.to_nat hdr ->
  word_list_request host hdr size payload
    ((a :: b :: store host 2 (to_uint16 (to_size_t (hdr + size) / 4)) ++ rest)
     ++ firstn (Z.to_nat size) payload).
Proof.
  intros Hs Hh Hh4 Hs4 Hsum Hp Hlen.
  unfold to_size_t. rewrite (Z.mod_small (hdr + size)) by lia.
  set (header := a :: b :: store host 2 (to_uint16 ((hdr + size) / 4))
                   ++ rest).
  assert (Hhl : length header = Z.to_nat hdr).
  { rewrite <- Hlen. unfold header. cbn [length].
    now rewrite !length_app, !length_store. }
  assert (Hfield : length_field host
                     (header ++ firstn (Z.to_nat size) payload)
                   = to_uint16 ((hdr + size) / 4)).
  { unfold header. cbn [app]. rewrite <- app_assoc, length_field_image.
    unfold to_uint16. apply Z.mod_mod. lia. }
  assert (Hpl : Z.of_nat (length (firstn (Z.to_nat size) payload)) = size).
  { rewrite length_firstn. lia. }
  split; [exact Hfield|]. split; [|split].
  - intros Hsmall. rewrite Hfield. unfold to_uint16.
    rewrite Z.mod_small by lia. split; [reflexivity|].
    rewrite length_app, Nat2Z.inj_add, Hpl, Hhl. lia.
  - rewrite <- Hhl. apply skipn_exact.
  - rewrite <- Hhl, skipn_exact. exact Hpl.
Qed.

(** C8 (as amended): for a value list of [size] bytes, [size] a multiple
    of 4, create-window, create-graphics-context and configure-window emit
    the header followed by exactly the [size] bytes of the list, without
    padding; the length field is [(header size + size) / 4] reduced modulo
    2^16, that is the quotient itself while the request is shorter than
    2^18 bytes. *)
Theorem value_list_requests (host : byte_order) (conn : x11_connection_t)
    (depth wid parent x y width height border_width _class visual : Z)
    (cid drawable window value_mask : Z) (value_list : list Z) (size : Z)
    (w : world) :
  0 <= size -> size mod 4 = 0 -> size + 32 < 2 ^ 64 ->
  size <= 4 * Z.of_nat (length value_list) ->
  word_list_request host sizeof_x11_create_window_request_t size
    (words_image host value_list)
    (sent (x11_create_window host conn depth wid parent x y width height
             border_width _class visual value_mask value_list size) w)
  /\ word_list_request host sizeof_x11_create_gc_request_t size
       (words_image host value_list)
       (sent (x11_create_gc host conn cid drawable value_mask
                value_list size) w)
  /\ word_list_request host sizeof_x11_configure_window_request_t size
       (words_image host value_list)
       (sent (x11_configure_window host conn window value_mask
                value_list size) w).
Proof.
  intros Hs Hs4 Hsum Hp.
  assert (Hlen : size <= Z.of_nat (length (words_image host value_list)))
    by (rewrite length_words_image; lia).
  split; [|split].
  - unfold x11_create_window. rewrite sent_two_writes.
    unfold image_create_window_request, sizeof_x11_create_window_request_t.
    cbn [cw_major_opcode cw_depth cw_length cw_wid cw_parent cw_x cw_y
         cw_width cw_height cw_border_width cw__class cw_visual
         cw_value_mask].
    image_is_whole. cbn [app].
    apply word_list_encoder; try lia; try reflexivity. image_length.
  - unfold x11_create_gc. rewrite sent_two_writes.
    unfold image_create_gc_request, sizeof_x11_create_gc_request_t.
    cbn [gc_major_opcode gc_pad0 gc_length gc_cid gc_drawable gc_value_mask].
    image_is_whole. cbn [app].
    apply word_list_encoder; try lia; try reflexivity. image_length.
  - unfold x11_configure_window. rewrite sent_two_writes.
    unfold image_configure_window_request,
      sizeof_x11_configure_window_request_t.
    cbn [cf_major_opcode cf_pad0 cf_length cf_window cf_value_mask cf_pad1].
    image_is_whole. cbn [app].
    apply word_list_encoder; try lia; try reflexivity. image_length.
Qed.

Lemma value_list_requests_witness :
  let conn := Connection 3 4194307 1 [] in
  let w := World [] [] false in
  word_list_request LittleEndian 32 8 (words_image LittleEndian [16777215; 32768])
    (sent (x11_create_window LittleEndian conn 0 4194306 1 0 0 640 480 0 1
             33 2050 [16777215; 32768] 8) w)
  /\ word_list_request LittleEndian 16 8
       (words_image LittleEndian [16777215; 32768])
       (sent (x11_create_gc LittleEndian conn 4194305 1 2050
                [16777215; 32768] 8) w)
  /\ word_list_request LittleEndian 12 8
       (words_image LittleEndian [16777215; 32768])
       (sent (x11_configure_window LittleEndian conn 4194306 2050
                [16777215; 32768] 8) w).
Proof.
  apply (value_list_requests LittleEndian (Connection 3 4194307 1 [])
           0 4194306 1 0 0 640 480 0 1 33 4194305 1 4194306 2050
           [16777215; 32768] (size := 8) (World [] [] false)).
  - lia.
  - reflexivity.
  - lia.
  - cbn. lia.
Defined.

(** C8 (as stated) fails for a list of 65536 words: the length field of
    the create-graphics-context request is 4, not (16 + 262144) / 4. *)
Lemma create_gc_length_wraps :
  ~ unpadded_request LittleEndian 16 262144
      (words_image LittleEndian (repeat 0 (Z.to_nat 65536)))
      (sent (x11_create_gc LittleEndian (Connection 3 4194307 1 [])
               4194305 1 0 (repeat 0 (Z.to_nat 65536)) 262144)
            (World [] [] false)).
Proof.
  intros [H _]. vm_compute in H. discriminate H.
Qed.

(** ** Round trip of create-window *)

Lemma skipn_store (host : byte_order) (k : nat) (v : Z) (off : nat)
    (r : list Z) :
  (k <= off)%nat -> skipn off (store host k v ++ r) = skipn (off - k) r.
Proof.
  intros H. rewrite skipn_app, length_store.
  rewrite skipn_all2 by (rewrite length_store; lia). reflexivity.
Qed.

Lemma load_u16_here (host : byte_order) (v : Z) (r : list Z) :
  load_u16 host (firstn 2 (store host 2 v ++ r)) = v mod 2 ^ 16.
Proof.
  rewrite <- (length_store host 2 v) at 1. rewrite firstn_exact.
  rewrite <- (app_nil_r (store host 2 v)). apply load_u16_store.
Qed.

Lemma load_u32_here (host : byte_order) (v : Z) (r : list Z) :
  load_u32 host (firstn 4 (store host 4 v ++ r)) = v mod 2 ^ 32.
Proof.
  rewrite <- (length_store host 4 v) at 1. rewrite firstn_exact.
  rewrite <- (app_nil_r (store host 4 v)). apply load_u32_store.
Qed.

Ltac skip_fields :=
  repeat rewrite skipn_cons;
  repeat (rewrite skipn_store by lia; cbn [Nat.sub]);
  rewrite ?skipn_O.

Ltac field_at :=
  unfold bytes_at; skip_fields; rewrite ?load_u16_here, ?load_u32_here.

Lemma decode_words_image (host : byte_order) (ws rest : list Z) :
  Forall is_uint32 ws ->
  decode_words host (length ws) (words_image host ws ++ rest) = ws.
Proof.
  induction 1 as [|v ws Hv _ IH]; [reflexivity|].
  cbn [length decode_words words_image flat_map]. rewrite <- app_assoc.
  f_equal.
  - rewrite load_u32_store. apply Z.mod_small. exact Hv.
  - skip_fields. exact IH.
Qed.

(** C9: re-parsing the bytes of a create-window request against the
    layout of its header returns the opcode, every argument of the encoder
    and the value list. *)
Theorem create_window_round_trip (host : byte_order)
    (conn : x11_connection_t)
    (depth wid parent x y width height border_width _class visual : Z)
    (value_mask : Z) (value_list : list Z) (w : world) :
  is_byte depth -> is_uint32 wid -> is_uint32 parent ->
  is_int16 x -> is_int16 y ->
  is_uint16 width -> is_uint16 height -> is_uint16 border_width ->
  is_uint16 _class -> is_uint32 visual -> is_uint32 value_mask ->
  Forall is_uint32 value_list ->
  let size := 4 * Z.of_nat (length value_list) in
  let decoded :=
    decode_create_window host
      (sent (x11_create_window host conn depth wid parent x y width height
               border_width _class visual value_mask value_list size) w) in
  let r := fst decoded in
  cw_major_opcode r = X11_CREATE_WINDOW
  /\ cw_depth r = depth /\ cw_wid r = wid /\ cw_parent r = parent
  /\ cw_x r = x /\ cw_y r = y
  /\ cw_width r = width /\ cw_height r = height
  /\ cw_border_width r = border_width /\ cw__class r = _class
  /\ cw_visual r = visual /\ cw_value_mask r = value_mask
  /\ snd decoded = value_list.
Proof.
  intros Hd Hw Hp Hx Hy Hwi Hhe Hbw Hc Hv Hm Hl size decoded r.
  subst r decoded size. unfold x11_create_window. rewrite sent_two_writes.
  unfold image_create_window_request, sizeof_x11_create_window_request_t.
  cbn [cw_major_opcode cw_depth cw_length cw_wid cw_parent cw_x cw_y
       cw_width cw_height cw_border_width cw__class cw_visual
       cw_value_mask].
  image_is_whole.
  replace (firstn (Z.to_nat (4 * Z.of_nat (length value_list)))
             (words_image host value_list))
    with (words_image host value_list)
    by (symmetry; apply firstn_all2; rewrite length_words_image; lia).
  unfold is_byte, is_uint16, is_uint32 in *.
  unfold decode_create_window. cbn [fst snd app].
  cbn [cw_major_opcode cw_depth cw_length cw_wid cw_parent cw_x cw_y
       cw_width cw_height cw_border_width cw__class cw_visual
       cw_value_mask].
  repeat rewrite <- app_assoc.
  split; [reflexivity|]. repeat split.
  - unfold bytes_at, load_u8, to_uint8; cbn [skipn firstn hd].
    rewrite Z.mod_mod by lia. apply Z.mod_small. lia.
  - field_at. apply Z.mod_small. lia.
  - field_at. apply Z.mod_small. lia.
  - field_at. apply to_int16_of_int16. exact Hx.
  - field_at. apply to_int16_of_int16. exact Hy.
  - field_at. apply Z.mod_small. lia.
  - field_at. apply Z.mod_small. lia.
  - field_at. apply Z.mod_small. lia.
  - field_at. apply Z.mod_small. lia.
  - field_at. apply Z.mod_small. lia.
  - field_at. apply Z.mod_small. lia.
  - cbn [length]. rewrite !length_app, !length_store, length_words_image.
    match goal with
    | |- context [Nat.div ?n 4] =>
        replace (Nat.div n 4) with (length value_list)
          by (apply Nat.div_unique_exact; lia)
    end.
    skip_fields.
    rewrite <- (app_nil_r (words_image host value_list)).
    apply decode_words_image. exact Hl.
Qed.

Lemma create_window_round_trip_witness :
  snd (decode_create_window BigEndian
         (sent (x11_create_window BigEndian (Connection 3 4194307 1 []) 24
                  4194306 1 (-1) 2 640 480 0 1 33 2050 [16777215; 32768] 8)
               (World [] [9; 9] false)))
  = [16777215; 32768].
Proof.
  pose proof (@create_window_round_trip BigEndian
    (Connection 3 4194307 1 []) 24 4194306 1 (-1) 2 640 480 0 1 33 2050
    [16777215; 32768] (World [] [9; 9] false)) as H.
  cbv zeta in H.
  destruct H as (_ & _ & _ & _ & _ & _ & _ & _ & _ & _ & _ & _ & H);
    try (unfold is_byte, is_uint16, is_uint32, is_int16; lia).
  - repeat constructor; unfold is_uint32; lia.
  - exact H.
Defined.

(** ** The handshake *)

Lemma land_double (a b : Z) : Z.land (2 * a) (2 * b) = 2 * Z.land a b.
Proof.
  replace (2 * a) with (Z.shiftl a 1) by (rewrite Z.shiftl_mul_pow2; lia).
  replace (2 * b) with (Z.shiftl b 1) by (rewrite Z.shiftl_mul_pow2; lia).
  rewrite <- Z.shiftl_land, Z.shiftl_mul_pow2 by lia. lia.
Qed.

Lemma land_double_succ (a b : Z) :
  Z.land (2 * a + 1) (2 * b + 1) = 2 * Z.land a b + 1.
Proof.
  apply Z.bits_inj'. intros i Hi. rewrite Z.land_spec.
  destruct (Z.eq_dec i 0) as [-> | Hnz].
  - now rewrite !Z.testbit_odd_0.
  - replace i with (Z.succ (i - 1)) by lia.
    rewrite !Z.testbit_odd_succ by lia. now rewrite Z.land_spec.
Qed.

Lemma land_neg_lowest_set_bit (m : Z) :
  0 <= m -> Z.land m (- m) = lowest_set_bit m.
Proof.
  destruct m as [|p|p]; [reflexivity | | lia]. intros _.
  cbn [lowest_set_bit].
  induction p as [p IH | p IH |].
  - replace (Z.pos p~1) with (2 * Z.pos p + 1) by lia.
    replace (- (2 * Z.pos p + 1)) with (2 * Z.lnot (Z.pos p) + 1)
      by (unfold Z.lnot; lia).
    rewrite land_double_succ, Z.land_lnot_diag. reflexivity.
  - replace (Z.pos p~0) with (2 * Z.pos p) by lia.
    replace (- (2 * Z.pos p)) with (2 * - Z.pos p) by lia.
    rewrite land_double, IH. reflexivity.
  - reflexivity.
Qed.

(** [mask & -mask] in [uint32_t] arithmetic is the lowest set bit. *)
Lemma id_inc_lowest_set_bit (m : Z) :
  is_uint32 m -> Z.land m (neg_uint32 m) = lowest_set_bit m.
Proof.
  unfold is_uint32, neg_uint32, to_uint32. intros Hm.
  rewrite <- land_neg_lowest_set_bit by lia.
  apply Z.bits_inj'. intros i Hi. rewrite !Z.land_spec.
  destruct (Z.ltb_spec i 32) as [Hlt | Hge].
  - now rewrite Z.mod_pow2_bits_low by lia.
  - now rewrite (testbit_above Hm Hge).
Qed.

(** The specification's "lowest set bit" is a power of two, at a set bit
    of the mask, below which no bit is set. *)
Lemma lowest_set_bit_spec (m : Z) :
  0 < m ->
  exists i, 0 <= i /\ lowest_set_bit m = 2 ^ i /\ Z.testbit m i = true
            /\ forall j, 0 <= j < i -> Z.testbit m j = false.
Proof.
  destruct m as [|p|p]; try lia. intros _. cbn [lowest_set_bit].
  induction p as [p _ | p (i & Hi & Hv & Hb & Hlow) |].
  - exists 0. repeat split; try reflexivity; try lia.
  - exists (Z.succ i). split; [lia|]. split; [|split].
    + cbn [lowest_set_bit_pos]. rewrite Hv, Z.pow_succ_r by lia. reflexivity.
    + replace (Z.pos p~0) with (2 * Z.pos p) by lia.
      now rewrite Z.testbit_even_succ.
    + intros j Hj. replace (Z.pos p~0) with (2 * Z.pos p) by lia.
      destruct (Z.eq_dec j 0) as [-> | Hnz]; [apply Z.testbit_even_0|].
      replace j with (Z.succ (j - 1)) by lia.
      rewrite Z.testbit_even_succ by lia. apply Hlow. lia.
  - exists 0. repeat split; try reflexivity; try lia.
Qed.


Lemma reads_only_ret {A} (a : A) : reads_only (ret a).
Proof. intros w. split; reflexivity. Qed.

Lemma reads_only_bind {A B} (m : IO A) (k : A -> IO B) :
  reads_only m -> (forall a, reads_only (k a)) -> reads_only (bind m k).
Proof.
  intros Hm Hk w. unfold bind. destruct (m w) as [a w'] eqn:E.
  destruct (Hm w) as [H1 H2]. rewrite E in H1, H2. cbn [snd] in H1, H2.
  destruct (Hk a w') as [H3 H4]. split; congruence.
Qed.

Lemma reads_only_sys_read (n : nat) : reads_only (sys_read n).
Proof.
  intros w. unfold sys_read. destruct (rx_fail w) eqn:E; cbn; auto.
Qed.

Create HintDb reads.

#[local] Hint Resolve reads_only_ret reads_only_bind reads_only_sys_read
  : reads.

Lemma reads_only_visuals (k : nat) : reads_only (read_visuals k).
Proof. induction k; cbn [read_visuals]; auto with reads. Qed.

#[local] Hint Resolve reads_only_visuals : reads.

Lemma reads_only_depths (host : byte_order) (p : process) (j : nat) :
  reads_only (read_depths host p j).
Proof. induction j; cbn [read_depths]; auto 6 with reads. Qed.

#[local] Hint Resolve reads_only_depths : reads.

Lemma reads_only_screens (host : byte_order) (p : process) (n i : nat)
    (conn : x11_connection_t) (unused : list Z) :
  reads_only (read_screens host p n i conn unused).
Proof.
  revert i conn unused; induction n; intros; cbn [read_screens];
    auto 6 with reads.
Qed.

(** The loop over the screens leaves the identifier state alone. *)
Lemma read_screens_ids (host : byte_order) (p : process) (n i : nat)
    (conn : x11_connection_t) (unused : list Z) (w : world) :
  let conn' := fst (read_screens host p n i conn unused w) in
  fd conn' = fd conn /\ id conn' = id conn /\ id_inc conn' = id_inc conn.
Proof.
  revert i conn unused w; induction n; intros i conn unused w.
  - cbn. auto.
  - cbn [read_screens]. unfold bind.
    destruct (sys_read sizeof_x11_screen_t w) as [r w1].
    match goal with
    | |- context [read_depths host p ?j w1] =>
        destruct (read_depths host p j w1) as [u w2]
    end.
    match goal with
    | |- context [read_screens host p n (S i) ?c ?us w2] =>
        destruct (IHn (S i) c us w2) as (H1 & H2 & H3)
    end.
    cbv zeta in *. rewrite H1, H2, H3.
    destruct (Nat.eqb i 0); cbn; auto.
Qed.

Lemma write_cookie_rx (c : option x11_cookie_t) (w : world) :
  rx (snd (write_cookie c w)) = rx w
  /\ rx_fail (snd (write_cookie c w)) = rx_fail w
  /\ exists out, tx (snd (write_cookie c w)) = tx w ++ out
                 /\ (c = None -> out = []).
Proof.
  destruct c as [c|]; cbn [write_cookie].
  - unfold bind, sys_write, ret.
    destruct (negb (name_len c mod 4 =? 0)), (negb (data_len c mod 4 =? 0));
      cbn [rx tx rx_fail snd]; repeat split;
      rewrite <- ?app_assoc; eexists; (split; [reflexivity | discriminate]).
  - cbn. repeat split. exists []. now rewrite app_nil_r.
Qed.

Lemma sys_read_reply (reply rest : list Z) (w : world) :
  rx_fail w = false -> rx w = reply ++ rest ->
  sys_read (length reply) w
  = ((Z.of_nat (length reply), reply), World rest (tx w) false).
Proof.
  intros Hf Hr. unfold sys_read. rewrite Hf, Hr, firstn_exact, skipn_exact.
  reflexivity.
Qed.

Lemma bytes_at_app_l (off n : nat) (a b : list Z) :
  (off + n <= length a)%nat -> bytes_at off n (a ++ b) = bytes_at off n a.
Proof.
  intros H. unfold bytes_at. rewrite skipn_app, firstn_app, length_skipn.
  replace (n - (length a - off))%nat with 0%nat by lia.
  cbn [firstn]. apply app_nil_r.
Qed.


(** [x11_connect] once the server's 40-byte reply is in the stream: what
    was sent before reading it, and how the function goes on. *)
Lemma connect_run (host : byte_order) (p : process) (conn : x11_connection_t)
    (w : world) (reply rest : list Z) :
  rx_fail w = false -> rx w = reply ++ rest -> length reply = 40%nat ->
  let conn1 :=
    Connection (socket_fd p) (id conn) (id_inc conn) (screen conn) in
  exists out,
    (parse_xauthority host (fopen_rb p (xauth_path p)) = None ->
     out = setup_request_without_credential host)
    /\ x11_connect host p conn w
       = if negb (setup_status reply =? 1)
         then ((false, conn1), World rest (tx w ++ out) false)
         else
           (let conn2 :=
              Connection (socket_fd p) (setup_resource_id_base host reply)
                (Z.land (setup_resource_id_mask host reply)
                        (neg_uint32 (setup_resource_id_mask host reply)))
                (screen conn) in
            sys_read (Z.to_nat (setup_vendor_len host reply)) ;;;
            sys_read (Z.to_nat (setup_pixmap_formats_len reply)
                      * sizeof_x11_format_t) ;;;
            c <- read_screens host p (Z.to_nat (setup_roots_len reply)) 0
                   conn2 (indeterminate p sizeof_x11_screen_t) ;;
            ret (true, c)) (World rest (tx w ++ out) false).
Proof.
  intros Hf Hr Hl conn1. unfold x11_connect.
  set (cookie := parse_xauthority host (fopen_rb p (xauth_path p))).
  set (request := image_setup_request host _).
  unfold bind at 1. cbn [sys_write]. unfold bind at 1.
  set (w1 := World (rx w) _ (rx_fail w)).
  destruct (write_cookie_rx cookie w1) as (Hrx & Hfail & out & Htx & Hnone).
  destruct (write_cookie cookie w1) as [u w2]. cbn [snd] in *.
  exists (firstn (Z.to_nat sizeof_x11_setup_request_t) request ++ out).
  split.
  - intros Hc. rewrite (Hnone Hc), app_nil_r. subst request.
    unfold cookie in *. rewrite Hc.
    unfold setup_request_without_credential. apply firstn_all2.
    unfold image_setup_request. image_length.
  - unfold bind at 1. unfold sizeof_x11_setup_t. rewrite <- Hl.
    rewrite (@sys_read_reply reply rest w2) by (subst w1; cbn in *; congruence).
    cbn [snd fst]. rewrite Htx. subst w1. cbn [tx]. rewrite <- app_assoc.
    assert (Hfield : forall off n, (off + n <= 40)%nat ->
              bytes_at off n (store_into (indeterminate p (length reply)) reply)
              = bytes_at off n reply).
    { intros off n H. unfold store_into. apply bytes_at_app_l. lia. }
    unfold setup_status, setup_resource_id_base, setup_resource_id_mask,
      setup_vendor_len, setup_roots_len, setup_pixmap_formats_len.
    rewrite !Hfield by lia.
    destruct (negb (load_u8 (bytes_at 0 1 reply) =? 1)); reflexivity.
Qed.

(** C4: when the status byte of the setup reply is not 1, [x11_connect]
    returns false right after reading the reply, and the identifier
    counter, the increment and the screen record of the connection are
    what they were before the call. *)
Theorem connect_setup_rejected (host : byte_order) (p : process)
    (conn : x11_connection_t) (w : world) (reply rest : list Z) :
  rx_fail w = false -> rx w = reply ++ rest -> length reply = 40%nat ->
  setup_status reply <> 1 ->
  let res := x11_connect host p conn w in
  fst (fst res) = false
  /\ id (snd (fst res)) = id conn
  /\ id_inc (snd (fst res)) = id_inc conn
  /\ screen (snd (fst res)) = screen conn
  /\ rx (snd res) = rest.
Proof.
  intros Hf Hr Hl Hs res. subst res.
  destruct (@connect_run host p conn w reply rest Hf Hr Hl) as (out & _ & E).
  rewrite E. apply Z.eqb_neq in Hs. rewrite Hs. cbn. auto.
Qed.

Lemma connect_setup_rejected_witness :
  let res := x11_connect LittleEndian mock_process fresh_connection
               (World mock_setup_failed [] false) in
  fst (fst res) = false
  /\ id (snd (fst res)) = 7
  /\ id_inc (snd (fst res)) = 9
  /\ screen (snd (fst res)) = []
  /\ rx (snd res) = [].
Proof.
  apply (@connect_setup_rejected LittleEndian mock_process
           fresh_connection (World mock_setup_failed [] false)
           mock_setup_failed [] eq_refl eq_refl eq_refl).
  vm_compute. discriminate.
Defined.

(** C3: for every 32-bit base [b] and mask [m] that the server puts, in
    the byte order of the host, at bytes 12 to 15 and 16 to 19 of a setup
    reply it accepts the handshake with, the handshake succeeds, the
    counter starts at [b], and the increment of the allocator is the
    lowest set bit of [m], which is [m & ((2^32 - m) mod 2^32)]; with the
    mask 0x1FFFFF in the reply the increment is 1, with 0xFFFFFFFE it
    is 2. *)
Theorem connect_id_increment (host : byte_order) (p : process)
    (conn : x11_connection_t) (w : world) (reply rest : list Z) (b m : Z) :
  rx_fail w = false -> rx w = reply ++ rest -> length reply = 40%nat ->
  setup_status reply = 1 ->
  is_uint32 b -> bytes_at 12 4 reply = store host 4 b ->
  is_uint32 m -> bytes_at 16 4 reply = store host 4 m ->
  let res := fst (x11_connect host p conn w) in
  fst res = true
  /\ id (snd res) = b
  /\ id_inc (snd res) = lowest_set_bit m
  /\ id_inc (snd res) = Z.land m ((2 ^ 32 - m) mod 2 ^ 32)
  /\ (m = 2097151 -> id_inc (snd res) = 1)
  /\ (m = 4294967294 -> id_inc (snd res) = 2).
Proof.
  intros Hf Hr Hl Hs Hb Eb Hm Em res. subst res.
  destruct (@connect_run host p conn w reply rest Hf Hr Hl) as (out & _ & E).
  rewrite E. apply Z.eqb_eq in Hs. rewrite Hs. cbn [negb].
  assert (Ebase : setup_resource_id_base host reply = b).
  { unfold setup_resource_id_base. rewrite Eb.
    rewrite <- (app_nil_r (store host 4 b)), load_u32_store.
    apply Z.mod_small. exact Hb. }
  assert (Emask : setup_resource_id_mask host reply = m).
  { unfold setup_resource_id_mask. rewrite Em.
    rewrite <- (app_nil_r (store host 4 m)), load_u32_store.
    apply Z.mod_small. exact Hm. }
  rewrite Ebase, Emask.
  pose proof (id_inc_lowest_set_bit Hm) as Hinc.
  assert (Hland : lowest_set_bit m = Z.land m ((2 ^ 32 - m) mod 2 ^ 32)).
  { rewrite <- Hinc. unfold neg_uint32, to_uint32. f_equal.
    replace (2 ^ 32 - m) with (- m + 1 * 2 ^ 32) by lia.
    now rewrite Z.mod_add by lia. }
  unfold bind.
  destruct (sys_read (Z.to_nat (setup_vendor_len host reply)) _) as [r1 w1].
  destruct (sys_read _ w1) as [r2 w2].
  match goal with
  | |- context [read_screens host p ?n 0 ?c ?u w2] =>
      pose proof (read_screens_ids host p n 0 c u w2) as Hids;
      destruct (read_screens host p n 0 c u w2) as [c' w3]
  end.
  cbv zeta in Hids. unfold ret. cbn [fst snd id id_inc fd] in Hids |- *.
  destruct Hids as (_ & Hid & Hidinc).
  assert (Hres : id_inc c' = lowest_set_bit m)
    by (rewrite Hidinc; exact Hinc).
  split; [reflexivity|]. split; [exact Hid|]. split; [exact Hres|].
  split; [rewrite Hres; exact Hland|]. split.
  - intros ->. rewrite Hres. reflexivity.
  - intros ->. rewrite Hres. reflexivity.
Qed.

Lemma connect_id_increment_witness :
  let odd := fst (x11_connect LittleEndian mock_process fresh_connection
                    (World mock_setup_success [] false)) in
  let even := fst (x11_connect LittleEndian mock_process fresh_connection
                     (World mock_setup_even_mask [] false)) in
  (fst odd = true /\ id (snd odd) = 4194304 /\ id_inc (snd odd) = 1)
  /\ (fst even = true /\ id (snd even) = 4194304 /\ id_inc (snd even) = 2).
Proof.
  assert (Hb : is_uint32 4194304) by (unfold is_uint32; lia).
  assert (Ho : is_uint32 2097151) by (unfold is_uint32; lia).
  assert (He : is_uint32 4294967294) by (unfold is_uint32; lia).
  destruct (@connect_id_increment LittleEndian mock_process
              fresh_connection (World mock_setup_success [] false)
              mock_setup_success [] 4194304 2097151
              eq_refl eq_refl eq_refl eq_refl Hb eq_refl Ho eq_refl)
    as (H1 & H2 & _ & _ & H3 & _).
  destruct (@connect_id_increment LittleEndian mock_process
              fresh_connection (World mock_setup_even_mask [] false)
              mock_setup_even_mask [] 4194304 4294967294
              eq_refl eq_refl eq_refl eq_refl Hb eq_refl He eq_refl)
    as (H4 & H5 & _ & _ & _ & H6).
  exact (conj (conj H1 (conj H2 (H3 eq_refl)))
              (conj H4 (conj H5 (H6 eq_refl)))).
Defined.

Example connect_even_mask :
  id_inc (snd (fst (x11_connect LittleEndian mock_process fresh_connection
                      (World mock_setup_even_mask [] false)))) = 2.
Proof. reflexivity. Qed.

(** The end-to-end scenario of the specification: after the handshake
    with the mock server, [x11_generate_id] returns 0x00400000 and then
    0x00400001. *)
Example connect_then_generate_ids :
  let conn := snd (fst (x11_connect LittleEndian mock_process
                          fresh_connection
                          (World mock_setup_success [] false))) in
  kth_generated_id 0 conn = 4194304 /\ kth_generated_id 1 conn = 4194305.
Proof. split; reflexivity. Qed.

(** ** The credential store *)

Lemma xauth_loop_step (host : byte_order) (f : FILE) :
  xauth_loop host f
  = match xauth_reads host f with
    | None => None
    | Some (l, f') =>
        if is_magic_cookie l then
          Some (Cookie (local_name_len l) (local_name l)
                       (local_data_len l) (local_data l))
        else xauth_loop host f'
    end.
Proof.
  rewrite xauth_loop_equation_1.
  destruct (inspect (xauth_reads host f)) as [[[l f']|] e];
    simp xauth_loop; rewrite e; rewrite ?xauth_loop_equation_1; reflexivity.
Qed.

Lemma ntohs_load_pair (host : byte_order) (h l : Z) :
  is_byte h -> is_byte l -> ntohs host (load_u16 host [h; l]) = h * 256 + l.
Proof.
  unfold is_byte, ntohs, load_u16, to_uint16, bswap16. intros Hh Hl.
  destruct host; cbn [firstn load le_value rev app];
    change (2 ^ 16) with 65536; lia.
Qed.

Lemma be16_bytes (v : Z) :
  is_uint16 v ->
  exists h l, be16 v = [h; l] /\ is_byte h /\ is_byte l /\ h * 256 + l = v.
Proof.
  unfold is_uint16, be16, is_byte. change (2 ^ 16) with 65536. intros H.
  exists ((v / 256) mod 256), (v mod 256). repeat split; lia.
Qed.

Lemma pair_be16 (h l : Z) :
  is_byte h -> is_byte l ->
  is_uint16 (h * 256 + l) /\ be16 (h * 256 + l) = [h; l].
Proof.
  unfold is_uint16, be16, is_byte. change (2 ^ 16) with 65536. intros Hh Hl.
  split; [lia|]. f_equal; [|f_equal]; lia.
Qed.

Lemma at_cursor_advance (c : list Z) (p : nat) (x rest : list Z) :
  at_cursor (File c p) (x ++ rest) ->
  at_cursor (File c (p + length x)) rest.
Proof.
  unfold at_cursor; cbn [contents pos]. intros H.
  rewrite Nat.add_comm, <- skipn_skipn, H. apply skipn_exact.
Qed.

Section XauthReads.

Variable host : byte_order.

Lemma fread_ntohs_reads (c : list Z) (p : nat) (v : Z) (rest : list Z) :
  is_uint16 v -> at_cursor (File c p) (be16 v ++ rest) ->
  exists p', fread_ntohs host (File c p) = Some (v, File c p')
             /\ at_cursor (File c p') rest.
Proof.
  intros Hv Hat.
  destruct (be16_bytes Hv) as (h & l & E & Hh & Hl & <-). rewrite E in Hat.
  exists (p + 2)%nat. split.
  - unfold fread_ntohs, fread. cbn [contents pos].
    unfold at_cursor in Hat; cbn [contents pos] in Hat. rewrite Hat.
    cbn [Nat.mul Nat.add firstn app length Nat.div Nat.divmod fst Nat.eqb
         negb].
    now rewrite ntohs_load_pair.
  - apply (@at_cursor_advance c p [h; l] rest Hat).
Qed.

Lemma fseek_skip_reads (c : list Z) (p : nat) (field rest : list Z) :
  at_cursor (File c p) (field ++ rest) ->
  exists p', fseek_skip (File c p) (Z.of_nat (length field))
             = Some (File c p')
             /\ at_cursor (File c p') rest.
Proof.
  intros Hat. exists (p + length field)%nat. split.
  - unfold fseek_skip, fseek_cur. cbn [contents pos].
    replace (Z.of_nat p + Z.of_nat (length field) <? 0) with false
      by (symmetry; apply Z.ltb_ge; lia).
    cbn. do 2 f_equal. lia.
  - apply (@at_cursor_advance c p field rest Hat).
Qed.

Lemma fread_counted_reads (c : list Z) (p : nat) (field rest : list Z) :
  at_cursor (File c p) (field ++ rest) ->
  exists p', fread_counted (File c p) (Z.of_nat (length field))
             = Some (field, File c p')
             /\ at_cursor (File c p') rest.
Proof.
  intros Hat. exists (p + length field)%nat. split.
  - unfold fread_counted, fread. cbn [contents pos].
    unfold at_cursor in Hat; cbn [contents pos] in Hat.
    rewrite Hat, Nat2Z.id, Nat.mul_1_l, firstn_exact, Nat.div_1_r, Z.eqb_refl.
    reflexivity.
  - apply (@at_cursor_advance c p field rest Hat).
Qed.

(** One turn of the loop over a complete record. *)
Lemma xauth_reads_entry (c : list Z) (p : nat) (e : xauth_entry)
    (rest : list Z) :
  well_formed_entry e -> at_cursor (File c p) (encode_entry e ++ rest) ->
  exists p', xauth_reads host (File c p) = Some (locals_of_entry e, File c p')
             /\ at_cursor (File c p') rest.
Proof.
  intros (Hf & Ha & Hd & Hn & Ht) Hat.
  unfold encode_entry, counted in Hat. repeat rewrite <- app_assoc in Hat.
  unfold xauth_reads.
  destruct (@fread_ntohs_reads c p _ _ Hf Hat) as (p1 & -> & H1).
  destruct (@fread_ntohs_reads c p1 _ _ Ha H1) as (p2 & -> & H2).
  destruct (@fseek_skip_reads c p2 _ _ H2) as (p3 & -> & H3).
  destruct (@fread_ntohs_reads c p3 _ _ Hd H3) as (p4 & -> & H4).
  destruct (@fseek_skip_reads c p4 _ _ H4) as (p5 & -> & H5).
  destruct (@fread_ntohs_reads c p5 _ _ Hn H5) as (p6 & -> & H6).
  destruct (@fread_counted_reads c p6 _ _ H6) as (p7 & -> & H7).
  destruct (@fread_ntohs_reads c p7 _ _ Ht H7) as (p8 & -> & H8).
  destruct (@fread_counted_reads c p8 _ _ H8) as (p9 & -> & H9).
  exists p9. split; [reflexivity | exact H9].
Qed.

End XauthReads.

Lemma bytes_eqb_eq (a b : list Z) : bytes_eqb a b = true <-> a = b.
Proof.
  revert b; induction a as [|x a IH]; intros [|y b]; cbn [bytes_eqb];
    try (split; [discriminate | discriminate]); [tauto|].
  rewrite andb_true_iff, Z.eqb_eq, IH. split.
  - intros [-> ->]. reflexivity.
  - intros [= -> ->]. auto.
Qed.

(** The test of the loop recognises exactly the expected family name. *)
Lemma is_magic_cookie_entry (e : xauth_entry) :
  is_magic_cookie (locals_of_entry e) = true
  <-> e_name e = MIT_MAGIC_COOKIE_1.
Proof.
  unfold is_magic_cookie, memcmp_eq0, locals_of_entry.
  cbn [local_name_len local_name].
  rewrite andb_true_iff, Z.eqb_eq, bytes_eqb_eq. split.
  - intros [Hlen Heq]. rewrite firstn_all2 in Heq by lia. exact Heq.
  - intros ->. split; reflexivity.
Qed.

Lemma xauth_loop_first_match (host : byte_order) (pre : list xauth_entry)
    (e : xauth_entry) (rest : list Z) (c : list Z) (p : nat) :
  Forall well_formed_entry pre ->
  Forall (fun x => e_name x <> MIT_MAGIC_COOKIE_1) pre ->
  well_formed_entry e -> e_name e = MIT_MAGIC_COOKIE_1 ->
  at_cursor (File c p)
    (flat_map encode_entry pre ++ encode_entry e ++ rest) ->
  xauth_loop host (File c p) = Some (cookie_of_entry e).
Proof.
  intros Hwf Hother He Hname. revert p.
  induction pre as [|x pre IH]; intros p Hat.
  - cbn [flat_map app] in Hat.
    destruct (@xauth_reads_entry host c p e rest He Hat) as (p' & Hr & _).
    rewrite xauth_loop_step, Hr.
    now rewrite (proj2 (is_magic_cookie_entry e) Hname).
  - cbn [flat_map] in Hat. rewrite <- app_assoc in Hat.
    inversion Hwf as [|? ? Hx Hwf']; subst.
    inversion Hother as [|? ? Hnx Hother']; subst.
    destruct (@xauth_reads_entry host c p x _ Hx Hat) as (p' & Hr & Hat').
    rewrite xauth_loop_step, Hr.
    destruct (is_magic_cookie (locals_of_entry x)) eqn:E.
    + apply is_magic_cookie_entry in E. contradiction.
    + apply IH; assumption.
Qed.

(** C6: in a store of well-formed records, the reader returns the first
    record whose family name is the 18 bytes of MIT-MAGIC-COOKIE-1, with
    its name and token as they stand between the length prefixes; the
    records before it are consumed and not returned, and whatever follows
    the match is not looked at. *)
Theorem parse_xauthority_first_match (host : byte_order)
    (pre : list xauth_entry) (e : xauth_entry) (rest : list Z) :
  Forall well_formed_entry pre ->
  Forall (fun x => e_name x <> MIT_MAGIC_COOKIE_1) pre ->
  well_formed_entry e -> e_name e = MIT_MAGIC_COOKIE_1 ->
  parse_xauthority host
    (Some (flat_map encode_entry pre ++ encode_entry e ++ rest))
  = Some (Cookie 18 (e_name e) (Z.of_nat (length (e_data e))) (e_data e)).
Proof.
  intros Hwf Hother He Hname. cbn [parse_xauthority].
  rewrite (@xauth_loop_first_match host pre e rest _ 0 Hwf Hother He Hname)
    by reflexivity.
  unfold cookie_of_entry. rewrite Hname. reflexivity.
Qed.

Lemma parse_xauthority_first_match_witness :
  parse_xauthority LittleEndian
    (Some (flat_map encode_entry [sample_other_entry]
           ++ encode_entry sample_cookie_entry ++ [0; 1; 0]))
  = Some (Cookie 18 MIT_MAGIC_COOKIE_1 4 [1; 2; 3; 4]).
Proof.
  apply (@parse_xauthority_first_match LittleEndian [sample_other_entry]
           sample_cookie_entry [0; 1; 0]).
  - repeat constructor; cbv; intuition discriminate.
  - repeat constructor. cbv. discriminate.
  - repeat split; cbv; intuition discriminate.
  - reflexivity.
Defined.

Section XauthInversion.

Variable host : byte_order.

Lemma fread_ntohs_inv (f : FILE) (v : Z) (f' : FILE) :
  Forall is_byte (contents f) -> fread_ntohs host f = Some (v, f') ->
  is_uint16 v /\ contents f' = contents f /\ pos f' = (pos f + 2)%nat
  /\ skipn (pos f) (contents f) = be16 v ++ skipn (pos f') (contents f).
Proof.
  destruct f as [c p]. cbn [contents pos]. intros Hb.
  unfold fread_ntohs, fread. cbn [contents pos].
  assert (Hs : Forall is_byte (skipn p c)).
  { rewrite <- (firstn_skipn p c) in Hb. now apply Forall_app in Hb. }
  assert (Hnext : skipn (p + 2) c = skipn 2 (skipn p c))
    by (now rewrite skipn_skipn, Nat.add_comm).
  destruct (skipn p c) as [|h [|l t]] eqn:E; try discriminate.
  cbn [Nat.mul Nat.add firstn length Nat.div Nat.divmod fst Nat.eqb negb].
  intros [= <- <-]. cbn [contents pos].
  inversion Hs as [|? ? Hh Hs']; subst. inversion Hs' as [|? ? Hl _]; subst.
  rewrite ntohs_load_pair by assumption.
  destruct (pair_be16 Hh Hl) as [Hv ->].
  split; [exact Hv|]. split; [reflexivity|]. split; [reflexivity|].
  rewrite Hnext. reflexivity.
Qed.

Lemma fseek_skip_inv (f : FILE) (n : Z) (f' : FILE) :
  0 <= n -> fseek_skip f n = Some f' ->
  contents f' = contents f /\ pos f' = (pos f + Z.to_nat n)%nat.
Proof.
  destruct f as [c p]. intros Hn. unfold fseek_skip, fseek_cur.
  cbn [contents pos].
  destruct (Z.of_nat p + n <? 0); cbn; [discriminate|].
  intros [= <-]. cbn [contents pos]. split; [reflexivity | lia].
Qed.

Lemma fread_counted_inv (f : FILE) (n : Z) (bs : list Z) (f' : FILE) :
  0 <= n -> fread_counted f n = Some (bs, f') ->
  Z.of_nat (length bs) = n /\ contents f' = contents f
  /\ skipn (pos f) (contents f) = bs ++ skipn (pos f') (contents f).
Proof.
  destruct f as [c p]. intros Hn. unfold fread_counted, fread.
  cbn [contents pos]. rewrite Nat.mul_1_l, Nat.div_1_r.
  destruct (Z.eqb_spec
              (Z.of_nat (length (firstn (Z.to_nat n) (skipn p c)))) n)
    as [E | E]; cbn [negb]; [|discriminate].
  intros [= <- <-]. cbn [contents pos].
  split; [exact E|]. split; [reflexivity|].
  rewrite Nat.add_comm, <- skipn_skipn.
  replace (length (firstn (Z.to_nat n) (skipn p c))) with (Z.to_nat n)
    by lia.
  symmetry. apply firstn_skipn.
Qed.

(** A field that was skipped with [fseek] lies within the file as soon
    as the next read succeeds. *)
Lemma skipped_field (c : list Z) (p n : nat) (x : Z) (rest : list Z) :
  skipn (p + n) c = x :: rest ->
  exists field, length field = n /\ skipn p c = field ++ skipn (p + n) c.
Proof.
  intros H. exists (firstn n (skipn p c)). split.
  - rewrite length_firstn, length_skipn.
    assert (length (skipn (p + n) c) = S (length rest)) by now rewrite H.
    rewrite length_skipn in *. lia.
  - rewrite Nat.add_comm, <- skipn_skipn. symmetry. apply firstn_skipn.
Qed.

(** Whenever all the reads of a turn succeed, the unread part of the
    store began with a complete well-formed record. *)
Lemma xauth_reads_inv (f : FILE) (l : xauth_locals) (f' : FILE) :
  Forall is_byte (contents f) -> xauth_reads host f = Some (l, f') ->
  exists e rest,
    well_formed_entry e /\ at_cursor f (encode_entry e ++ rest)
    /\ l = locals_of_entry e.
Proof.
  intros Hb. unfold xauth_reads.
  destruct (fread_ntohs host f) as [[v1 f1]|] eqn:E1; [|discriminate].
  destruct (fread_ntohs host f1) as [[v2 f2]|] eqn:E2; [|discriminate].
  destruct (fseek_skip f2 v2) as [f3|] eqn:E3; [|discriminate].
  destruct (fread_ntohs host f3) as [[v4 f4]|] eqn:E4; [|discriminate].
  destruct (fseek_skip f4 v4) as [f5|] eqn:E5; [|discriminate].
  destruct (fread_ntohs host f5) as [[v6 f6]|] eqn:E6; [|discriminate].
  destruct (fread_counted f6 v6) as [[b7 f7]|] eqn:E7; [|discriminate].
  destruct (fread_ntohs host f7) as [[v8 f8]|] eqn:E8; [|discriminate].
  destruct (fread_counted f8 v8) as [[b9 f9]|] eqn:E9; [|discriminate].
  intros [= <- _].
  apply fread_ntohs_inv in E1 as (U1 & C1 & P1 & S1); [|exact Hb].
  apply fread_ntohs_inv in E2 as (U2 & C2 & P2 & S2);
    [|rewrite C1; exact Hb].
  rewrite C1 in C2, S2.
  apply fseek_skip_inv in E3 as (C3 & P3); [|apply U2]. rewrite C2 in C3.
  apply fread_ntohs_inv in E4 as (U4 & C4 & P4 & S4);
    [|rewrite C3; exact Hb].
  rewrite C3 in C4, S4.
  apply fseek_skip_inv in E5 as (C5 & P5); [|apply U4]. rewrite C4 in C5.
  apply fread_ntohs_inv in E6 as (U6 & C6 & P6 & S6);
    [|rewrite C5; exact Hb].
  rewrite C5 in C6, S6.
  apply fread_counted_inv in E7 as (L7 & C7 & S7); [|apply U6].
  rewrite C6 in C7, S7.
  apply fread_ntohs_inv in E8 as (U8 & C8 & P8 & S8);
    [|rewrite C7; exact Hb].
  rewrite C7 in C8, S8.
  apply fread_counted_inv in E9 as (L9 & C9 & S9); [|apply U8].
  rewrite C8 in C9, S9.
  set (c := contents f) in *.
  assert (Ha : exists a, Z.of_nat (length a) = v2
                         /\ skipn (pos f2) c = a ++ skipn (pos f3) c).
  { pose proof S4 as S4'. unfold be16 in S4'. cbn [app] in S4'.
    rewrite P3 in S4'.
    destruct (skipped_field _ _ _ S4') as (a & La & Sa).
    exists a. rewrite P3. split; [unfold is_uint16 in U2; lia | exact Sa]. }
  assert (Hd : exists d, Z.of_nat (length d) = v4
                         /\ skipn (pos f4) c = d ++ skipn (pos f5) c).
  { pose proof S6 as S6'. unfold be16 in S6'. cbn [app] in S6'.
    rewrite P5 in S6'.
    destruct (skipped_field _ _ _ S6') as (d & Ld & Sd).
    exists d. rewrite P5. split; [unfold is_uint16 in U4; lia | exact Sd]. }
  destruct Ha as (a & La & Sa), Hd as (d & Ld & Sd).
  exists (XauthEntry v1 a d b7 b9), (skipn (pos f9) c).
  split; [|split].
  - unfold well_formed_entry. cbn [e_family e_address e_display e_name e_data].
    rewrite La, Ld, L7, L9. auto.
  - unfold at_cursor, encode_entry, counted.
    cbn [e_family e_address e_display e_name e_data].
    rewrite La, Ld, L7, L9. repeat rewrite <- app_assoc.
    fold c. rewrite S1. f_equal. rewrite S2. f_equal. rewrite Sa. f_equal.
    rewrite S4. f_equal. rewrite Sd. f_equal. rewrite S6. f_equal.
    rewrite S7. f_equal. rewrite S8. f_equal. exact S9.
  - unfold locals_of_entry.
    cbn [e_family e_address e_display e_name e_data].
    now rewrite La, Ld, L7, L9.
Qed.

End XauthInversion.

Lemma xauth_loop_without_credential (host : byte_order)
    (pre : list xauth_entry) (tail : list Z) (c : list Z) (p : nat) :
  Forall is_byte c ->
  Forall well_formed_entry pre ->
  Forall (fun x => e_name x <> MIT_MAGIC_COOKIE_1) pre ->
  (forall e rest, well_formed_entry e -> tail <> encode_entry e ++ rest) ->
  at_cursor (File c p) (flat_map encode_entry pre ++ tail) ->
  xauth_loop host (File c p) = None.
Proof.
  intros Hb Hwf Hother Htail. revert p.
  induction pre as [|x pre IH]; intros p Hat.
  - cbn [flat_map app] in Hat. rewrite xauth_loop_step.
    destruct (xauth_reads host (File c p)) as [[l f']|] eqn:E;
      [|reflexivity].
    apply xauth_reads_inv in E as (e & rest & He & Hat' & _);
      [|exact Hb].
    unfold at_cursor in Hat, Hat'. rewrite Hat in Hat'.
    destruct (Htail e rest He Hat').
  - cbn [flat_map] in Hat. rewrite <- app_assoc in Hat.
    inversion Hwf as [|? ? Hx Hwf']; subst.
    inversion Hother as [|? ? Hnx Hother']; subst.
    destruct (@xauth_reads_entry host c p x _ Hx Hat) as (p' & Hr & Hat').
    rewrite xauth_loop_step, Hr.
    destruct (is_magic_cookie (locals_of_entry x)) eqn:E.
    + apply is_magic_cookie_entry in E. contradiction.
    + apply IH; assumption.
Qed.

(** Conversely, a credential is returned only for a store that begins
    with well-formed records of other families followed by a complete
    record of the expected family: C6 describes every success of the
    reader. *)
Lemma xauth_loop_found_inv (host : byte_order) (c : list Z) :
  Forall is_byte c ->
  forall (n p : nat) (ck : x11_cookie_t),
    (length c - p <= n)%nat ->
    xauth_loop host (File c p) = Some ck ->
    exists pre e rest,
      Forall well_formed_entry pre
      /\ Forall (fun x => e_name x <> MIT_MAGIC_COOKIE_1) pre
      /\ well_formed_entry e /\ e_name e = MIT_MAGIC_COOKIE_1
      /\ skipn p c = flat_map encode_entry pre ++ encode_entry e ++ rest
      /\ ck = cookie_of_entry e.
Proof.
  intros Hb. induction n as [|n IH]; intros p ck Hn; rewrite xauth_loop_step.
  - destruct (xauth_reads host (File c p)) as [[l f']|] eqn:E;
      [|discriminate].
    apply xauth_reads_inv in E as (e & rest & He & Hat & _); [|exact Hb].
    unfold at_cursor in Hat; cbn [contents pos] in Hat.
    apply (f_equal (@length Z)) in Hat.
    rewrite length_skipn, length_app in Hat.
    unfold encode_entry, be16 in Hat. cbn [app length] in Hat. lia.
  - destruct (xauth_reads host (File c p)) as [[l f']|] eqn:E;
      [|discriminate].
    pose proof E as E'.
    apply xauth_reads_inv in E' as (e & rest & He & Hat & ->); [|exact Hb].
    destruct (@xauth_reads_entry host c p e rest He Hat) as (p' & Hr & Hat').
    rewrite E in Hr. injection Hr as ->.
    unfold at_cursor in Hat, Hat'; cbn [contents pos] in Hat, Hat'.
    destruct (is_magic_cookie (locals_of_entry e)) eqn:M.
    + intros [= <-]. apply is_magic_cookie_entry in M.
      exists [], e, rest.
      split; [constructor|]. split; [constructor|]. split; [exact He|].
      split; [exact M|]. split; [exact Hat | reflexivity].
    + intros Hloop. apply IH in Hloop.
      * destruct Hloop as (pre & e' & rest' & Hwf & Hother & He' & Hn' & Hs
                           & ->).
        exists (e :: pre), e', rest'.
        split; [constructor; assumption|]. split.
        { constructor; [|assumption]. intros Hname.
          apply is_magic_cookie_entry in Hname. congruence. }
        split; [exact He'|]. split; [exact Hn'|]. split; [|reflexivity].
        cbn [flat_map]. rewrite <- app_assoc, <- Hs, Hat'. exact Hat.
      * assert (Hlen := f_equal (@length Z) Hat).
        assert (Hlen' := f_equal (@length Z) Hat').
        rewrite length_skipn in Hlen, Hlen'. rewrite length_app in Hlen.
        unfold encode_entry, be16 in Hlen. cbn [app length] in Hlen. lia.
Qed.

(** Without a credential the only bytes [x11_connect] sends are those of
    the setup request, with both authentication lengths zero. *)
Lemma connect_without_credential_sends (host : byte_order) (p : process)
    (conn : x11_connection_t) (w : world) :
  parse_xauthority host (fopen_rb p (xauth_path p)) = None ->
  tx (snd (x11_connect host p conn w))
  = tx w ++ setup_request_without_credential host.
Proof.
  intros Hc. unfold x11_connect. rewrite Hc.
  fold (setup_request_without_credential host).
  unfold bind at 1. cbn [sys_write]. unfold bind at 1.
  cbn [write_cookie ret].
  match goal with
  | |- tx (snd (bind ?m ?k ?w1)) = _ =>
      assert (Hro : reads_only (bind m k))
  end.
  { apply reads_only_bind; [apply reads_only_sys_read|]. intros r.
    destruct (negb _); auto 8 using reads_only_screens with reads. }
  match goal with
  | |- tx (snd (_ ?w1)) = _ => destruct (Hro w1) as [-> _]
  end.
  cbn [tx]. f_equal. apply firstn_all2.
  unfold setup_request_without_credential, image_setup_request. image_length.
Qed.

(** C7 (as amended): a store that cannot be opened, or that holds
    well-formed records of other families followed by nothing or by bytes
    that do not begin with a complete record (an empty store, or one cut
    short before any complete cookie record), makes the reader return
    "no credential"; [x11_connect] then sends the 12-byte setup request
    with both authentication lengths zero and nothing else, and succeeds
    or fails on the status of the reply. *)
Theorem no_credential_is_not_an_error (host : byte_order) (p : process)
    (conn : x11_connection_t) (w : world) (store reply rest : list Z) :
  Forall is_byte store -> store_without_credential store ->
  (fopen_rb p (xauth_path p) = None
   \/ fopen_rb p (xauth_path p) = Some store) ->
  rx_fail w = false -> rx w = reply ++ rest -> length reply = 40%nat ->
  parse_xauthority host None = None
  /\ parse_xauthority host (Some store) = None
  /\ sent (x11_connect host p conn) w = setup_request_without_credential host
  /\ length (setup_request_without_credential host) = 12%nat
  /\ load_u16 host (bytes_at 6 2 (setup_request_without_credential host)) = 0
  /\ load_u16 host (bytes_at 8 2 (setup_request_without_credential host)) = 0
  /\ fst (fst (x11_connect host p conn w)) = (setup_status reply =? 1).
Proof.
  intros Hb (pre & tail & -> & Hwf & Hother & Htail) Hopen Hf Hr Hl.
  assert (Hstore : parse_xauthority host
                     (Some (flat_map encode_entry pre ++ tail)) = None).
  { cbn [parse_xauthority].
    apply (@xauth_loop_without_credential host pre tail _ 0 Hb Hwf Hother
             Htail).
    reflexivity. }
  assert (Hnone : parse_xauthority host (fopen_rb p (xauth_path p)) = None).
  { destruct Hopen as [-> | ->]; [reflexivity | exact Hstore]. }
  split; [reflexivity|]. split; [exact Hstore|]. split; [|split; [|split]].
  - unfold sent. rewrite (@connect_without_credential_sends host p conn w Hnone).
    apply skipn_exact.
  - unfold setup_request_without_credential, image_setup_request.
    image_length.
  - destruct host; reflexivity.
  - split; [destruct host; reflexivity|].
    destruct (@connect_run host p conn w reply rest Hf Hr Hl)
      as (out & _ & E).
    rewrite E. destruct (setup_status reply =? 1); cbn [negb];
      [|reflexivity].
    unfold bind.
    repeat match goal with
    | |- context [let (_, _) := ?m in _] => destruct m
    end.
    reflexivity.
Qed.

Lemma no_credential_is_not_an_error_witness :
  parse_xauthority LittleEndian (Some truncated_store) = None
  /\ sent (x11_connect LittleEndian process_with_truncated_store
             fresh_connection)
          (World mock_setup_success [] false)
     = [108; 0; 11; 0; 0; 0; 0; 0; 0; 0; 0; 0]
  /\ fst (fst (x11_connect LittleEndian process_with_truncated_store
                 fresh_connection (World mock_setup_success [] false)))
     = true.
Proof.
  destruct (@no_credential_is_not_an_error LittleEndian
              process_with_truncated_store fresh_connection
              (World mock_setup_success [] false) truncated_store
              mock_setup_success [])
    as (_ & H1 & H2 & _ & _ & _ & H3).
  - repeat (constructor; [unfold is_byte; lia|]). constructor.
  - exists [sample_other_entry], (firstn 20 (encode_entry sample_cookie_entry)).
    split; [reflexivity|]. split; [|split].
    + repeat constructor; cbv; intuition discriminate.
    + repeat constructor. cbv. discriminate.
    + intros e rest He Heq.
      destruct (@xauth_reads_entry LittleEndian
                  (firstn 20 (encode_entry sample_cookie_entry)) 0 e rest
                  He Heq) as (p' & Hr & _).
      vm_compute in Hr. discriminate Hr.
  - right. reflexivity.
  - reflexivity.
  - reflexivity.
  - reflexivity.
  - exact (conj H1 (conj H2 H3)).
Defined.

(** C7 (as stated) fails for a store that is cut short after a complete
    cookie record: the reader returns on the first such record without
    looking further, so the credential is found although the file ends
    in the middle of the next record, and the handshake carries the
    authentication lengths 18 and 4. *)
Lemma cookie_before_truncation :
  truncated store_cut_after_cookie
  /\ parse_xauthority LittleEndian (Some store_cut_after_cookie)
     = Some (Cookie 18 MIT_MAGIC_COOKIE_1 4 [1; 2; 3; 4])
  /\ load_u16 LittleEndian
       (bytes_at 6 2
          (sent (x11_connect LittleEndian process_with_store_cut_after_cookie
                   fresh_connection)
                (World mock_setup_success [] false)))
     = 18
  /\ load_u16 LittleEndian
       (bytes_at 8 2
          (sent (x11_connect LittleEndian process_with_store_cut_after_cookie
                   fresh_connection)
                (World mock_setup_success [] false)))
     = 4
  /\ ~ no_credential_claim LittleEndian process_with_store_cut_after_cookie
        fresh_connection (World mock_setup_success [] false)
        store_cut_after_cookie.
Proof.
  split; [| split; [reflexivity | split; [reflexivity |
                                          split; [reflexivity |]]]].
  - exists [sample_cookie_entry], sample_other_entry, 2%nat.
    split; [| split; [| split]].
    + repeat constructor; cbv; intuition discriminate.
    + repeat constructor; cbv; intuition discriminate.
    + cbn. lia.
    + unfold store_cut_after_cookie. cbn [flat_map].
      rewrite app_nil_r. reflexivity.
  - intros [H _]. vm_compute in H. discriminate H.
Qed.

(** * Further properties of the code *)

(** ** The remaining request encoders *)

Lemma sent_one_write (a : list Z) (n : Z) (w : world) :
  sent (sys_write a n) w = firstn (Z.to_nat n) a.
Proof. unfold sent, sys_write; cbn. apply skipn_exact. Qed.

Lemma load_u8_byte (b : Z) (rest : list Z) :
  is_byte b -> load_u8 (firstn 1 (to_uint8 b :: rest)) = b.
Proof.
  unfold is_byte, load_u8, to_uint8. intros H. cbn [firstn hd].
  rewrite Z.mod_mod by lia. apply Z.mod_small. lia.
Qed.

Lemma bytes_at_payload (h x : list Z) (k n : nat) :
  length h = k -> bytes_at k n (h ++ x) = firstn n x.
Proof. intros <-. unfold bytes_at. now rewrite skipn_exact. Qed.

Lemma decode_resource_image (host : byte_order) (op res : Z) :
  is_byte op -> is_uint32 res ->
  decode_resource_request host
    (to_uint8 op :: to_uint8 0
       :: store host 2 (to_uint16 (8 / 4)) ++ store host 4 res)
  = (op, 2, res).
Proof.
  intros Ho Hr. unfold decode_resource_request, is_uint32 in *.
  assert (E1 : forall l, load_u8 (bytes_at 0 1 (to_uint8 op :: l)) = op)
    by (intros l; apply (@load_u8_byte op l Ho)).
  rewrite E1. rewrite <- (app_nil_r (store host 4 res)).
  assert (E2 : load_u16 host
                 (bytes_at 2 2
                    (to_uint8 op :: to_uint8 0
                       :: store host 2 (to_uint16 (8 / 4))
                          ++ store host 4 res ++ [])) = 2)
    by (field_at; reflexivity).
  assert (E3 : load_u32 host
                 (bytes_at 4 4
                    (to_uint8 op :: to_uint8 0
                       :: store host 2 (to_uint16 (8 / 4))
                          ++ store host 4 res ++ [])) = res)
    by (field_at; apply Z.mod_small; lia).
  now rewrite E2, E3.
Qed.

(** X1: close-font and map-window each send exactly 8 bytes: the opcode,
    a zero byte, the length 2 (in 4-byte units) and the resource
    identifier, which re-parsing returns. *)
Theorem fixed_size_requests (host : byte_order) (conn : x11_connection_t)
    (res : Z) (w : world) :
  is_uint32 res ->
  let closing := sent (x11_close_font host conn res) w in
  let mapping := sent (x11_map_window host conn res) w in
  length closing = 8%nat
  /\ decode_resource_request host closing = (X11_CLOSE_FONT, 2, res)
  /\ bytes_at 1 1 closing = [0]
  /\ length mapping = 8%nat
  /\ decode_resource_request host mapping = (X11_MAP_WINDOW, 2, res)
  /\ bytes_at 1 1 mapping = [0].
Proof.
  intros Hr closing mapping. subst closing mapping.
  unfold x11_close_font, x11_map_window. rewrite !sent_one_write.
  unfold image_close_font_request, image_map_window_request,
    sizeof_x11_close_font_request_t, sizeof_x11_map_window_request_t.
  cbn [clf_major_opcode clf_pad0 clf_length clf_font
       mw_major_opcode mw_pad0 mw_length mw_window].
  do 2 image_is_whole. cbn [app].
  rewrite !decode_resource_image
    by (assumption || (unfold is_byte; cbv; intuition discriminate)).
  repeat split; image_length.
Qed.

Lemma fixed_size_requests_witness :
  decode_resource_request BigEndian
    (sent (x11_close_font BigEndian fresh_connection 4194304)
          (World [] [1; 2] false))
  = (46, 2, 4194304).
Proof.
  destruct (@fixed_size_requests BigEndian fresh_connection 4194304
              (World [] [1; 2] false)) as (_ & H & _).
  - unfold is_uint32. lia.
  - exact H.
Defined.

Lemma length_rectangles_image (host : byte_order)
    (rs : list x11_rectangle_t) :
  length (rectangles_image host rs) = (8 * length rs)%nat.
Proof.
  unfold rectangles_image. induction rs as [|r rs IH]; [reflexivity|].
  cbn [flat_map]. unfold image_rectangle at 1.
  rewrite !length_app, !length_store, IH. cbn [length]. lia.
Qed.

Lemma decode_rectangles_image (host : byte_order)
    (rs : list x11_rectangle_t) (rest : list Z) :
  Forall well_formed_rectangle rs ->
  decode_rectangles host (length rs) (rectangles_image host rs ++ rest) = rs.
Proof.
  induction 1 as [|r rs (Hx & Hy & Hw & Hh) _ IH]; [reflexivity|].
  cbn [length decode_rectangles rectangles_image flat_map].
  unfold image_rectangle at 1 3. repeat rewrite <- app_assoc. f_equal.
  - unfold decode_rectangle. destruct r as [x y wd ht].
    cbn [r_x r_y r_width r_height] in *. unfold is_uint16 in *.
    f_equal; field_at.
    + now apply to_int16_of_int16.
    + now apply to_int16_of_int16.
    + apply Z.mod_small; lia.
    + apply Z.mod_small; lia.
  - skip_fields. exact IH.
Qed.

(** X2: draw-rectangles sends a 12-byte header and the rectangles as they
    lie in memory, 8 bytes each; re-parsing returns the drawable, the
    graphics context and every rectangle, and the length field counts the
    whole request as long as it is shorter than 2^18 bytes. *)
Theorem poly_rectangle_round_trip (host : byte_order)
    (conn : x11_connection_t) (drawable gc : Z)
    (rectangles : list x11_rectangle_t) (w : world) :
  is_uint32 drawable -> is_uint32 gc ->
  Forall well_formed_rectangle rectangles ->
  let n := Z.of_nat (length rectangles) in
  12 + 8 * n < 2 ^ 64 ->
  let msg := sent (x11_poly_rectangle host conn drawable gc rectangles
                     (sizeof_x11_rectangle_t * n)) w in
  let decoded := decode_poly_rectangle host msg in
  Z.of_nat (length msg) = 12 + 8 * n
  /\ pr_major_opcode (fst decoded) = X11_POLY_RECTANGLE
  /\ pr_pad0 (fst decoded) = 0
  /\ pr_length (fst decoded) = (3 + 2 * n) mod 2 ^ 16
  /\ pr_drawable (fst decoded) = drawable
  /\ pr_gc (fst decoded) = gc
  /\ snd decoded = rectangles.
Proof.
  intros Hd Hg Hrs n Hn msg decoded. subst decoded msg.
  unfold x11_poly_rectangle. rewrite sent_two_writes.
  unfold image_poly_rectangle_request, sizeof_x11_poly_rectangle_request_t,
    sizeof_x11_rectangle_t.
  cbn [pr_major_opcode pr_pad0 pr_length pr_drawable pr_gc].
  image_is_whole.
  replace (firstn (Z.to_nat (8 * n)) (rectangles_image host rectangles))
    with (rectangles_image host rectangles)
    by (symmetry; apply firstn_all2; rewrite length_rectangles_image; lia).
  unfold to_size_t. rewrite (Z.mod_small (12 + 8 * n)) by lia.
  replace ((12 + 8 * n) / 4) with (3 + 2 * n) by lia.
  unfold is_uint32 in *. unfold decode_poly_rectangle. cbn [fst snd app].
  cbn [pr_major_opcode pr_pad0 pr_length pr_drawable pr_gc].
  repeat rewrite <- app_assoc.
  split; [|split; [reflexivity|split; [reflexivity|split; [|split; [|split]]]]].
  - cbn [length]. rewrite !length_app, !length_store,
      length_rectangles_image. lia.
  - field_at. unfold to_uint16. apply Z.mod_mod. lia.
  - field_at. apply Z.mod_small. lia.
  - field_at. apply Z.mod_small. lia.
  - cbn [length]. rewrite !length_app, !length_store,
      length_rectangles_image.
    match goal with
    | |- context [Nat.div ?k 8] =>
        replace (Nat.div k 8) with (length rectangles)
          by (apply Nat.div_unique_exact; lia)
    end.
    skip_fields.
    rewrite <- (app_nil_r (rectangles_image host rectangles)).
    now apply decode_rectangles_image.
Qed.

Lemma poly_rectangle_round_trip_witness :
  snd (decode_poly_rectangle LittleEndian
         (sent (x11_poly_rectangle LittleEndian fresh_connection 4194306
                  4194305
                  [Rectangle 55 55 50 50; Rectangle (-75) 75 50 50] 16)
               (World [] [] false)))
  = [Rectangle 55 55 50 50; Rectangle (-75) 75 50 50].
Proof.
  pose proof (@poly_rectangle_round_trip LittleEndian fresh_connection
                4194306 4194305
                [Rectangle 55 55 50 50; Rectangle (-75) 75 50 50]
                (World [] [] false)) as H.
  cbv zeta in H.
  destruct H as (_ & _ & _ & _ & _ & _ & H);
    try (unfold is_uint32; lia).
  - repeat constructor; cbv; intuition discriminate.
  - cbn. lia.
  - exact H.
Defined.

(** ** Requests with a byte-counted payload *)

(** The bytes each of the three encoders sends. *)
Lemma open_font_message (host : byte_order) (conn : x11_connection_t)
    (fid : Z) (name : list Z) (L : Z) (w : world) :
  sent (x11_open_font host conn fid name L) w
  = (to_uint8 X11_OPEN_FONT :: to_uint8 0
       :: store host 2 (to_uint16 (to_size_t (12 + align4 L) / 4))
          ++ store host 4 fid ++ store host 2 (to_uint16 L) ++ [0; 0])
    ++ firstn (Z.to_nat (align4 L)) name.
Proof.
  unfold x11_open_font. rewrite sent_two_writes.
  unfold image_open_font_request, sizeof_x11_open_font_request_t.
  cbn [of_major_opcode of_pad0 of_length of_fid of_name_len of_pad1].
  image_is_whole. reflexivity.
Qed.

Lemma change_property_message (host : byte_order) (conn : x11_connection_t)
    (mode window property type_ format : Z) (data : list Z) (L : Z)
    (w : world) :
  sent (x11_change_property host conn mode window property type_ format
          data L) w
  = (to_uint8 X11_CHANGE_PROPERTY :: to_uint8 mode
       :: store host 2 (to_uint16 (to_size_t (24 + align4 L) / 4))
          ++ store host 4 window ++ store host 4 property
          ++ store host 4 type_ ++ to_uint8 format :: 0 :: 0 :: 0
          :: store host 4 (to_uint32 L))
    ++ firstn (Z.to_nat (align4 L)) data.
Proof.
  unfold x11_change_property. rewrite sent_two_writes.
  unfold image_change_property_request,
    sizeof_x11_change_property_request_t.
  cbn [cp_major_opcode cp_mode cp_length cp_window cp_property cp_type
       cp_format cp_pad0 cp_data_len].
  image_is_whole. reflexivity.
Qed.

Lemma image_text_8_message (host : byte_order) (conn : x11_connection_t)
    (drawable gc x y : Z) (string : list Z) (L : Z) (w : world) :
  sent (x11_image_text_8 host conn drawable gc x y string L) w
  = (to_uint8 X11_IMAGE_TEXT_8 :: to_uint8 (to_uint8 L)
       :: store host 2 (to_uint16 (to_size_t (16 + align4 L) / 4))
          ++ store host 4 drawable ++ store host 4 gc
          ++ store host 2 x ++ store host 2 y)
    ++ firstn (Z.to_nat (align4 L)) string.
Proof.
  unfold x11_image_text_8. rewrite sent_two_writes.
  unfold image_image_text_8_request, sizeof_x11_image_text_8_request_t.
  cbn [it_major_opcode it_string_len it_length it_drawable it_gc it_x it_y].
  image_is_whole. reflexivity.
Qed.

Lemma padded_message_framed (host : byte_order) (hdr L a b : Z)
    (rest payload : list Z) :
  0 <= L -> 0 <= hdr -> hdr mod 4 = 0 -> hdr + L + 3 < 2 ^ 64 ->
  pad4 L <= Z.of_nat (length payload) ->
  length (a :: b :: store host 2 0 ++ rest) = Z.to_nat hdr ->
  let msg :=
    (a :: b
       :: store host 2 (to_uint16 (to_size_t (hdr + align4 L) / 4)) ++ rest)
    ++ firstn (Z.to_nat (align4 L)) payload in
  Z.of_nat (length msg) = hdr + pad4 L
  /\ Z.of_nat (length msg) mod 4 = 0
  /\ (hdr + pad4 L < 2 ^ 18 ->
      4 * length_field host msg = Z.of_nat (length msg)).
Proof.
  intros HL Hh Hh4 Hs Hp Hlen msg.
  destruct (@padded_encoder host hdr L a b rest payload HL Hh Hs Hlen)
    as (_ & Hfield & _).
  fold msg in Hfield. pose proof (pad4_spec L) as Hpad.
  assert (Hm : Z.of_nat (length msg) = hdr + pad4 L).
  { unfold msg. rewrite length_app, length_firstn, align4_pad4 by lia.
    cbn [length] in Hlen |- *. rewrite !length_app, !length_store in *.
    lia. }
  split; [exact Hm|]. split; [rewrite Hm; lia|].
  intros Hsmall. rewrite (Hfield Hsmall), Hm. lia.
Qed.

(** X3: whenever the bytes up to the next 4-byte boundary can be read
    behind the payload, open-font, change-property and draw-text send a
    whole number of 4-byte units, header size + ((L+3) & ~3) bytes, and
    the length field counts exactly these units as long as the request is
    shorter than 2^18 bytes. *)
Theorem padded_requests_framed (host : byte_order)
    (conn : x11_connection_t) (fid mode window property type_ format : Z)
    (drawable gc x y : Z) (payload : list Z) (L : Z) (w : world) :
  0 <= L -> L + 32 < 2 ^ 64 -> pad4 L <= Z.of_nat (length payload) ->
  let font := sent (x11_open_font host conn fid payload L) w in
  let prop := sent (x11_change_property host conn mode window property
                      type_ format payload L) w in
  let text := sent (x11_image_text_8 host conn drawable gc x y payload L)
                w in
  (Z.of_nat (length font) = 12 + pad4 L
   /\ Z.of_nat (length font) mod 4 = 0
   /\ (12 + pad4 L < 2 ^ 18 ->
       4 * length_field host font = Z.of_nat (length font)))
  /\ (Z.of_nat (length prop) = 24 + pad4 L
      /\ Z.of_nat (length prop) mod 4 = 0
      /\ (24 + pad4 L < 2 ^ 18 ->
          4 * length_field host prop = Z.of_nat (length prop)))
  /\ (Z.of_nat (length text) = 16 + pad4 L
      /\ Z.of_nat (length text) mod 4 = 0
      /\ (16 + pad4 L < 2 ^ 18 ->
          4 * length_field host text = Z.of_nat (length text))).
Proof.
  intros HL Hs Hp font prop text. subst font prop text.
  rewrite open_font_message, change_property_message, image_text_8_message.
  split; [|split]; apply padded_message_framed; try lia; image_length.
Qed.

Lemma padded_requests_framed_witness :
  length_field BigEndian
    (sent (x11_change_property BigEndian fresh_connection 0 4194306 39 31 8
             [72; 101; 108; 108; 111; 32; 88; 49; 49; 33; 0; 77] 10)
          (World [] [] false))
  = 9.
Proof.
  pose proof (@padded_requests_framed BigEndian fresh_connection 0 0 4194306
                39 31 8 0 0 0 0
                [72; 101; 108; 108; 111; 32; 88; 49; 49; 33; 0; 77] 10
                (World [] [] false)) as H.
  cbv zeta in H.
  destruct H as (_ & (H1 & _ & H2) & _); try lia.
  - vm_compute. discriminate.
  - assert (H3 : 24 + pad4 10 < 2 ^ 18) by (vm_compute; reflexivity).
    specialize (H2 H3). rewrite H1 in H2.
    change (24 + pad4 10) with 36 in H2. lia.
Defined.

Ltac skip_to_field :=
  unfold bytes_at;
  repeat (rewrite skipn_cons
          || (rewrite skipn_store by lia; cbn [Nat.sub]));
  rewrite ?skipn_O.

Lemma firstn_of_padded (L : Z) (payload : list Z) :
  0 <= L -> L + 3 < 2 ^ 64 ->
  firstn (Z.to_nat L) (firstn (Z.to_nat (align4 L)) payload)
  = firstn (Z.to_nat L) payload.
Proof.
  intros H0 H1. rewrite align4_pad4 by lia. pose proof (pad4_spec L).
  rewrite firstn_firstn. f_equal. lia.
Qed.

(** X4: re-parsing an open-font request returns the font identifier and
    the length of the name reduced modulo 2^16; for a name shorter than
    2^16 bytes it returns the name itself. *)
Theorem open_font_round_trip (host : byte_order) (conn : x11_connection_t)
    (fid : Z) (name : list Z) (L : Z) (w : world) :
  is_uint32 fid -> 0 <= L -> L + 32 < 2 ^ 64 ->
  let decoded :=
    decode_open_font host (sent (x11_open_font host conn fid name L) w) in
  of_major_opcode (fst decoded) = X11_OPEN_FONT
  /\ of_pad0 (fst decoded) = 0
  /\ of_fid (fst decoded) = fid
  /\ of_name_len (fst decoded) = L mod 2 ^ 16
  /\ of_pad1 (fst decoded) = [0; 0]
  /\ (L < 2 ^ 16 -> snd decoded = firstn (Z.to_nat L) name).
Proof.
  intros Hf HL Hs decoded. subst decoded. rewrite open_font_message.
  unfold decode_open_font. cbn [fst snd app]. repeat rewrite <- app_assoc.
  cbn [of_major_opcode of_pad0 of_fid of_name_len of_pad1 app].
  unfold is_uint32 in Hf.
  assert (Hlen : load_u16 host
            (bytes_at 8 2
               (to_uint8 X11_OPEN_FONT :: to_uint8 0
                  :: store host 2 (to_uint16 (to_size_t (12 + align4 L) / 4))
                     ++ store host 4 fid ++ store host 2 (to_uint16 L)
                     ++ 0 :: 0 :: firstn (Z.to_nat (align4 L)) name))
          = L mod 2 ^ 16).
  { skip_to_field. rewrite load_u16_here. unfold to_uint16.
    apply Z.mod_mod. lia. }
  split; [reflexivity|]. split; [reflexivity|]. split; [|split; [|split]].
  - skip_to_field. rewrite load_u32_here. apply Z.mod_small. lia.
  - exact Hlen.
  - skip_to_field. reflexivity.
  - intros Hsmall. rewrite Hlen, Z.mod_small by lia.
    skip_to_field. apply firstn_of_padded; lia.
Qed.

Lemma open_font_round_trip_witness :
  snd (decode_open_font LittleEndian
         (sent (x11_open_font LittleEndian fresh_connection 4194304
                  [102; 105; 120; 101; 100; 0; 72; 101] 5)
               (World [] [] false)))
  = [102; 105; 120; 101; 100].
Proof.
  pose proof (@open_font_round_trip LittleEndian fresh_connection 4194304
                [102; 105; 120; 101; 100; 0; 72; 101] 5
                (World [] [] false)) as H.
  cbv zeta in H.
  destruct H as (_ & _ & _ & _ & _ & H); try (unfold is_uint32; lia).
  apply H. lia.
Defined.

(** X5: re-parsing a change-property request returns mode, window,
    property, type and format, the data length reduced modulo 2^32, and,
    for data shorter than 2^32 bytes, the data. *)
Theorem change_property_round_trip (host : byte_order)
    (conn : x11_connection_t) (mode window property type_ format : Z)
    (data : list Z) (L : Z) (w : world) :
  is_byte mode -> is_uint32 window -> is_uint32 property ->
  is_uint32 type_ -> is_byte format -> 0 <= L -> L + 32 < 2 ^ 64 ->
  let decoded :=
    decode_change_property host
      (sent (x11_change_property host conn mode window property type_
               format data L) w) in
  cp_major_opcode (fst decoded) = X11_CHANGE_PROPERTY
  /\ cp_mode (fst decoded) = mode
  /\ cp_window (fst decoded) = window
  /\ cp_property (fst decoded) = property
  /\ cp_type (fst decoded) = type_
  /\ cp_format (fst decoded) = format
  /\ cp_pad0 (fst decoded) = [0; 0; 0]
  /\ cp_data_len (fst decoded) = L mod 2 ^ 32
  /\ (L < 2 ^ 32 -> snd decoded = firstn (Z.to_nat L) data).
Proof.
  intros Hm Hw Hp Ht Hf HL Hs decoded. subst decoded.
  rewrite change_property_message.
  unfold decode_change_property. cbn [fst snd app].
  repeat rewrite <- app_assoc.
  cbn [cp_major_opcode cp_mode cp_window cp_property cp_type cp_format
       cp_pad0 cp_data_len app].
  unfold is_uint32 in *.
  assert (Hlen : load_u32 host
            (bytes_at 20 4
               (to_uint8 X11_CHANGE_PROPERTY :: to_uint8 mode
                  :: store host 2 (to_uint16 (to_size_t (24 + align4 L) / 4))
                     ++ store host 4 window ++ store host 4 property
                     ++ store host 4 type_ ++ to_uint8 format :: 0 :: 0 :: 0
                     :: store host 4 (to_uint32 L)
                        ++ firstn (Z.to_nat (align4 L)) data))
          = L mod 2 ^ 32).
  { skip_to_field. rewrite load_u32_here. unfold to_uint32.
    apply Z.mod_mod. lia. }
  split; [reflexivity|].
  split; [skip_to_field; apply load_u8_byte; exact Hm|].
  split; [|split; [|split; [|split; [|split; [|split]]]]].
  - skip_to_field. rewrite load_u32_here. apply Z.mod_small. lia.
  - skip_to_field. rewrite load_u32_here. apply Z.mod_small. lia.
  - skip_to_field. rewrite load_u32_here. apply Z.mod_small. lia.
  - skip_to_field. apply load_u8_byte. exact Hf.
  - skip_to_field. reflexivity.
  - exact Hlen.
  - intros Hsmall. rewrite Hlen, Z.mod_small by lia.
    skip_to_field. apply firstn_of_padded; lia.
Qed.

Lemma change_property_round_trip_witness :
  snd (decode_change_property BigEndian
         (sent (x11_change_property BigEndian fresh_connection 0 4194306
                  39 31 8
                  [72; 101; 108; 108; 111; 32; 88; 49; 49; 33; 0; 77] 10)
               (World [] [] false)))
  = [72; 101; 108; 108; 111; 32; 88; 49; 49; 33].
Proof.
  pose proof (@change_property_round_trip BigEndian fresh_connection 0
                4194306 39 31 8
                [72; 101; 108; 108; 111; 32; 88; 49; 49; 33; 0; 77] 10
                (World [] [] false)) as H.
  cbv zeta in H.
  destruct H as (_ & _ & _ & _ & _ & _ & _ & _ & H);
    try (unfold is_byte, is_uint32; lia).
  apply H. lia.
Defined.

(** X6: re-parsing a draw-text request returns the drawable, the graphics
    context and the signed position, and, for a string shorter than 256
    bytes, the string. *)
Theorem image_text_8_round_trip (host : byte_order)
    (conn : x11_connection_t) (drawable gc x y : Z) (string : list Z)
    (L : Z) (w : world) :
  is_uint32 drawable -> is_uint32 gc -> is_int16 x -> is_int16 y ->
  0 <= L -> L + 32 < 2 ^ 64 ->
  let decoded :=
    decode_image_text_8 host
      (sent (x11_image_text_8 host conn drawable gc x y string L) w) in
  it_major_opcode (fst decoded) = X11_IMAGE_TEXT_8
  /\ it_drawable (fst decoded) = drawable
  /\ it_gc (fst decoded) = gc
  /\ it_x (fst decoded) = x
  /\ it_y (fst decoded) = y
  /\ (L < 256 -> snd decoded = firstn (Z.to_nat L) string).
Proof.
  intros Hd Hg Hx Hy HL Hs decoded. subst decoded.
  rewrite image_text_8_message.
  unfold decode_image_text_8. cbn [fst snd app].
  repeat rewrite <- app_assoc.
  cbn [it_major_opcode it_string_len it_drawable it_gc it_x it_y app].
  unfold is_uint32 in *.
  split; [reflexivity|]. split; [|split; [|split; [|split]]].
  - skip_to_field. rewrite load_u32_here. apply Z.mod_small. lia.
  - skip_to_field. rewrite load_u32_here. apply Z.mod_small. lia.
  - skip_to_field. rewrite load_u16_here. now apply to_int16_of_int16.
  - skip_to_field. rewrite load_u16_here. now apply to_int16_of_int16.
  - intros Hsmall.
    replace (load_u8 (bytes_at 1 1 _)) with L.
    + skip_to_field. apply firstn_of_padded; lia.
    + unfold bytes_at, load_u8, to_uint8. cbn [skipn firstn hd].
      rewrite !Z.mod_mod by lia. symmetry. apply Z.mod_small. lia.
Qed.

Lemma image_text_8_round_trip_witness :
  snd (decode_image_text_8 LittleEndian
         (sent (x11_image_text_8 LittleEndian fresh_connection 4194306
                  4194305 16 (-16) [72; 105; 33; 0; 7] 3)
               (World [] [] false)))
  = [72; 105; 33].
Proof.
  pose proof (@image_text_8_round_trip LittleEndian fresh_connection
                4194306 4194305 16 (-16) [72; 105; 33; 0; 7] 3
                (World [] [] false)) as H.
  cbv zeta in H.
  destruct H as (_ & _ & _ & _ & _ & H);
    try (unfold is_uint32, is_int16; lia).
  apply H. lia.
Defined.

(** ** Requests with a value list *)

Lemma whole_value_list (host : byte_order) (value_list : list Z) :
  firstn (Z.to_nat (4 * Z.of_nat (length value_list)))
         (words_image host value_list)
  = words_image host value_list.
Proof. apply firstn_all2. rewrite length_words_image. lia. Qed.

Ltac value_list_at_end k :=
  repeat (progress cbn [length] || rewrite length_app
          || rewrite length_store || rewrite length_words_image);
  match goal with
  | |- context [Nat.div ?n 4] =>
      replace (Nat.div n 4) with k by (apply Nat.div_unique_exact; lia)
  end;
  skip_to_field.

(** X7: re-parsing a create-graphics-context request returns the context
    identifier, the drawable, the value mask and the value list. *)
Theorem create_gc_round_trip (host : byte_order) (conn : x11_connection_t)
    (cid drawable value_mask : Z) (value_list : list Z) (w : world) :
  is_uint32 cid -> is_uint32 drawable -> is_uint32 value_mask ->
  Forall is_uint32 value_list ->
  let decoded :=
    decode_create_gc host
      (sent (x11_create_gc host conn cid drawable value_mask value_list
               (4 * Z.of_nat (length value_list))) w) in
  gc_major_opcode (fst decoded) = X11_CREATE_GC
  /\ gc_pad0 (fst decoded) = 0
  /\ gc_cid (fst decoded) = cid
  /\ gc_drawable (fst decoded) = drawable
  /\ gc_value_mask (fst decoded) = value_mask
  /\ snd decoded = value_list.
Proof.
  intros Hc Hd Hm Hl decoded. subst decoded.
  unfold x11_create_gc. rewrite sent_two_writes.
  unfold image_create_gc_request, sizeof_x11_create_gc_request_t.
  cbn [gc_major_opcode gc_pad0 gc_length gc_cid gc_drawable gc_value_mask].
  image_is_whole. rewrite whole_value_list.
  unfold decode_create_gc. cbn [fst snd app]. repeat rewrite <- app_assoc.
  cbn [gc_major_opcode gc_pad0 gc_cid gc_drawable gc_value_mask].
  unfold is_uint32 in Hc, Hd, Hm.
  split; [reflexivity|]. split; [reflexivity|]. split; [|split; [|split]].
  - skip_to_field. rewrite load_u32_here. apply Z.mod_small. lia.
  - skip_to_field. rewrite load_u32_here. apply Z.mod_small. lia.
  - skip_to_field. rewrite load_u32_here. apply Z.mod_small. lia.
  - value_list_at_end (length value_list).
    rewrite <- (app_nil_r (words_image host value_list)).
    now apply decode_words_image.
Qed.

Lemma create_gc_round_trip_witness :
  snd (decode_create_gc BigEndian
         (sent (x11_create_gc BigEndian fresh_connection 4194305 1 16396
                  [0; 16777215; 4194304] 12)
               (World [] [] false)))
  = [0; 16777215; 4194304].
Proof.
  pose proof (@create_gc_round_trip BigEndian fresh_connection 4194305 1
                16396 [0; 16777215; 4194304] (World [] [] false)) as H.
  cbv zeta in H.
  destruct H as (_ & _ & _ & _ & _ & H); try (unfold is_uint32; lia).
  - repeat constructor; unfold is_uint32; lia.
  - exact H.
Defined.

(** X8: re-parsing a configure-window request returns the window and the
    value list, but only the low 16 bits of the value mask: the structure
    holds the 32-bit argument in a 16-bit member. *)
Theorem configure_window_round_trip (host : byte_order)
    (conn : x11_connection_t) (window value_mask : Z)
    (value_list : list Z) (w : world) :
  is_uint32 window -> is_uint32 value_mask ->
  Forall is_uint32 value_list ->
  let decoded :=
    decode_configure_window host
      (sent (x11_configure_window host conn window value_mask value_list
               (4 * Z.of_nat (length value_list))) w) in
  cf_major_opcode (fst decoded) = X11_CONFIGURE_WINDOW
  /\ cf_pad0 (fst decoded) = 0
  /\ cf_window (fst decoded) = window
  /\ cf_value_mask (fst decoded) = value_mask mod 2 ^ 16
  /\ (value_mask < 2 ^ 16 -> cf_value_mask (fst decoded) = value_mask)
  /\ cf_pad1 (fst decoded) = [0; 0]
  /\ snd decoded = value_list.
Proof.
  intros Hw Hm Hl decoded. subst decoded.
  unfold x11_configure_window. rewrite sent_two_writes.
  unfold image_configure_window_request,
    sizeof_x11_configure_window_request_t.
  cbn [cf_major_opcode cf_pad0 cf_length cf_window cf_value_mask cf_pad1].
  image_is_whole. rewrite whole_value_list.
  unfold decode_configure_window. cbn [fst snd app firstn].
  repeat rewrite <- app_assoc.
  cbn [cf_major_opcode cf_pad0 cf_window cf_value_mask cf_pad1 app].
  unfold is_uint32 in Hw, Hm.
  assert (Hmask : load_u16 host
            (bytes_at 8 2
               (to_uint8 X11_CONFIGURE_WINDOW :: to_uint8 0
                  :: store host 2
                       (to_uint16
                          (to_size_t
                             (12 + 4 * Z.of_nat (length value_list)) / 4))
                     ++ store host 4 window
                     ++ store host 2 (to_uint16 value_mask)
                     ++ 0 :: 0 :: words_image host value_list))
          = value_mask mod 2 ^ 16).
  { skip_to_field. rewrite load_u16_here. unfold to_uint16.
    apply Z.mod_mod. lia. }
  split; [reflexivity|]. split; [reflexivity|].
  split; [|split; [|split; [|split]]].
  - skip_to_field. rewrite load_u32_here. apply Z.mod_small. lia.
  - exact Hmask.
  - intros Hsmall. rewrite Hmask. apply Z.mod_small. lia.
  - skip_to_field. reflexivity.
  - value_list_at_end (length value_list).
    rewrite <- (app_nil_r (words_image host value_list)).
    now apply decode_words_image.
Qed.

Lemma configure_window_round_trip_witness :
  cf_value_mask
    (fst (decode_configure_window LittleEndian
            (sent (x11_configure_window LittleEndian fresh_connection
                     4194306 65548 [640; 480] 8)
                  (World [] [] false))))
  = 12.
Proof.
  pose proof (@configure_window_round_trip LittleEndian fresh_connection
                4194306 65548 [640; 480] (World [] [] false)) as H.
  cbv zeta in H.
  destruct H as (_ & _ & _ & H & _); try (unfold is_uint32; lia).
  - repeat constructor; unfold is_uint32; lia.
  - exact H.
Defined.

(** ** The allocator over many calls *)

Lemma kth_generated_id_value (conn : x11_connection_t) (k : nat) :
  is_uint32 (id conn) ->
  kth_generated_id k conn = (id conn + Z.of_nat k * id_inc conn) mod 2 ^ 32.
Proof.
  intros Hb. unfold kth_generated_id. cbn [x11_generate_id fst].
  now apply after_calls_fields.
Qed.

(** X9: when the increment is a power of two 2^j, two calls of
    [x11_generate_id] return the same identifier exactly when their ranks
    differ by a multiple of 2^(32-j): the first 2^(32-j) identifiers are
    pairwise distinct, and from then on the allocator hands out the same
    identifiers again without any sign of it. *)
Theorem generate_id_reuse (conn : x11_connection_t) (j : Z) (k1 k2 : nat) :
  is_uint32 (id conn) -> 0 <= j <= 32 -> id_inc conn = 2 ^ j ->
  (kth_generated_id k1 conn = kth_generated_id k2 conn
   <-> (Z.of_nat k2 - Z.of_nat k1) mod 2 ^ (32 - j) = 0).
Proof.
  intros Hb Hj Hinc. rewrite !kth_generated_id_value, Hinc by assumption.
  assert (Hpow : 2 ^ 32 = 2 ^ (32 - j) * 2 ^ j)
    by (rewrite <- Z.pow_add_r by lia; f_equal; lia).
  assert (Hp1 : 0 < 2 ^ j) by (apply Z.pow_pos_nonneg; lia).
  assert (Hp2 : 0 < 2 ^ (32 - j)) by (apply Z.pow_pos_nonneg; lia).
  set (b := id conn). set (a1 := Z.of_nat k1). set (a2 := Z.of_nat k2).
  split.
  - intros E.
    assert (D : ((b + a2 * 2 ^ j) - (b + a1 * 2 ^ j)) mod 2 ^ 32 = 0).
    { rewrite Zminus_mod, E, Z.sub_diag. reflexivity. }
    replace (b + a2 * 2 ^ j - (b + a1 * 2 ^ j)) with ((a2 - a1) * 2 ^ j)
      in D by lia.
    apply Z.mod_divide in D; [|lia]. destruct D as [q Hq].
    rewrite Hpow in Hq.
    assert (Hq' : a2 - a1 = q * 2 ^ (32 - j)).
    { apply Z.mul_reg_r with (2 ^ j); lia. }
    rewrite Hq'. apply Z.mod_mul. lia.
  - intros E. apply Z.mod_divide in E; [|lia]. destruct E as [q Hq].
    replace (b + a2 * 2 ^ j) with (b + a1 * 2 ^ j + q * 2 ^ 32)
      by (rewrite Hpow; nia).
    rewrite Z.mod_add by lia. reflexivity.
Qed.

Lemma generate_id_reuse_witness :
  kth_generated_id 5 (Connection 3 4194304 (2 ^ 30) [])
  = kth_generated_id 1 (Connection 3 4194304 (2 ^ 30) []).
Proof.
  apply (@generate_id_reuse (Connection 3 4194304 (2 ^ 30) []) 30 5 1).
  - cbv. split; [discriminate | reflexivity].
  - lia.
  - reflexivity.
  - reflexivity.
Defined.

(** ** The handshake, step by step *)

(** [x11_connect] is: send the setup request, send the credential, read
    40 bytes over an uninitialised [x11_setup_t], go on from there. *)
Lemma connect_unfold (host : byte_order) (p : process)
    (conn : x11_connection_t) (w : world) :
  let cookie := parse_xauthority host (fopen_rb p (xauth_path p)) in
  x11_connect host p conn w
  = (sys_write (setup_request_for host cookie) sizeof_x11_setup_request_t ;;;
     write_cookie cookie ;;;
     r <- sys_read sizeof_x11_setup_t ;;
     connect_after_reply host p conn
       (store_into (indeterminate p sizeof_x11_setup_t) (snd r))) w.
Proof.
  cbv zeta. unfold x11_connect, connect_after_reply, setup_request_for.
  cbn [fd id id_inc screen]. reflexivity.
Qed.

Lemma connect_after_reply_reads (host : byte_order) (p : process)
    (conn : x11_connection_t) (setup : list Z) :
  reads_only (connect_after_reply host p conn setup).
Proof.
  unfold connect_after_reply.
  destruct (negb _); auto 8 using reads_only_screens with reads.
Qed.

(** Past the status test, [x11_connect] cannot fail any more, and the
    identifier state is the one computed from the reply. *)
Lemma connect_after_reply_result (host : byte_order) (p : process)
    (conn : x11_connection_t) (setup : list Z) (w : world) :
  let res := fst (connect_after_reply host p conn setup w) in
  fst res = (setup_status setup =? 1)
  /\ fd (snd res) = socket_fd p
  /\ (setup_status setup = 1 ->
      id (snd res) = setup_resource_id_base host setup
      /\ id_inc (snd res)
         = Z.land (setup_resource_id_mask host setup)
                  (neg_uint32 (setup_resource_id_mask host setup)))
  /\ (setup_status setup <> 1 ->
      id (snd res) = id conn /\ id_inc (snd res) = id_inc conn
      /\ screen (snd res) = screen conn).
Proof.
  unfold connect_after_reply.
  destruct (Z.eqb_spec (setup_status setup) 1) as [E | E]; cbn [negb].
  - unfold bind.
    destruct (sys_read (Z.to_nat (setup_vendor_len host setup)) w)
      as [r1 w1].
    destruct (sys_read _ w1) as [r2 w2].
    match goal with
    | |- context [read_screens host p ?n 0 ?c ?u w2] =>
        pose proof (read_screens_ids host p n 0 c u w2) as Hids;
        destruct (read_screens host p n 0 c u w2) as [c' w3]
    end.
    cbv zeta in Hids. unfold ret. cbn [fst snd id id_inc fd] in Hids |- *.
    destruct Hids as (Hfd & Hid & Hinc).
    repeat split; try assumption; contradiction.
  - cbn. repeat split; try reflexivity; contradiction.
Qed.

Lemma connect_success_ids (host : byte_order) (p : process)
    (conn : x11_connection_t) (w : world) (reply rest : list Z) :
  rx_fail w = false -> rx w = reply ++ rest -> length reply = 40%nat ->
  setup_status reply = 1 ->
  let res := fst (x11_connect host p conn w) in
  fst res = true
  /\ fd (snd res) = socket_fd p
  /\ id (snd res) = setup_resource_id_base host reply
  /\ id_inc (snd res)
     = Z.land (setup_resource_id_mask host reply)
              (neg_uint32 (setup_resource_id_mask host reply)).
Proof.
  intros Hf Hr Hl Hs res. subst res.
  destruct (@connect_run host p conn w reply rest Hf Hr Hl) as (out & _ & E).
  rewrite E. apply Z.eqb_eq in Hs. rewrite Hs. cbn [negb]. unfold bind.
  destruct (sys_read (Z.to_nat (setup_vendor_len host reply)) _) as [r1 w1].
  destruct (sys_read _ w1) as [r2 w2].
  match goal with
  | |- context [read_screens host p ?n 0 ?c ?u w2] =>
      pose proof (read_screens_ids host p n 0 c u w2) as Hids;
      destruct (read_screens host p n 0 c u w2) as [c' w3]
  end.
  cbv zeta in Hids. unfold ret. cbn [fst snd id id_inc fd] in Hids |- *.
  destruct Hids as (Hfd & Hid & Hinc). auto.
Qed.

Lemma setup_field_uint32 (host : byte_order) (bs : list Z) :
  is_uint32 (load_u32 host bs).
Proof.
  unfold load_u32, to_uint32, is_uint32. apply Z.mod_pos_bound. lia.
Qed.

(** X10: after a successful handshake the increment is 0 when the
    server's resource-id mask is 0, and then every call of
    [x11_generate_id] returns the base; otherwise it is 2^j for the
    position j < 32 of the lowest set bit of the mask. *)
Theorem connect_increment_shape (host : byte_order) (p : process)
    (conn : x11_connection_t) (w : world) (reply rest : list Z) :
  rx_fail w = false -> rx w = reply ++ rest -> length reply = 40%nat ->
  setup_status reply = 1 ->
  let m := setup_resource_id_mask host reply in
  let conn' := snd (fst (x11_connect host p conn w)) in
  (m = 0 ->
   id_inc conn' = 0
   /\ forall k, kth_generated_id k conn' = setup_resource_id_base host reply)
  /\ (m <> 0 ->
      exists j, 0 <= j < 32 /\ id_inc conn' = 2 ^ j
                /\ Z.testbit m j = true
                /\ forall i, 0 <= i < j -> Z.testbit m i = false).
Proof.
  intros Hf Hr Hl Hs m conn'.
  destruct (@connect_success_ids host p conn w reply rest Hf Hr Hl Hs)
    as (_ & _ & Hid & Hinc).
  fold conn' in Hid, Hinc. fold m in Hinc.
  pose proof (setup_field_uint32 host (bytes_at 16 4 reply)) as Hm.
  pose proof (setup_field_uint32 host (bytes_at 12 4 reply)) as Hbase.
  fold (setup_resource_id_mask host reply) in Hm. fold m in Hm.
  fold (setup_resource_id_base host reply) in Hbase.
  rewrite (id_inc_lowest_set_bit Hm) in Hinc.
  split.
  - intros Hz. rewrite Hz in Hinc. cbn in Hinc. split; [exact Hinc|].
    intros k. rewrite kth_generated_id_value by (rewrite Hid; exact Hbase).
    rewrite Hid, Hinc, Z.mul_0_r, Z.add_0_r.
    apply Z.mod_small. exact Hbase.
  - intros Hnz. unfold is_uint32 in Hm.
    destruct (@lowest_set_bit_spec m) as (j & Hj & Hv & Hb & Hlow); [lia|].
    exists j. split.
    { split; [exact Hj|].
      destruct (Z.lt_ge_cases j 32) as [H | H]; [exact H|].
      rewrite (testbit_above Hm H) in Hb. discriminate. }
    split; [congruence|]. split; [exact Hb | exact Hlow].
Qed.

Lemma connect_increment_shape_witness :
  kth_generated_id 5
    (snd (fst (x11_connect LittleEndian mock_process fresh_connection
                 (World (firstn 16 mock_setup_success ++ [0; 0; 0; 0]
                         ++ skipn 20 mock_setup_success) [] false))))
  = 4194304.
Proof.
  destruct (@connect_increment_shape LittleEndian mock_process
              fresh_connection
              (World (firstn 16 mock_setup_success ++ [0; 0; 0; 0]
                      ++ skipn 20 mock_setup_success) [] false)
              (firstn 16 mock_setup_success ++ [0; 0; 0; 0]
               ++ skipn 20 mock_setup_success) []
              eq_refl eq_refl eq_refl eq_refl) as [H _].
  destruct (H eq_refl) as [_ Hk]. exact (Hk 5%nat).
Defined.

(** X11: when the first [read] of the handshake fails, or the server has
    already closed the stream, nothing is stored and nothing is checked:
    [x11_connect] answers from the bytes the uninitialised setup
    structure happens to hold, success included. *)
Theorem connect_without_reply (host : byte_order) (p : process)
    (conn : x11_connection_t) (w : world) :
  rx_fail w = true \/ rx w = [] ->
  let garbage := indeterminate p sizeof_x11_setup_t in
  let res := fst (x11_connect host p conn w) in
  fst res = (setup_status garbage =? 1)
  /\ (setup_status garbage = 1 ->
      id (snd res) = setup_resource_id_base host garbage
      /\ id_inc (snd res)
         = Z.land (setup_resource_id_mask host garbage)
                  (neg_uint32 (setup_resource_id_mask host garbage))).
Proof.
  intros Hw garbage res. subst res.
  assert (E : exists w3,
             x11_connect host p conn w
             = connect_after_reply host p conn garbage w3).
  { rewrite connect_unfold.
    set (cookie := parse_xauthority host (fopen_rb p (xauth_path p))).
    unfold bind. cbn [sys_write].
    match goal with
    | |- context [write_cookie cookie ?w1] =>
        destruct (write_cookie_rx cookie w1) as (Hrx & Hfail & _);
        destruct (write_cookie cookie w1) as [u w2]
    end.
    cbn [snd rx rx_fail] in Hrx, Hfail.
    assert (Hread : snd (fst (sys_read sizeof_x11_setup_t w2)) = []).
    { unfold sys_read. rewrite Hfail, Hrx.
      destruct Hw as [-> | ->]; [reflexivity|].
      destruct (rx_fail w); reflexivity. }
    destruct (sys_read sizeof_x11_setup_t w2) as [r w3].
    cbn [fst snd] in Hread. rewrite Hread. unfold store_into.
    cbn [length skipn app]. exists w3. reflexivity. }
  destruct E as [w3 ->].
  destruct (connect_after_reply_result host p conn garbage w3)
    as (H1 & _ & H2 & _).
  split; assumption.
Qed.

Lemma connect_without_reply_witness :
  fst (fst (x11_connect LittleEndian
              (Process (fun _ => None) (fun _ => None) 3
                       (fun n => repeat 1 n))
              fresh_connection (World [] [] false)))
  = true.
Proof.
  destruct (@connect_without_reply LittleEndian
              (Process (fun _ => None) (fun _ => None) 3
                       (fun n => repeat 1 n))
              fresh_connection (World [] [] false)) as [H _].
  - right. reflexivity.
  - exact H.
Defined.

Lemma pad_write (n : Z) (rest : list Z) :
  firstn (Z.to_nat (4 - n mod 4)) [0; 0; 0; 0] = padding_to_4 n
  \/ n mod 4 = 0.
Proof.
  unfold padding_to_4.
  assert (H : n mod 4 = 0 \/ n mod 4 = 1 \/ n mod 4 = 2 \/ n mod 4 = 3)
    by lia.
  destruct H as [H | [H | [H | H]]]; rewrite H; [right|left..]; reflexivity.
Qed.

Lemma write_cookie_sent (c : x11_cookie_t) (w : world) :
  name_len c = Z.of_nat (length (name c)) ->
  data_len c = Z.of_nat (length (data c)) ->
  write_cookie (Some c) w
  = (tt, World (rx w)
               (tx w ++ name c ++ padding_to_4 (name_len c)
                ++ data c ++ padding_to_4 (data_len c))
               (rx_fail w)).
Proof.
  intros Hn Hd.
  assert (Hname : firstn (Z.to_nat (name_len c)) (name c) = name c)
    by (rewrite Hn, Nat2Z.id; apply firstn_all).
  assert (Hdata : firstn (Z.to_nat (data_len c)) (data c) = data c)
    by (rewrite Hd, Nat2Z.id; apply firstn_all).
  assert (Hpad : forall n,
            (if negb (n mod 4 =? 0)
             then firstn (Z.to_nat (4 - n mod 4)) [0; 0; 0; 0] else [])
            = padding_to_4 n).
  { intros n. destruct (Z.eqb_spec (n mod 4) 0) as [E | E]; cbn [negb].
    - unfold padding_to_4. rewrite E. reflexivity.
    - destruct (pad_write n []) as [H | H]; [exact H | contradiction]. }
  rewrite <- (Hpad (name_len c)), <- (Hpad (data_len c)).
  cbn [write_cookie]. unfold bind, sys_write, ret.
  destruct (negb (name_len c mod 4 =? 0)), (negb (data_len c mod 4 =? 0));
    cbn [rx tx rx_fail]; rewrite Hname, Hdata;
    repeat rewrite <- app_assoc; rewrite ?app_nil_r; reflexivity.
Qed.

Lemma length_padding_to_4 (n : Z) :
  0 <= n -> (n + Z.of_nat (length (padding_to_4 n))) mod 4 = 0.
Proof.
  intros H. unfold padding_to_4. rewrite repeat_length, Z2Nat.id by lia. lia.
Qed.

(** X12: when the store holds the cookie, [x11_connect] sends the setup
    request with the lengths 18 and that of the token, then the family
    name followed by two zero bytes, then the token followed by the zero
    bytes that bring it to a multiple of 4; nothing else is sent, so the
    handshake writes a whole number of 4-byte units. *)
Theorem connect_sends_credential (host : byte_order) (p : process)
    (conn : x11_connection_t) (w : world) (pre : list xauth_entry)
    (e : xauth_entry) (rest : list Z) :
  Forall well_formed_entry pre ->
  Forall (fun x => e_name x <> MIT_MAGIC_COOKIE_1) pre ->
  well_formed_entry e -> e_name e = MIT_MAGIC_COOKIE_1 ->
  fopen_rb p (xauth_path p)
  = Some (flat_map encode_entry pre ++ encode_entry e ++ rest) ->
  let out := sent (x11_connect host p conn) w in
  let token_len := Z.of_nat (length (e_data e)) in
  out = setup_request_for host (Some (cookie_of_entry e))
        ++ MIT_MAGIC_COOKIE_1 ++ [0; 0]
        ++ e_data e ++ padding_to_4 token_len
  /\ load_u16 host (bytes_at 6 2 out) = 18
  /\ load_u16 host (bytes_at 8 2 out) = token_len
  /\ Z.of_nat (length out) mod 4 = 0.
Proof.
  intros Hwf Hother He Hname Hopen out token_len.
  assert (Hparse : parse_xauthority host (fopen_rb p (xauth_path p))
                   = Some (cookie_of_entry e)).
  { rewrite Hopen. cbn [parse_xauthority].
    now apply xauth_loop_first_match with (pre := pre) (rest := rest). }
  assert (Hout : out = setup_request_for host (Some (cookie_of_entry e))
                       ++ MIT_MAGIC_COOKIE_1 ++ [0; 0]
                       ++ e_data e ++ padding_to_4 token_len).
  { unfold out, sent. rewrite connect_unfold. cbv zeta. rewrite Hparse.
    unfold bind at 1. cbn [sys_write]. unfold bind at 1.
    rewrite write_cookie_sent by reflexivity.
    match goal with
    | |- context [bind ?m ?k ?w1] =>
        assert (Hro : reads_only (bind m k))
          by (apply reads_only_bind;
              [apply reads_only_sys_read
              | intros r; apply connect_after_reply_reads]);
        destruct (Hro w1) as [-> _]
    end.
    cbn [tx]. rewrite <- app_assoc, skipn_exact.
    rewrite firstn_all2
      by (unfold setup_request_for, image_setup_request; image_length).
    unfold cookie_of_entry. cbn [name name_len data data_len].
    rewrite Hname. reflexivity. }
  split; [exact Hout|]. rewrite Hout.
  destruct He as (_ & _ & _ & _ & Ht). unfold is_uint16 in Ht.
  unfold setup_request_for, image_setup_request, cookie_of_entry.
  cbn [byte_order_ sr_pad0 protocol_major_version protocol_minor_version
       authorization_protocol_name_len authorization_protocol_data_len
       sr_pad1 name_len data_len app firstn].
  rewrite Hname. repeat rewrite <- app_assoc. cbn [app].
  split; [|split].
  - skip_to_field. rewrite load_u16_here. reflexivity.
  - skip_to_field. rewrite load_u16_here. apply Z.mod_small. exact Ht.
  - cbn [length]. rewrite !length_app, !length_store. cbn [length].
    rewrite !length_app. change (length MIT_MAGIC_COOKIE_1) with 18%nat.
    pose proof (@length_padding_to_4 token_len (Nat2Z.is_nonneg _)) as Hp.
    unfold token_len in *. cbn [length]. rewrite length_app. lia.
Qed.

Lemma connect_sends_credential_witness :
  sent (x11_connect LittleEndian
          (Process (fun _ => None)
                   (fun _ => Some (flat_map encode_entry [sample_other_entry]
                                   ++ encode_entry sample_cookie_entry
                                   ++ [0; 1]))
                   3 (fun n => repeat 170 n))
          fresh_connection)
       (World mock_setup_success [] false)
  = [108; 0; 11; 0; 0; 0; 18; 0; 4; 0; 0; 0]
    ++ MIT_MAGIC_COOKIE_1 ++ [0; 0] ++ [1; 2; 3; 4].
Proof.
  pose proof (@connect_sends_credential LittleEndian
                (Process (fun _ => None)
                   (fun _ => Some (flat_map encode_entry [sample_other_entry]
                                   ++ encode_entry sample_cookie_entry
                                   ++ [0; 1]))
                   3 (fun n => repeat 170 n))
                fresh_connection (World mock_setup_success [] false)
                [sample_other_entry] sample_cookie_entry [0; 1]) as H.
  cbv zeta in H. destruct H as (H & _).
  - repeat constructor; cbv; intuition discriminate.
  - repeat constructor. cbv. discriminate.
  - repeat split; cbv; intuition discriminate.
  - reflexivity.
  - reflexivity.
  - exact H.
Defined.

(** ** Draining the setup reply *)

Lemma read_visuals_drain (vs : list (list Z)) (rest : list Z) (w : world) :
  rx_fail w = false ->
  Forall (fun v => length v = sizeof_x11_visualtype_t) vs ->
  rx w = concat vs ++ rest ->
  read_visuals (length vs) w = (tt, World rest (tx w) false).
Proof.
  intros Hf Hvs. revert w Hf.
  induction Hvs as [|v vs Hv _ IH]; intros w Hf Hr.
  - cbn in *. destruct w; cbn in *. now subst.
  - cbn [concat] in Hr. rewrite <- app_assoc in Hr.
    cbn [length read_visuals]. unfold bind. rewrite <- Hv.
    rewrite (@sys_read_reply v (concat vs ++ rest) w Hf Hr).
    rewrite IH by reflexivity. reflexivity.
Qed.

Lemma read_depths_drain (host : byte_order) (p : process)
    (ds : list depth_block) (rest : list Z) (w : world) :
  rx_fail w = false -> Forall (well_formed_depth host) ds ->
  rx w = flat_map encode_depth ds ++ rest ->
  read_depths host p (length ds) w = (tt, World rest (tx w) false).
Proof.
  intros Hf Hds. revert w Hf.
  induction Hds as [|d ds (Hlen & Hvs & Hcount) _ IH]; intros w Hf Hr.
  - cbn in *. destruct w; cbn in *. now subst.
  - cbn [flat_map] in Hr. unfold encode_depth at 1 in Hr.
    repeat rewrite <- app_assoc in Hr.
    cbn [length read_depths]. unfold bind. rewrite <- Hlen.
    rewrite (@sys_read_reply (db_depth d) _ w Hf Hr). cbn [snd].
    replace (depth_visuals_len host
               (store_into (indeterminate p (length (db_depth d)))
                  (db_depth d)))
      with (Z.of_nat (length (db_visuals d))).
    + rewrite Nat2Z.id.
      rewrite (@read_visuals_drain (db_visuals d)
                 (flat_map encode_depth ds ++ rest))
        by (assumption || reflexivity).
      cbn [tx]. rewrite IH by reflexivity. reflexivity.
    + rewrite <- Hcount. unfold depth_visuals_len, store_into.
      rewrite bytes_at_app_l; [reflexivity|]. rewrite Hlen. cbv. lia.
Qed.

Lemma read_screens_drain (host : byte_order) (p : process)
    (ss : list screen_block) (rest : list Z) :
  Forall (well_formed_screen host) ss ->
  forall (i : nat) (conn : x11_connection_t) (unused : list Z) (w : world),
    rx_fail w = false ->
    rx w = flat_map encode_screen ss ++ rest ->
    exists conn',
      read_screens host p (length ss) i conn unused w
      = (conn', World rest (tx w) false)
      /\ fd conn' = fd conn /\ id conn' = id conn
      /\ id_inc conn' = id_inc conn
      /\ screen conn'
         = match i, ss with
           | O, s :: _ => store_into (screen conn) (sb_screen s)
           | _, _ => screen conn
           end.
Proof.
  induction 1 as [|s ss (Hlen & Hcount & Hds) _ IH];
    intros i conn unused w Hf Hr.
  - exists conn. cbn in *. destruct w, i; cbn in *; subst; auto.
  - cbn [flat_map] in Hr. unfold encode_screen at 1 in Hr.
    repeat rewrite <- app_assoc in Hr.
    cbn [length read_screens]. unfold bind. rewrite <- Hlen.
    rewrite (@sys_read_reply (sb_screen s) _ w Hf Hr). cbn [snd].
    match goal with
    | |- context [read_depths host p (Z.to_nat ?n) ?w1] =>
        replace n with (Z.of_nat (length (sb_depths s)));
        [rewrite Nat2Z.id;
         rewrite (@read_depths_drain host p (sb_depths s)
                    (flat_map encode_screen ss ++ rest) w1)
           by (assumption || reflexivity) |]
    end.
    + cbn [tx].
      match goal with
      | |- context [read_screens host p (length ss) (S i) ?c ?u ?w2] =>
          destruct (IH (S i) c u w2 eq_refl eq_refl)
            as (conn' & -> & Hfd & Hid & Hinc & Hscr)
      end.
      exists conn'. cbn [tx]. split; [reflexivity|].
      rewrite Hfd, Hid, Hinc, Hscr.
      destruct i; cbn [Nat.eqb fd id id_inc screen]; auto.
    + rewrite <- Hcount. unfold screen_allowed_depths_len, store_into.
      destruct (Nat.eqb i 0); cbn [screen];
        (rewrite bytes_at_app_l; [reflexivity | rewrite Hlen; cbv; lia]).
Qed.

(** X13: when the server's reply is followed by the vendor string, the
    pixmap formats and, for each announced screen, its record with its
    depth and visual-type records, [x11_connect] succeeds and consumes
    exactly these bytes; the screen record of the connection is the
    first screen of the reply, and is left as it was when the reply
    announces no screen. *)
Theorem connect_drains_setup (host : byte_order) (p : process)
    (conn : x11_connection_t) (w : world)
    (reply vendor formats : list Z) (screens : list screen_block)
    (rest : list Z) :
  rx_fail w = false ->
  rx w = reply ++ vendor ++ formats
         ++ flat_map encode_screen screens ++ rest ->
  length reply = 40%nat -> setup_status reply = 1 ->
  Z.of_nat (length vendor) = setup_vendor_len host reply ->
  Z.of_nat (length formats) = 8 * setup_pixmap_formats_len reply ->
  Z.of_nat (length screens) = setup_roots_len reply ->
  Forall (well_formed_screen host) screens ->
  let res := x11_connect host p conn w in
  fst (fst res) = true
  /\ rx (snd res) = rest
  /\ screen (snd (fst res))
     = match screens with
       | s :: _ => sb_screen s ++ skipn 40 (screen conn)
       | [] => screen conn
       end.
Proof.
  intros Hf Hr Hl Hs Hv Hfm Hn Hwf res. subst res.
  destruct (@connect_run host p conn w reply _ Hf Hr Hl) as (out & _ & E).
  rewrite E. apply Z.eqb_eq in Hs. rewrite Hs. cbn [negb]. cbv zeta.
  unfold bind. rewrite <- Hv, Nat2Z.id.
  rewrite (@sys_read_reply vendor
             (formats ++ flat_map encode_screen screens ++ rest))
    by reflexivity.
  replace (Z.to_nat (setup_pixmap_formats_len reply) * sizeof_x11_format_t)%nat
    with (length formats) by (unfold sizeof_x11_format_t; lia).
  rewrite (@sys_read_reply formats (flat_map encode_screen screens ++ rest))
    by reflexivity.
  rewrite <- Hn, Nat2Z.id.
  match goal with
  | |- context [read_screens host p (length screens) 0 ?c ?u ?w2] =>
      destruct (@read_screens_drain host p screens rest Hwf 0 c u w2
                  eq_refl eq_refl)
        as (conn' & -> & _ & _ & _ & Hscr)
  end.
  unfold ret. cbn [fst snd rx]. repeat split.
  rewrite Hscr. cbn [screen]. destruct screens as [|s ss]; [reflexivity|].
  unfold store_into. inversion Hwf as [|? ? (Hlen & _) _]; subst.
  now rewrite Hlen.
Qed.

Lemma connect_drains_setup_witness :
  let res := x11_connect LittleEndian mock_process
               (Connection 0 7 9 (repeat 5 40))
               (World (mock_setup_one_screen ++ [88; 49; 49]
                       ++ [24; 32; 32; 0; 0; 0; 0; 0]
                       ++ encode_screen sample_screen ++ [12; 9])
                      [] false) in
  fst (fst res) = true /\ rx (snd res) = [12; 9]
  /\ screen (snd (fst res)) = sb_screen sample_screen.
Proof.
  pose proof (@connect_drains_setup LittleEndian mock_process
                (Connection 0 7 9 (repeat 5 40))
                (World (mock_setup_one_screen ++ [88; 49; 49]
                        ++ [24; 32; 32; 0; 0; 0; 0; 0]
                        ++ encode_screen sample_screen ++ [12; 9])
                       [] false)
                mock_setup_one_screen [88; 49; 49]
                [24; 32; 32; 0; 0; 0; 0; 0] [sample_screen] [12; 9]
                eq_refl) as H.
  cbv zeta in H. cbn [flat_map] in H. rewrite app_nil_r in H.
  destruct H as (H1 & H2 & H3); try reflexivity.
  - repeat constructor.
  - exact (conj H1 (conj H2 H3)).
Defined.

(** ** The credential reader on arbitrary stores *)

Lemma parse_xauthority_found_inv (host : byte_order) (store : list Z)
    (ck : x11_cookie_t) :
  Forall is_byte store ->
  parse_xauthority host (Some store) = Some ck ->
  exists pre e rest,
    Forall well_formed_entry pre
    /\ Forall (fun x => e_name x <> MIT_MAGIC_COOKIE_1) pre
    /\ well_formed_entry e /\ e_name e = MIT_MAGIC_COOKIE_1
    /\ store = flat_map encode_entry pre ++ encode_entry e ++ rest
    /\ ck = cookie_of_entry e.
Proof.
  intros Hb Hp. cbn [parse_xauthority] in Hp.
  apply (@xauth_loop_found_inv host store Hb (length store) 0 ck) in Hp;
    [exact Hp | lia].
Qed.

(** X14: on a store of bytes the reader returns a credential exactly when
    the store begins with well-formed records of other families followed
    by a complete record named MIT-MAGIC-COOKIE-1, and the credential is
    that record's; a credential it returns always has the name length 18
    and a token whose recorded length, below 2^16, is its real length. *)
Theorem parse_xauthority_found_iff (host : byte_order) (store : list Z)
    (ck : x11_cookie_t) :
  Forall is_byte store ->
  (parse_xauthority host (Some store) = Some ck
   <-> exists pre e rest,
         Forall well_formed_entry pre
         /\ Forall (fun x => e_name x <> MIT_MAGIC_COOKIE_1) pre
         /\ well_formed_entry e /\ e_name e = MIT_MAGIC_COOKIE_1
         /\ store = flat_map encode_entry pre ++ encode_entry e ++ rest
         /\ ck = cookie_of_entry e)
  /\ (parse_xauthority host (Some store) = Some ck ->
      name ck = MIT_MAGIC_COOKIE_1 /\ name_len ck = 18
      /\ data_len ck = Z.of_nat (length (data ck))
      /\ data_len ck < 2 ^ 16).
Proof.
  intros Hb. split; [split|].
  - now apply parse_xauthority_found_inv.
  - intros (pre & e & rest & Hwf & Hother & He & Hname & -> & ->).
    cbn [parse_xauthority].
    now apply xauth_loop_first_match with (pre := pre) (rest := rest).
  - intros Hp. apply parse_xauthority_found_inv in Hp; [|exact Hb].
    destruct Hp as (pre & e & rest & _ & _ & He & Hname & _ & ->).
    unfold cookie_of_entry. cbn [name name_len data data_len].
    rewrite Hname. destruct He as (_ & _ & _ & _ & Ht).
    repeat split; try reflexivity. apply Ht.
Qed.

Lemma parse_xauthority_found_iff_witness :
  exists pre e rest,
    Forall well_formed_entry pre
    /\ Forall (fun x => e_name x <> MIT_MAGIC_COOKIE_1) pre
    /\ well_formed_entry e /\ e_name e = MIT_MAGIC_COOKIE_1
    /\ encode_entry sample_other_entry ++ encode_entry sample_cookie_entry
       = flat_map encode_entry pre ++ encode_entry e ++ rest
    /\ Cookie 18 MIT_MAGIC_COOKIE_1 4 [1; 2; 3; 4] = cookie_of_entry e.
Proof.
  destruct (@parse_xauthority_found_iff BigEndian
              (encode_entry sample_other_entry
               ++ encode_entry sample_cookie_entry)
              (Cookie 18 MIT_MAGIC_COOKIE_1 4 [1; 2; 3; 4])) as [[H _] _].
  - repeat (constructor; [unfold is_byte; lia|]). constructor.
  - apply H. reflexivity.
Defined.

(** X15: the result of the reader does not depend on the byte order of
    the host: the lengths of the store are big-endian and [ntohs] undoes
    what the host's load does. *)
Theorem parse_xauthority_any_host (h1 h2 : byte_order) (store : list Z) :
  Forall is_byte store ->
  parse_xauthority h1 (Some store) = parse_xauthority h2 (Some store).
Proof.
  intros Hb.
  assert (Hone : forall a b ck,
            parse_xauthority a (Some store) = Some ck ->
            parse_xauthority b (Some store) = Some ck).
  { intros a b ck Hp. apply parse_xauthority_found_inv in Hp; [|exact Hb].
    destruct Hp as (pre & e & rest & Hwf & Hother & He & Hname & -> & ->).
    cbn [parse_xauthority].
    now apply xauth_loop_first_match with (pre := pre) (rest := rest). }
  destruct (parse_xauthority h1 (Some store)) as [ck|] eqn:E1.
  - symmetry. now apply (Hone h1 h2).
  - destruct (parse_xauthority h2 (Some store)) as [ck|] eqn:E2;
      [|reflexivity].
    apply (Hone h2 h1) in E2. congruence.
Qed.

Lemma parse_xauthority_any_host_witness :
  parse_xauthority LittleEndian (Some truncated_store)
  = parse_xauthority BigEndian (Some truncated_store).
Proof.
  apply (@parse_xauthority_any_host LittleEndian BigEndian truncated_store).
  repeat (constructor; [unfold is_byte; lia|]). constructor.
Defined.

(** ** The demonstration program *)

Lemma writes_only_two (a b : list Z) (n m : Z) :
  writes_only (sys_write a n ;;; sys_write b m).
Proof.
  intros w. unfold bytes_written, sent, bind, sys_write.
  cbn [fst snd rx tx rx_fail app length skipn].
  rewrite <- app_assoc. reflexivity.
Qed.

Lemma writes_only_one (a : list Z) (n : Z) : writes_only (sys_write a n).
Proof. intros w. reflexivity. Qed.

Lemma writes_only_ret {A} (a : A) : writes_only (ret a).
Proof.
  intros w. unfold bytes_written, sent, ret. cbn. rewrite app_nil_r.
  destruct w; reflexivity.
Qed.

Lemma writes_only_sent {A} (m : IO A) (w : world) :
  writes_only m -> sent m w = bytes_written m.
Proof.
  intros H. unfold sent at 1. rewrite H. cbn [snd tx]. apply skipn_exact.
Qed.

Lemma writes_only_bind {A B} (m : IO A) (k : A -> IO B) :
  writes_only m -> (forall a, writes_only (k a)) ->
  writes_only (bind m k)
  /\ bytes_written (bind m k)
     = bytes_written m ++ bytes_written (k (fst (m (World [] [] false)))).
Proof.
  intros Hm Hk.
  assert (E : bytes_written (bind m k)
              = bytes_written m
                ++ bytes_written (k (fst (m (World [] [] false))))).
  { unfold bytes_written at 1, sent, bind. rewrite Hm.
    rewrite Hk. cbn [snd tx rx rx_fail app length skipn]. reflexivity. }
  split; [| exact E].
  intros w. rewrite E.
  pose proof (Hm (World [] [] false)) as H0. pose proof (Hm w) as Hw.
  unfold bind. rewrite Hw.
  destruct (m (World [] [] false)) as [a0 W0]. cbn [fst] in *.
  injection H0 as ->.
  rewrite (Hk a0 (World (rx w) (tx w ++ bytes_written m) (rx_fail w))).
  cbn [fst snd rx tx rx_fail].
  rewrite (Hk a0 (World [] (bytes_written m) false)).
  cbn [fst]. rewrite <- app_assoc. reflexivity.
Qed.

Lemma drawing_run (host : byte_order) (conn : x11_connection_t)
    (window gc : Z) (after : list Z) (w : world) :
  let message := string_literal "Hello World from an X11 window!" after in
  (x11_poly_rectangle host conn window gc draw_rectangles
     (sizeof_x11_rectangle_t * 3) ;;;
   x11_image_text_8 host conn window gc 16 16 message (strlen message)) w
  = (tt, World (rx w) (tx w ++ drawing_batch host window gc) (rx_fail w)).
Proof.
  intros message. subst message.
  change (strlen (string_literal _ after)) with 31.
  change (sizeof_x11_rectangle_t * 3) with 24.
  unfold drawing_batch, x11_poly_rectangle, x11_image_text_8.
  unfold sent, bind, sys_write.
  cbn [fst snd rx tx rx_fail app length skipn].
  change (Z.to_nat (align4 31)) with 32%nat.
  change (firstn 32 (string_literal "Hello World from an X11 window!" after))
    with (firstn 32 (string_literal "Hello World from an X11 window!" [])).
  rewrite <- !app_assoc. reflexivity.
Qed.

Lemma wait_for_event_tag (conn : x11_connection_t) (event : x11_event_t)
    (tag : Z) (rest o : list Z) :
  is_byte tag ->
  x11_wait_for_event conn event (World (tag :: rest) o false)
  = ((true, Event (tag mod 128)),
     World (if tag mod 128 =? X11_EXPOSE then skipn 13 rest else rest)
           o false).
Proof.
  intros Hb. unfold x11_wait_for_event, bind, sys_read.
  cbn [rx tx rx_fail firstn skipn length fst snd hd type Z.of_nat].
  change (Z.pos (Pos.of_succ_nat 0) =? 0) with false. cbv iota.
  rewrite (clear_top_bit Hb).
  destruct (tag mod 128 =? X11_EXPOSE); reflexivity.
Qed.

Lemma wait_for_event_failing (conn : x11_connection_t) (event : x11_event_t)
    (w : world) :
  rx_fail w = true -> is_byte (type event) ->
  x11_wait_for_event conn event w
  = ((true, Event (type event mod 128)), w).
Proof.
  intros Hf Hb. unfold x11_wait_for_event, bind, sys_read. rewrite Hf.
  cbn [fst snd hd type]. change (-1 =? 0) with false. cbv iota.
  rewrite (clear_top_bit Hb).
  destruct (type event mod 128 =? X11_EXPOSE); cbn [rx_fail]; try rewrite Hf;
    reflexivity.
Qed.

Lemma count_exposures_fuel (f1 f2 : nat) (stream : list Z) :
  (length stream <= f1)%nat -> (length stream <= f2)%nat ->
  count_exposures f1 stream = count_exposures f2 stream.
Proof.
  revert f2 stream. induction f1 as [| f1 IH]; intros f2 stream H1 H2.
  - destruct stream; [| cbn in H1; lia]. destruct f2; reflexivity.
  - destruct stream as [| tag rest]; [destruct f2; reflexivity |].
    destruct f2 as [| f2]; [cbn in H2; lia |].
    cbn [count_exposures]. cbn [length] in H1, H2.
    pose proof (length_skipn 13 rest) as Hs.
    destruct (tag mod 128 =? X11_EXPOSE).
    + f_equal. apply IH; lia.
    + apply IH; lia.
Qed.

Lemma Forall_is_byte_skipn (n : nat) (l : list Z) :
  Forall is_byte l -> Forall is_byte (skipn n l).
Proof.
  intros H. rewrite <- (firstn_skipn n l) in H.
  apply Forall_app in H. apply H.
Qed.

Lemma length_drawing_batch (host : byte_order) (window gc : Z) :
  length (drawing_batch host window gc) = 84%nat.
Proof.
  destruct host; vm_compute; reflexivity.
Qed.

Lemma event_loop_run (host : byte_order) (conn : x11_connection_t)
    (window gc : Z) (after : list Z) (fuel : nat) :
  forall (event : x11_event_t) (w : world),
    rx_fail w = false -> Forall is_byte (rx w) ->
    (length (rx w) < fuel)%nat ->
    exists last,
      event_loop host fuel conn window gc
        (string_literal "Hello World from an X11 window!" after) event w
      = (Some last,
         World [] (tx w ++ concat (repeat (drawing_batch host window gc)
                                     (count_exposures (length (rx w)) (rx w))))
               false).
Proof.
  induction fuel as [| fuel IH]; intros event w Hf Hb Hlt; [lia |].
  destruct w as [i o f]. cbn [rx tx rx_fail] in *. subst f.
  cbn [event_loop]. unfold bind at 1.
  destruct i as [| tag rest].
  - rewrite wait_for_event_end_of_stream by reflexivity.
    cbn [fst snd]. exists event. unfold ret.
    cbn [count_exposures repeat concat length].
    rewrite app_nil_r. reflexivity.
  - apply Forall_cons_iff in Hb. destruct Hb as [Ht Hr].
    rewrite (@wait_for_event_tag conn event tag rest o Ht).
    cbn [fst snd type length count_exposures] in *.
    destruct (tag mod 128 =? X11_EXPOSE) eqn:E.
    + unfold bind at 1.
      rewrite (drawing_run host conn window gc after).
      cbn [rx tx rx_fail].
      pose proof (length_skipn 13 rest) as Hs.
      destruct (IH (Event (tag mod 128))
                  (World (skipn 13 rest) (o ++ drawing_batch host window gc)
                         false)) as [last EQ];
        [reflexivity | apply Forall_is_byte_skipn; exact Hr
         | cbn [rx]; lia |].
      exists last. rewrite EQ. cbn [rx tx].
      rewrite (@count_exposures_fuel (length rest)
                 (length (skipn 13 rest)) (skipn 13 rest)) by lia.
      cbn [repeat concat]. rewrite <- app_assoc. reflexivity.
    + unfold bind at 1. unfold ret at 1.
      destruct (IH (Event (tag mod 128)) (World rest o false))
        as [last EQ]; [reflexivity | exact Hr | cbn [rx]; lia |].
      exists last. rewrite EQ. reflexivity.
Qed.

(** X16: when reads succeed, the event loop of the demonstration program
    ends once the stream is exhausted, having consumed all of it, and has
    sent one drawing batch of 84 bytes (the three rectangles, then the
    text) for each event of code 12, nothing else. *)
Theorem event_loop_until_end_of_stream (host : byte_order)
    (conn : x11_connection_t) (window gc : Z) (after : list Z)
    (event : x11_event_t) (w : world) (fuel : nat) :
  rx_fail w = false -> Forall is_byte (rx w) ->
  (length (rx w) < fuel)%nat ->
  let message := string_literal "Hello World from an X11 window!" after in
  let run := event_loop host fuel conn window gc message event w in
  (exists last, fst run = Some last)
  /\ rx (snd run) = []
  /\ tx (snd run)
     = tx w ++ concat (repeat (drawing_batch host window gc)
                         (count_exposures (length (rx w)) (rx w)))
  /\ length (drawing_batch host window gc) = 84%nat.
Proof.
  intros Hf Hb Hlt message run. subst run message.
  destruct (@event_loop_run host conn window gc after fuel event w Hf Hb Hlt)
    as [last EQ].
  rewrite EQ. cbn [fst snd rx tx].
  split; [exists last; reflexivity |].
  split; [reflexivity |].
  split; [reflexivity | apply length_drawing_batch].
Qed.

Lemma event_loop_until_end_of_stream_witness :
  let w := World [12; 0; 0; 0; 0; 0; 0; 0; 0; 0; 0; 0; 0; 0; 140; 5] [] false in
  let run :=
    event_loop LittleEndian 17 fresh_connection 9 7
      (string_literal "Hello World from an X11 window!" []) (Event 0) w in
  rx (snd run) = []
  /\ tx (snd run)
     = drawing_batch LittleEndian 9 7 ++ drawing_batch LittleEndian 9 7.
Proof.
  intros w run.
  destruct (@event_loop_until_end_of_stream LittleEndian fresh_connection 9 7
              [] (Event 0) w 17) as (_ & H1 & H2 & _).
  - reflexivity.
  - repeat (constructor; [unfold is_byte; lia |]). constructor.
  - cbn. lia.
  - split; [exact H1 |]. subst run. rewrite H2. reflexivity.
Defined.

Lemma event_loop_stuck (host : byte_order) (conn : x11_connection_t)
    (window gc : Z) (after : list Z) (fuel : nat) :
  forall (event : x11_event_t) (w : world),
    rx_fail w = true -> is_byte (type event) ->
    event_loop host fuel conn window gc
      (string_literal "Hello World from an X11 window!" after) event w
    = (None,
       World (rx w)
         (tx w ++ if type event mod 128 =? X11_EXPOSE
                  then concat (repeat (drawing_batch host window gc) fuel)
                  else [])
         true).
Proof.
  induction fuel as [| fuel IH]; intros event w Hf Hb.
  - destruct w as [i o f]. cbn [rx tx rx_fail] in *. subst f.
    cbn [event_loop repeat concat]. unfold ret.
    destruct (_ =? _); rewrite app_nil_r; reflexivity.
  - cbn [event_loop]. unfold bind at 1.
    rewrite (@wait_for_event_failing conn event w Hf Hb). cbn [fst snd type].
    assert (Hb' : is_byte (type (Event (type event mod 128)))).
    { unfold is_byte in *. cbn [type]. lia. }
    assert (Hm : type (Event (type event mod 128)) mod 128
                 = type event mod 128).
    { cbn [type]. apply Z.mod_mod. lia. }
    destruct (type event mod 128 =? X11_EXPOSE) eqn:E.
    + unfold bind at 1. rewrite (drawing_run host conn window gc after).
      rewrite IH; [| exact Hf | exact Hb'].
      rewrite Hm, E. cbn [rx tx rx_fail repeat concat].
      rewrite <- app_assoc. reflexivity.
    + unfold bind at 1. unfold ret at 1.
      rewrite IH; [| exact Hf | exact Hb'].
      rewrite Hm, E. reflexivity.
Qed.

(** X17: a failing read is not taken for the end of the stream.  When
    every [read] fails, [x11_wait_for_event] keeps answering true with
    the event left at its previous type, so the event loop of the
    demonstration program never ends, whatever the number of turns; and
    when the stale type is 12 (modulo 128) every turn sends one more
    drawing batch. *)
Theorem event_loop_failing_reads (host : byte_order)
    (conn : x11_connection_t) (window gc : Z) (after : list Z)
    (event : x11_event_t) (w : world) (fuel : nat) :
  rx_fail w = true -> is_byte (type event) ->
  let message := string_literal "Hello World from an X11 window!" after in
  let run := event_loop host fuel conn window gc message event w in
  fst run = None
  /\ rx (snd run) = rx w
  /\ tx (snd run)
     = tx w ++ (if type event mod 128 =? X11_EXPOSE
                then concat (repeat (drawing_batch host window gc) fuel)
                else []).
Proof.
  intros Hf Hb message run. subst run message.
  rewrite (@event_loop_stuck host conn window gc after fuel event w Hf Hb).
  cbn [fst snd rx tx]. auto.
Qed.

Lemma event_loop_failing_reads_witness :
  let w := World [12; 1; 2] [] true in
  let run :=
    event_loop BigEndian 3 fresh_connection 9 7
      (string_literal "Hello World from an X11 window!" []) (Event 140) w in
  fst run = None
  /\ rx (snd run) = [12; 1; 2]
  /\ length (tx (snd run)) = 252%nat.
Proof.
  intros w run.
  destruct (@event_loop_failing_reads BigEndian fresh_connection 9 7 []
              (Event 140) w 3) as (H1 & H2 & H3).
  - reflexivity.
  - unfold is_byte. cbn. lia.
  - split; [exact H1 |]. split; [exact H2 |].
    subst run. rewrite H3. reflexivity.
Defined.

(** *** The requests that create the resources *)

Lemma request_for_image (host : byte_order) (op b len res : Z)
    (tail : list Z) :
  is_byte op -> 2 <= len < 2 ^ 16 -> is_uint32 res ->
  Z.of_nat (length tail) = 4 * len - 8 ->
  request_for host op len res
    (to_uint8 op :: b :: store host 2 len ++ store host 4 res ++ tail).
Proof.
  intros Ho Hl Hr Ht. unfold is_uint32 in Hr. split.
  - cbn [length]. rewrite !length_app, !length_store. lia.
  - unfold decode_resource_request.
    assert (E1 : forall l, load_u8 (bytes_at 0 1 (to_uint8 op :: l)) = op)
      by (intros l; apply (@load_u8_byte op l Ho)).
    rewrite E1.
    assert (E2 : forall l,
               load_u16 host (bytes_at 2 2 (to_uint8 op :: b
                                              :: store host 2 len ++ l))
               = len).
    { intros l. unfold bytes_at. cbn [skipn]. rewrite load_u16_here.
      apply Z.mod_small. lia. }
    rewrite E2.
    assert (E3 : load_u32 host
                   (bytes_at 4 4 (to_uint8 op :: b
                                    :: store host 2 len
                                       ++ store host 4 res ++ tail))
                 = res).
    { unfold bytes_at.
      change (skipn 4 (to_uint8 op :: b
                         :: store host 2 len ++ store host 4 res ++ tail))
        with (skipn 2 (store host 2 len ++ store host 4 res ++ tail)).
      rewrite skipn_store by lia. cbn [Nat.sub skipn].
      rewrite load_u32_here. apply Z.mod_small. lia. }
    rewrite E3. reflexivity.
Qed.

Lemma request_frames_step (host : byte_order) (fuel : nat)
    (op len res : Z) (f rest : list Z) :
  request_for host op len res f -> 2 <= len ->
  request_frames host (S fuel) (f ++ rest)
  = match request_frames host fuel rest with
    | Some frames => Some (f :: frames)
    | None => None
    end.
Proof.
  intros [Hl Hd] Hlen.
  assert (En : Z.to_nat (4 * length_field host (f ++ rest)) = length f).
  { unfold length_field. rewrite bytes_at_app_l by lia.
    unfold decode_resource_request in Hd.
    assert (E : load_u16 host (bytes_at 2 2 f) = len) by congruence.
    rewrite E. lia. }
  destruct f as [| a f']; [cbn [length] in Hl; lia |].
  change ((a :: f') ++ rest) with (a :: (f' ++ rest)) in *.
  cbn [request_frames].
  change (a :: (f' ++ rest)) with ((a :: f') ++ rest) in *.
  rewrite En. rewrite firstn_exact, skipn_exact.
  destruct (Nat.eqb_spec (length (a :: f')) 0) as [E0 | _];
    [cbn [length] in E0; lia |].
  destruct (Nat.ltb_spec (length ((a :: f') ++ rest)) (length (a :: f')))
    as [Hlt | _]; [rewrite length_app in Hlt; lia |].
  reflexivity.
Qed.

Lemma writes_only_open_font (host : byte_order) (conn : x11_connection_t)
    (fid : Z) (name : list Z) (L : Z) :
  writes_only (x11_open_font host conn fid name L).
Proof. apply writes_only_two. Qed.

Lemma writes_only_create_gc (host : byte_order) (conn : x11_connection_t)
    (cid drawable value_mask : Z) (value_list : list Z) (size : Z) :
  writes_only
    (x11_create_gc host conn cid drawable value_mask value_list size).
Proof. apply writes_only_two. Qed.

Lemma writes_only_close_font (host : byte_order) (conn : x11_connection_t)
    (font : Z) :
  writes_only (x11_close_font host conn font).
Proof. apply writes_only_one. Qed.

Lemma writes_only_create_window (host : byte_order)
    (conn : x11_connection_t)
    (depth wid parent x y width height border_width _class : Z)
    (visual value_mask : Z) (value_list : list Z) (size : Z) :
  writes_only
    (x11_create_window host conn depth wid parent x y width height
       border_width _class visual value_mask value_list size).
Proof. apply writes_only_two. Qed.

Lemma writes_only_change_property (host : byte_order)
    (conn : x11_connection_t) (mode window property type_ format : Z)
    (data : list Z) (L : Z) :
  writes_only
    (x11_change_property host conn mode window property type_ format data L).
Proof. apply writes_only_two. Qed.

Lemma writes_only_configure_window (host : byte_order)
    (conn : x11_connection_t) (window value_mask : Z) (value_list : list Z)
    (size : Z) :
  writes_only
    (x11_configure_window host conn window value_mask value_list size).
Proof. apply writes_only_two. Qed.

Lemma writes_only_map_window (host : byte_order) (conn : x11_connection_t)
    (window : Z) :
  writes_only (x11_map_window host conn window).
Proof. apply writes_only_one. Qed.

Create HintDb writes.

#[local] Hint Resolve writes_only_open_font writes_only_create_gc
  writes_only_close_font writes_only_create_window
  writes_only_change_property writes_only_configure_window
  writes_only_map_window : writes.

Lemma open_font_frame (host : byte_order) (conn : x11_connection_t)
    (fid : Z) (after : list Z) :
  is_uint32 fid -> (2 <= length after)%nat ->
  let name := string_literal "fixed" after in
  request_for host X11_OPEN_FONT 5 fid
    (bytes_written (x11_open_font host conn fid name (strlen name))).
Proof.
  intros Hf Ha name. subst name. unfold bytes_written.
  rewrite open_font_message.
  change (strlen (string_literal "fixed" after)) with 5.
  change (align4 5) with 8.
  change (to_uint16 (to_size_t (12 + 8) / 4)) with 5.
  cbn [app]. repeat rewrite <- app_assoc.
  apply request_for_image; [unfold is_byte, X11_OPEN_FONT; lia | lia
                           | exact Hf |].
  rewrite !length_app, !length_store, length_firstn.
  unfold string_literal. rewrite length_app. cbn [length] in *.
  change (length (bytes_of_string "fixed")) with 5%nat. lia.
Qed.

Lemma create_gc_frame (host : byte_order) (conn : x11_connection_t)
    (cid drawable value_mask : Z) (value_list : list Z) :
  is_uint32 cid -> (length value_list < 1000)%nat ->
  request_for host X11_CREATE_GC (4 + Z.of_nat (length value_list)) cid
    (bytes_written
       (x11_create_gc host conn cid drawable value_mask value_list
          (4 * Z.of_nat (length value_list)))).
Proof.
  intros Hc Hn. unfold bytes_written, x11_create_gc.
  rewrite sent_two_writes.
  unfold image_create_gc_request, sizeof_x11_create_gc_request_t.
  cbn [gc_major_opcode gc_pad0 gc_length gc_cid gc_drawable gc_value_mask].
  image_is_whole. rewrite whole_value_list.
  replace (to_uint16 (to_size_t (16 + 4 * Z.of_nat (length value_list)) / 4))
    with (4 + Z.of_nat (length value_list))
    by (unfold to_uint16, to_size_t; lia).
  cbn [app]. repeat rewrite <- app_assoc.
  apply request_for_image; [unfold is_byte, X11_CREATE_GC; lia | lia
                           | exact Hc |].
  rewrite !length_app, !length_store, length_words_image. lia.
Qed.

Lemma close_font_frame (host : byte_order) (conn : x11_connection_t)
    (font : Z) :
  is_uint32 font ->
  request_for host X11_CLOSE_FONT 2 font
    (bytes_written (x11_close_font host conn font)).
Proof.
  intros Hf. unfold bytes_written, x11_close_font. rewrite sent_one_write.
  unfold image_close_font_request, sizeof_x11_close_font_request_t.
  cbn [clf_major_opcode clf_pad0 clf_length clf_font].
  image_is_whole. cbn [app].
  change (to_uint16 (8 / 4)) with 2.
  rewrite <- (app_nil_r (store host 4 font)).
  apply request_for_image; [unfold is_byte, X11_CLOSE_FONT; lia | lia
                           | exact Hf | reflexivity].
Qed.

Lemma create_window_frame (host : byte_order) (conn : x11_connection_t)
    (depth wid parent x y width height border_width _class : Z)
    (visual value_mask : Z) (value_list : list Z) :
  is_uint32 wid -> (length value_list < 1000)%nat ->
  request_for host X11_CREATE_WINDOW (8 + Z.of_nat (length value_list)) wid
    (bytes_written
       (x11_create_window host conn depth wid parent x y width height
          border_width _class visual value_mask value_list
          (4 * Z.of_nat (length value_list)))).
Proof.
  intros Hc Hn. unfold bytes_written, x11_create_window.
  rewrite sent_two_writes.
  unfold image_create_window_request, sizeof_x11_create_window_request_t.
  cbn [cw_major_opcode cw_depth cw_length cw_wid cw_parent cw_x cw_y
       cw_width cw_height cw_border_width cw__class cw_visual
       cw_value_mask].
  image_is_whole. rewrite whole_value_list.
  replace (to_uint16 (to_size_t (32 + 4 * Z.of_nat (length value_list)) / 4))
    with (8 + Z.of_nat (length value_list))
    by (unfold to_uint16, to_size_t; lia).
  cbn [app]. repeat rewrite <- app_assoc.
  apply request_for_image; [unfold is_byte, X11_CREATE_WINDOW; lia | lia
                           | exact Hc |].
  rewrite !length_app, !length_store, length_words_image. lia.
Qed.

Lemma change_property_frame (host : byte_order) (conn : x11_connection_t)
    (mode window property type_ format : Z) (after : list Z) :
  is_uint32 window -> (1 <= length after)%nat ->
  let title := string_literal "Hello X11!" after in
  request_for host X11_CHANGE_PROPERTY 9 window
    (bytes_written
       (x11_change_property host conn mode window property type_ format
          title (strlen title))).
Proof.
  intros Hf Ha title. subst title. unfold bytes_written.
  rewrite change_property_message.
  change (strlen (string_literal "Hello X11!" after)) with 10.
  change (align4 10) with 12.
  change (to_uint16 (to_size_t (24 + 12) / 4)) with 9.
  cbn [app]. repeat rewrite <- app_assoc.
  apply request_for_image; [unfold is_byte, X11_CHANGE_PROPERTY; lia | lia
                           | exact Hf |].
  cbn [length app]. rewrite !length_app, !length_store. cbn [length].
  rewrite !length_app, !length_store, length_firstn.
  unfold string_literal. rewrite length_app. cbn [length] in *.
  change (length (bytes_of_string "Hello X11!")) with 10%nat. lia.
Qed.

Lemma configure_window_frame (host : byte_order) (conn : x11_connection_t)
    (window value_mask : Z) (value_list : list Z) :
  is_uint32 window -> (length value_list < 1000)%nat ->
  request_for host X11_CONFIGURE_WINDOW (3 + Z.of_nat (length value_list))
    window
    (bytes_written
       (x11_configure_window host conn window value_mask value_list
          (4 * Z.of_nat (length value_list)))).
Proof.
  intros Hc Hn. unfold bytes_written, x11_configure_window.
  rewrite sent_two_writes.
  unfold image_configure_window_request,
    sizeof_x11_configure_window_request_t.
  cbn [cf_major_opcode cf_pad0 cf_length cf_window cf_value_mask cf_pad1].
  image_is_whole. rewrite whole_value_list.
  replace (to_uint16 (to_size_t (12 + 4 * Z.of_nat (length value_list)) / 4))
    with (3 + Z.of_nat (length value_list))
    by (unfold to_uint16, to_size_t; lia).
  cbn [app firstn]. repeat rewrite <- app_assoc.
  apply request_for_image; [unfold is_byte, X11_CONFIGURE_WINDOW; lia | lia
                           | exact Hc |].
  cbn [length app]. rewrite !length_app, !length_store. cbn [length].
  rewrite length_words_image. lia.
Qed.

Lemma map_window_frame (host : byte_order) (conn : x11_connection_t)
    (window : Z) :
  is_uint32 window ->
  request_for host X11_MAP_WINDOW 2 window
    (bytes_written (x11_map_window host conn window)).
Proof.
  intros Hf. unfold bytes_written, x11_map_window. rewrite sent_one_write.
  unfold image_map_window_request, sizeof_x11_map_window_request_t.
  cbn [mw_major_opcode mw_pad0 mw_length mw_window].
  image_is_whole. cbn [app].
  change (to_uint16 (8 / 4)) with 2.
  rewrite <- (app_nil_r (store host 4 window)).
  apply request_for_image; [unfold is_byte, X11_MAP_WINDOW; lia | lia
                           | exact Hf | reflexivity].
Qed.

Lemma writes_only_bind_l {A B} (m : IO A) (k : A -> IO B) :
  writes_only m -> (forall a, writes_only (k a)) -> writes_only (bind m k).
Proof. intros Hm Hk. apply (proj1 (@writes_only_bind A B m k Hm Hk)). Qed.

Lemma bytes_written_then {B} (m : IO unit) (k : IO B) :
  writes_only m -> writes_only k ->
  bytes_written (m ;;; k) = bytes_written m ++ bytes_written k.
Proof.
  intros Hm Hk.
  apply (proj2 (@writes_only_bind unit B m (fun _ => k) Hm (fun _ => Hk))).
Qed.

Lemma result_then {B} (m : IO unit) (k : IO B) :
  writes_only m -> writes_only k ->
  fst ((m ;;; k) (World [] [] false)) = fst (k (World [] [] false)).
Proof.
  intros Hm Hk. unfold bind. rewrite Hm. rewrite Hk. reflexivity.
Qed.

Ltac writes_chain :=
  first [ solve [auto with writes]
        | apply writes_only_ret
        | apply writes_only_bind_l;
          [solve [auto with writes] | intros _; writes_chain] ].

Lemma create_resources_writes (host : byte_order) (conn : x11_connection_t)
    (mem : program_memory) :
  writes_only (create_resources host conn mem).
Proof. unfold create_resources. cbv zeta. writes_chain. Qed.

Lemma third_identifier (b i : Z) :
  to_uint32 (to_uint32 (b + i) + i) = (b + 2 * i) mod 2 ^ 32
  /\ to_uint32 (to_uint32 (to_uint32 (b + i) + i) + i)
     = (b + 3 * i) mod 2 ^ 32.
Proof.
  unfold to_uint32. rewrite !Zplus_mod_idemp_l.
  split; f_equal; lia.
Qed.

Lemma create_resources_result (host : byte_order) (conn : x11_connection_t)
    (mem : program_memory) (w : world) :
  fst (create_resources host conn mem w)
  = (Connection (fd conn) ((id conn + 3 * id_inc conn) mod 2 ^ 32)
       (id_inc conn) (screen conn),
     (id conn + 2 * id_inc conn) mod 2 ^ 32,
     (id conn + id_inc conn) mod 2 ^ 32).
Proof.
  rewrite (create_resources_writes host conn mem w). cbn [fst].
  destruct (third_identifier (id conn) (id_inc conn)) as [Ewin Enext].
  unfold create_resources. cbv zeta.
  cbn [x11_generate_id fst snd id id_inc fd screen].
  rewrite Enext, Ewin.
  repeat (rewrite result_then by writes_chain). reflexivity.
Qed.

(** X18: the seven requests with which the demonstration program creates
    its resources, when the connection holds a 32-bit identifier and the
    two bytes behind the font name and the byte behind the window title
    can be read.  They are sent in this order and nothing is read:
    open-font, create-gc, close-font, create-window, change-property,
    configure-window, map-window, 160 bytes in all, each as long as its
    own length field says, so that the stream cuts into exactly these
    seven requests.  The font gets the first identifier of the
    connection, the graphics context the second and the window the
    third, and each later request names the resource created before;
    the connection is left three identifiers further. *)
Theorem create_resources_requests (host : byte_order)
    (conn : x11_connection_t) (mem : program_memory) (w : world) :
  is_uint32 (id conn) ->
  (2 <= length (after_font_name mem))%nat ->
  (1 <= length (after_window_title mem))%nat ->
  let font := id conn in
  let gc := (id conn + id_inc conn) mod 2 ^ 32 in
  let window := (id conn + 2 * id_inc conn) mod 2 ^ 32 in
  let run := create_resources host conn mem w in
  let requests := sent (create_resources host conn mem) w in
  fst run
  = (Connection (fd conn) ((id conn + 3 * id_inc conn) mod 2 ^ 32)
       (id_inc conn) (screen conn), window, gc)
  /\ rx (snd run) = rx w
  /\ tx (snd run) = tx w ++ requests
  /\ length requests = 160%nat
  /\ exists frames,
       request_frames host (length requests) requests = Some frames
       /\ map (decode_resource_request host) frames
          = [(X11_OPEN_FONT, 5, font); (X11_CREATE_GC, 7, gc);
             (X11_CLOSE_FONT, 2, font); (X11_CREATE_WINDOW, 10, window);
             (X11_CHANGE_PROPERTY, 9, window);
             (X11_CONFIGURE_WINDOW, 5, window);
             (X11_MAP_WINDOW, 2, window)].
Proof.
  intros Hid Hfont Htitle font gc window run requests.
  subst run requests.
  rewrite (@writes_only_sent _ _ w (create_resources_writes host conn mem)).
  split; [apply create_resources_result |].
  rewrite (create_resources_writes host conn mem w). cbn [fst snd rx tx].
  destruct (third_identifier (id conn) (id_inc conn)) as [Ewin Enext].
  assert (Hgc : is_uint32 gc)
    by (subst gc; unfold is_uint32; lia).
  assert (Hwin : is_uint32 window)
    by (subst window; unfold is_uint32; lia).
  unfold create_resources. cbv zeta.
  cbn [x11_generate_id fst snd id id_inc fd screen].
  rewrite Enext, Ewin.
  change (to_uint32 (id conn + id_inc conn)) with gc.
  fold window. fold font.
  split; [reflexivity |]. split; [reflexivity |].
  repeat (rewrite bytes_written_then by writes_chain).
  change (bytes_written (ret _)) with (@nil Z).
  match goal with
  | |- context [bytes_written (x11_open_font ?h ?c ?f ?n ?l)] =>
      assert (F1 : request_for host X11_OPEN_FONT 5 font
                     (bytes_written (x11_open_font h c f n l)))
        by (apply (@open_font_frame h c f (after_font_name mem));
            assumption);
      set (f1 := bytes_written (x11_open_font h c f n l)) in *
  end.
  match goal with
  | |- context [bytes_written (x11_create_gc ?h ?c ?g ?d ?m ?l ?z)] =>
      assert (F2 : request_for host X11_CREATE_GC 7 gc
                     (bytes_written (x11_create_gc h c g d m l z)))
        by (apply (@create_gc_frame h c g d m l);
            [assumption | cbn [length]; lia]);
      set (f2 := bytes_written (x11_create_gc h c g d m l z)) in *
  end.
  match goal with
  | |- context [bytes_written (x11_close_font ?h ?c ?f)] =>
      assert (F3 : request_for host X11_CLOSE_FONT 2 font
                     (bytes_written (x11_close_font h c f)))
        by (apply close_font_frame; assumption);
      set (f3 := bytes_written (x11_close_font h c f)) in *
  end.
  match goal with
  | |- context [bytes_written
                  (x11_create_window ?h ?c ?d ?i ?p ?x ?y ?wd ?ht ?b ?cl ?v
                     ?m ?l ?z)] =>
      assert (F4 : request_for host X11_CREATE_WINDOW 10 window
                     (bytes_written
                        (x11_create_window h c d i p x y wd ht b cl v
                           m l z)))
        by (apply (@create_window_frame h c d i p x y wd ht b cl v m l);
            [assumption | cbn [length]; lia]);
      set (f4 := bytes_written
                   (x11_create_window h c d i p x y wd ht b cl v m l z)) in *
  end.
  match goal with
  | |- context [bytes_written (x11_change_property ?h ?c ?m ?i ?p ?t ?f ?d ?l)]
    =>
      assert (F5 : request_for host X11_CHANGE_PROPERTY 9 window
                     (bytes_written (x11_change_property h c m i p t f d l)))
        by (apply (@change_property_frame h c m i p t f
                     (after_window_title mem)); assumption);
      set (f5 := bytes_written (x11_change_property h c m i p t f d l)) in *
  end.
  match goal with
  | |- context [bytes_written (x11_configure_window ?h ?c ?i ?m ?l ?z)] =>
      assert (F6 : request_for host X11_CONFIGURE_WINDOW 5 window
                     (bytes_written (x11_configure_window h c i m l z)))
        by (apply (@configure_window_frame h c i m l);
            [assumption | cbn [length]; lia]);
      set (f6 := bytes_written (x11_configure_window h c i m l z)) in *
  end.
  match goal with
  | |- context [bytes_written (x11_map_window ?h ?c ?i)] =>
      assert (F7 : request_for host X11_MAP_WINDOW 2 window
                     (bytes_written (x11_map_window h c i)))
        by (apply map_window_frame; assumption);
      set (f7 := bytes_written (x11_map_window h c i)) in *
  end.
  assert (Hlen : length (f1 ++ f2 ++ f3 ++ f4 ++ f5 ++ f6 ++ f7 ++ [])
                 = 160%nat).
  { rewrite !length_app. cbn [length].
    destruct F1 as [L1 _], F2 as [L2 _], F3 as [L3 _], F4 as [L4 _],
             F5 as [L5 _], F6 as [L6 _], F7 as [L7 _]. lia. }
  split; [exact Hlen |].
  exists [f1; f2; f3; f4; f5; f6; f7]. rewrite Hlen. split.
  - rewrite (@request_frames_step host _ _ _ _ f1 _ F1) by lia.
    rewrite (@request_frames_step host _ _ _ _ f2 _ F2) by lia.
    rewrite (@request_frames_step host _ _ _ _ f3 _ F3) by lia.
    rewrite (@request_frames_step host _ _ _ _ f4 _ F4) by lia.
    rewrite (@request_frames_step host _ _ _ _ f5 _ F5) by lia.
    rewrite (@request_frames_step host _ _ _ _ f6 _ F6) by lia.
    rewrite (@request_frames_step host _ _ _ _ f7 _ F7) by lia.
    reflexivity.
  - cbn [map].
    rewrite (proj2 F1), (proj2 F2), (proj2 F3), (proj2 F4), (proj2 F5),
      (proj2 F6), (proj2 F7).
    reflexivity.
Qed.

Lemma create_resources_requests_witness :
  let conn := Connection 3 4194304 1 (repeat 0 40) in
  let mem :=
    ProgramMemory [72; 101] [72] [] (Connection 0 0 0 []) (Event 0) in
  length (sent (create_resources BigEndian conn mem) (World [] [] false))
  = 160%nat
  /\ fst (create_resources BigEndian conn mem (World [] [] false))
     = (Connection 3 4194307 1 (repeat 0 40), 4194306, 4194305).
Proof.
  intros conn mem.
  destruct (@create_resources_requests BigEndian conn mem
              (World [] [] false)) as (H1 & _ & _ & H2 & _).
  - unfold is_uint32. cbn. lia.
  - cbn. lia.
  - cbn. lia.
  - exact (conj H2 H1).
Defined.

(** *** The whole program *)

Lemma consumes_ret {A} (a : A) : consumes (ret a).
Proof. intros w. exists 0%nat. reflexivity. Qed.

Lemma consumes_bind {A B} (m : IO A) (k : A -> IO B) :
  consumes m -> (forall a, consumes (k a)) -> consumes (bind m k).
Proof.
  intros Hm Hk w. unfold bind. destruct (m w) as [a w'] eqn:E.
  destruct (Hm w) as [k1 H1]. rewrite E in H1. cbn [snd] in H1.
  destruct (Hk a w') as [k2 H2]. exists (k1 + k2)%nat.
  rewrite H2, H1, skipn_skipn. f_equal. lia.
Qed.

Lemma consumes_sys_read (n : nat) : consumes (sys_read n).
Proof.
  intros w. unfold sys_read. destruct (rx_fail w).
  - exists 0%nat. reflexivity.
  - exists n. reflexivity.
Qed.

Create HintDb consume.

#[local] Hint Resolve consumes_ret consumes_bind consumes_sys_read : consume.

Lemma consumes_visuals (k : nat) : consumes (read_visuals k).
Proof. induction k; cbn [read_visuals]; auto with consume. Qed.

#[local] Hint Resolve consumes_visuals : consume.

Lemma consumes_depths (host : byte_order) (p : process) (j : nat) :
  consumes (read_depths host p j).
Proof. induction j; cbn [read_depths]; auto 6 with consume. Qed.

#[local] Hint Resolve consumes_depths : consume.

Lemma consumes_screens (host : byte_order) (p : process) (n i : nat)
    (conn : x11_connection_t) (unused : list Z) :
  consumes (read_screens host p n i conn unused).
Proof.
  revert i conn unused; induction n; intros; cbn [read_screens];
    auto 6 with consume.
Qed.

#[local] Hint Resolve consumes_screens : consume.

(** What [main] knows after a handshake the server accepted. *)
Lemma connect_accepted (host : byte_order) (p : process)
    (conn : x11_connection_t) (w : world) (reply rest : list Z) :
  rx_fail w = false -> rx w = reply ++ rest -> length reply = 40%nat ->
  setup_status reply = 1 ->
  exists conn' events k,
    x11_connect host p conn w
    = ((true, conn'),
       World events (tx w ++ sent (x11_connect host p conn) w) false)
    /\ events = skipn k rest.
Proof.
  intros Hf Hr Hl Hs.
  destruct (@connect_run host p conn w reply rest Hf Hr Hl) as (out & _ & E).
  pose proof (@connect_success_ids host p conn w reply rest Hf Hr Hl Hs)
    as (Hok & _).
  cbv zeta in Hok. unfold sent. rewrite E in *.
  apply Z.eqb_eq in Hs. rewrite Hs in *. cbn [negb] in *.
  match goal with
  | |- context [?m (World rest (tx w ++ out) false)] =>
      assert (Hro : reads_only m)
        by auto 8 using reads_only_screens with reads;
      assert (Hco : consumes m) by auto 8 with consume;
      destruct (Hro (World rest (tx w ++ out) false)) as [Htx Hfail];
      destruct (Hco (World rest (tx w ++ out) false)) as [k Hrx];
      destruct (m (World rest (tx w ++ out) false)) as [[ok c] [i o f]]
  end.
  cbn [fst snd rx tx rx_fail] in *. subst ok o f i.
  exists c, (skipn k rest), k. rewrite skipn_exact. auto.
Qed.

(** X19: when the server refuses the handshake (a complete reply whose
    status is not 1), the demonstration program stops with the failure
    status after one message on the error stream, whatever the number of
    loop turns allowed: it has sent the handshake and nothing else, has
    read the 40 bytes of the reply only, and has printed nothing on the
    standard output. *)
Theorem main_connection_refused (host : byte_order) (fuel : nat)
    (p : process) (mem : program_memory) (w : world)
    (reply rest : list Z) :
  rx_fail w = false -> rx w = reply ++ rest -> length reply = 40%nat ->
  setup_status reply <> 1 ->
  let run := main host fuel p mem w in
  fst run
  = Some (EXIT_FAILURE,
          [fprintf_stderr ("Can't connect to X11 display" ++ newline)])
  /\ rx (snd run) = rest
  /\ sent (main host fuel p mem) w
     = sent (x11_connect host p (uninitialized_conn mem)) w.
Proof.
  intros Hf Hr Hl Hs run. subst run.
  destruct (@connect_run host p (uninitialized_conn mem) w reply rest
              Hf Hr Hl) as (out & _ & E).
  apply Z.eqb_neq in Hs. rewrite Hs in E. cbn [negb] in E.
  unfold sent, main, bind. rewrite E. cbn [fst snd negb]. unfold ret.
  cbn [fst snd rx tx]. auto.
Qed.

Lemma main_connection_refused_witness :
  let w := World (mock_setup_failed ++ [7; 7]) [] false in
  let mem := ProgramMemory [] [] [] fresh_connection (Event 0) in
  let run := main LittleEndian 5 mock_process mem w in
  fst run
  = Some (1, [fprintf_stderr ("Can't connect to X11 display" ++ newline)])
  /\ rx (snd run) = [7; 7].
Proof.
  intros w mem run.
  destruct (@main_connection_refused LittleEndian 5 mock_process mem w
              mock_setup_failed [7; 7]) as (H1 & H2 & _).
  - reflexivity.
  - reflexivity.
  - reflexivity.
  - vm_compute. discriminate.
  - exact (conj H1 H2).
Defined.

(** X20: when the server accepts the handshake and later closes the
    stream, the demonstration program ends with the success status after
    printing the size of the screen stored in the connection.  It has
    consumed the whole stream, and what it sent is the handshake, then the
    requests creating its resources, then one drawing batch for each
    event of code 12 that followed the setup data, the batches naming the
    third and the second identifier of the connection as window and
    graphics context. *)
Theorem main_until_end_of_stream (host : byte_order) (fuel : nat)
    (p : process) (mem : program_memory) (w : world)
    (reply rest : list Z) :
  rx_fail w = false -> rx w = reply ++ rest -> length reply = 40%nat ->
  setup_status reply = 1 ->
  Forall is_byte rest -> (length rest < fuel)%nat ->
  let connected := x11_connect host p (uninitialized_conn mem) w in
  let conn := snd (fst connected) in
  let events := rx (snd connected) in
  let gc := (id conn + id_inc conn) mod 2 ^ 32 in
  let window := (id conn + 2 * id_inc conn) mod 2 ^ 32 in
  let run := main host fuel p mem w in
  fst run
  = Some (EXIT_SUCCESS,
          [printf_screen (screen_width_in_pixels host (screen conn))
                         (screen_height_in_pixels host (screen conn))])
  /\ rx (snd run) = []
  /\ sent (main host fuel p mem) w
     = sent (x11_connect host p (uninitialized_conn mem)) w
       ++ sent (create_resources host conn mem) w
       ++ concat (repeat (drawing_batch host window gc)
                    (count_exposures (length events) events)).
Proof.
  intros Hf Hr Hl Hs Hb Hfuel connected conn events gc window run.
  subst run gc window events conn connected.
  destruct (@connect_accepted host p (uninitialized_conn mem) w reply rest
              Hf Hr Hl Hs) as (conn & events & k & E & Ek).
  set (handshake := sent (x11_connect host p (uninitialized_conn mem)) w)
    in *.
  rewrite E. cbn [fst snd rx].
  rewrite (@writes_only_sent _ _ w (create_resources_writes host conn mem)).
  assert (Hev : Forall is_byte events)
    by (subst events; apply Forall_is_byte_skipn; exact Hb).
  assert (Hlen : (length events < fuel)%nat)
    by (subst events; rewrite length_skipn; lia).
  assert (M : main host fuel p mem w
              = (Some (EXIT_SUCCESS,
                       [printf_screen
                          (screen_width_in_pixels host (screen conn))
                          (screen_height_in_pixels host (screen conn))]),
                 World []
                   (((tx w ++ handshake)
                     ++ bytes_written (create_resources host conn mem))
                    ++ concat
                         (repeat
                            (drawing_batch host
                               ((id conn + 2 * id_inc conn) mod 2 ^ 32)
                               ((id conn + id_inc conn) mod 2 ^ 32))
                            (count_exposures (length events) events)))
                   false)).
  { unfold main. unfold bind at 1. rewrite E. cbn [fst snd negb].
    unfold bind at 1.
    rewrite (create_resources_writes host conn mem
               (World events (tx w ++ handshake) false)).
    rewrite create_resources_result. cbn [fst snd rx tx rx_fail].
    unfold bind.
    match goal with
    | |- context [event_loop host fuel ?c ?wi ?g
                    (string_literal _ ?a) ?e ?W] =>
        destruct (@event_loop_run host c wi g a fuel e W eq_refl Hev Hlen)
          as [last EQ]
    end.
    cbn [rx tx rx_fail] in EQ. rewrite EQ. reflexivity. }
  unfold sent. rewrite M. cbn [fst snd rx tx].
  split; [reflexivity |]. split; [reflexivity |].
  rewrite <- !app_assoc. apply skipn_exact.
Qed.

Lemma main_until_end_of_stream_witness :
  let w := World (mock_setup_success ++ [12; 0; 0; 0; 0; 0; 0; 0; 0; 0; 0; 0;
                                         0; 0; 5]) [] false in
  let mem := ProgramMemory [0; 0] [0] [] fresh_connection (Event 0) in
  let run := main LittleEndian 20 mock_process mem w in
  rx (snd run) = [] /\ exists printed, fst run = Some (0, printed).
Proof.
  intros w mem run.
  destruct (@main_until_end_of_stream LittleEndian 20 mock_process mem w
              mock_setup_success
              [12; 0; 0; 0; 0; 0; 0; 0; 0; 0; 0; 0; 0; 0; 5])
    as (H1 & H2 & _).
  - reflexivity.
  - reflexivity.
  - reflexivity.
  - reflexivity.
  - repeat (constructor; [unfold is_byte; lia |]). constructor.
  - cbn. lia.
  - split; [exact H2 |]. eexists. exact H1.
Defined.

(** *** C strings as payloads *)

Lemma strlen_terminated (s after : list Z) :
  Forall (fun c => c <> 0) s ->
  strlen (s ++ 0 :: after) = Z.of_nat (length s).
Proof.
  induction 1 as [| c s Hc _ IH]; [reflexivity |].
  cbn [app strlen length]. apply Z.eqb_neq in Hc. rewrite Hc, IH. lia.
Qed.

Lemma firstn_terminated (s after : list Z) (L : Z) :
  L = Z.of_nat (length s) -> L + 3 < 2 ^ 64 ->
  firstn (Z.to_nat (align4 L)) (s ++ 0 :: after)
  = s ++ firstn (Z.to_nat (pad4 L - L)) (0 :: after).
Proof.
  intros HL Hb. rewrite align4_pad4 by lia.
  pose proof (pad4_spec L) as Hp.
  replace (Z.to_nat (pad4 L)) with (length s + Z.to_nat (pad4 L - L))%nat
    by lia.
  rewrite firstn_add_split, firstn_exact, skipn_exact. reflexivity.
Qed.

Lemma skipn_header (h x : list Z) (k : nat) :
  length h = k -> skipn k (h ++ x) = x.
Proof. intros <-. apply skipn_exact. Qed.

(** X21: a caller that passes a C string and its [strlen], as the
    demonstration program does for the font name, the window title and
    the text it draws, gets as padding the terminating zero of the
    string followed by the bytes that lie behind it in memory: with a
    string of [L] bytes the payload written after the header is the
    string, then the first [pad4 L - L] bytes found from the terminator
    on. *)
Theorem c_string_payloads (host : byte_order) (conn : x11_connection_t)
    (fid mode window property type_ format drawable gc x y : Z)
    (s after : list Z) (w : world) :
  Forall (fun c => c <> 0) s -> Z.of_nat (length s) + 3 < 2 ^ 64 ->
  let text := s ++ 0 :: after in
  let L := strlen text in
  let padding := firstn (Z.to_nat (pad4 L - L)) (0 :: after) in
  L = Z.of_nat (length s)
  /\ skipn 12 (sent (x11_open_font host conn fid text L) w) = s ++ padding
  /\ skipn 24 (sent (x11_change_property host conn mode window property
                       type_ format text L) w)
     = s ++ padding
  /\ skipn 16 (sent (x11_image_text_8 host conn drawable gc x y text L) w)
     = s ++ padding.
Proof.
  intros Hs Hb text L padding. subst padding L text.
  rewrite (@strlen_terminated s after Hs).
  split; [reflexivity |].
  rewrite open_font_message, change_property_message, image_text_8_message.
  rewrite !(@firstn_terminated s after (Z.of_nat (length s)) eq_refl Hb).
  split; [| split]; apply skipn_header; image_length.
Qed.

Lemma c_string_payloads_witness :
  skipn 12 (sent (x11_open_font BigEndian fresh_connection 1
                    (bytes_of_string "fixed" ++ 0 :: [88; 89; 90]) 5)
              (World [] [] false))
  = bytes_of_string "fixed" ++ [0; 88; 89].
Proof.
  destruct (@c_string_payloads BigEndian fresh_connection 1 0 0 0 0 0 0 0 0 0
              (bytes_of_string "fixed") [88; 89; 90] (World [] [] false))
    as (_ & H & _).
  - repeat (constructor; [discriminate |]). constructor.
  - cbn. lia.
  - exact H.
Defined.
